(** * Slot availability of medibuddy-assist

    A shallow embedding of [getAvailableTimeSlots]
    (src/actions/appointments.ts) together with the parts of the JavaScript
    [Date] object and of date-fns that the function calls, and the proofs of
    the properties its specification states.

    Conventions of the model.
    - A [Date] is its time value: an integer number of milliseconds since
      the epoch, a [Z].  Every date the function handles comes from the
      system clock or from a database column, so the invalid date is left
      out.
    - Local time is UTC shifted by one offset [tz] (milliseconds), the same
      for every instant the function handles: the four days it looks at
      and the stored start and end of the availability row.  In a zone
      with daylight saving the offset at the date of the stored row can
      differ from the offset of the four days; the window the code moves
      to a day is then shifted by that difference, and such runs are
      outside the model.
    - [toISOString] prints an instant without loss, so a slot keeps the
      instant itself in [startTime] and [endTime]; likewise the key
      "yyyy-MM-dd" of a day is kept as its year, month and day fields.
    - The database is a snapshot of its three tables; a query is a filter
      over the rows. *)

From Stdlib Require Import ZArith Bool String Ascii Sorted List Lia.
From Equations Require Import Equations.
Import ListNotations.
Local Open Scope Z_scope.

(* ===================================================================== *)
(** ** The Date object: day numbers and calendar fields *)
(* ===================================================================== *)

Module ECMA.

Definition msPerMinute : Z := 60000.
Definition msPerHour : Z := 3600000.
Definition msPerDay : Z := 86400000.

Definition Day (t : Z) : Z := t / msPerDay.
Definition TimeWithinDay (t : Z) : Z := t mod msPerDay.
Definition MakeDate (day time : Z) : Z := day * msPerDay + time.

(** Days are grouped in eras of 400 years (146097 days) that start on
    March 1st; [civil_of_doe] gives the year of the era, the month (1..12)
    and the day of the month of the [doe]-th day of an era. *)
Definition daysPerEra : Z := 146097.
Definition eraShift : Z := 719468.

Definition civil_of_doe (doe : Z) : Z * Z * Z :=
  let yoe := (doe - doe / 1460 + doe / 36524 - doe / 146096) / 365 in
  let doy := doe - (365 * yoe + yoe / 4 - yoe / 100) in
  let mp := (5 * doy + 2) / 153 in
  let d := doy - (153 * mp + 2) / 5 + 1 in
  let m := if mp <? 10 then mp + 3 else mp - 9 in
  (yoe, m, d).

Definition doe_of_civil (yoe m d : Z) : Z :=
  let doy := (153 * (if 2 <? m then m - 3 else m + 9) + 2) / 5 + d - 1 in
  yoe * 365 + yoe / 4 - yoe / 100 + doy.

Definition civil_from_days (z : Z) : Z * Z * Z :=
  let z' := z + eraShift in
  let era := z' / daysPerEra in
  let '(yoe, m, d) := civil_of_doe (z' mod daysPerEra) in
  (yoe + era * 400 + (if m <=? 2 then 1 else 0), m, d).

Definition days_from_civil (y m d : Z) : Z :=
  let y' := y - (if m <=? 2 then 1 else 0) in
  let era := y' / 400 in
  era * daysPerEra + doe_of_civil (y' mod 400) m d - eraShift.

(** The field accessors of a time value (in the time scale it is given). *)
Definition YearFromTime (t : Z) : Z := fst (fst (civil_from_days (Day t))).
Definition MonthFromTime (t : Z) : Z := snd (fst (civil_from_days (Day t))) - 1.
Definition DateFromTime (t : Z) : Z := snd (civil_from_days (Day t)).
Definition WeekDay (t : Z) : Z := (Day t + 4) mod 7.
Definition HourFromTime (t : Z) : Z := (t / msPerHour) mod 24.
Definition MinFromTime (t : Z) : Z := (t / msPerMinute) mod 60.

(** [MakeDay year month date]: the day number of the first of the month,
    plus [date - 1]; [month] counts from 0 and may leave 0..11. *)
Definition MakeDay (year month date : Z) : Z :=
  days_from_civil (year + month / 12) (month mod 12 + 1) 1 + date - 1.

Section LocalTime.
Variable tz : Z.

Definition LocalTime (t : Z) : Z := t + tz.
Definition UTC (t : Z) : Z := t - tz.

Definition getFullYear (t : Z) : Z := YearFromTime (LocalTime t).
Definition getMonth (t : Z) : Z := MonthFromTime (LocalTime t).
Definition getDate (t : Z) : Z := DateFromTime (LocalTime t).
Definition getDay (t : Z) : Z := WeekDay (LocalTime t).
Definition getHours (t : Z) : Z := HourFromTime (LocalTime t).
Definition getMinutes (t : Z) : Z := MinFromTime (LocalTime t).

(** [d.setFullYear(year, month, date)]: the local time of day is kept. *)
Definition setFullYear (t year month date : Z) : Z :=
  UTC (MakeDate (MakeDay year month date) (TimeWithinDay (LocalTime t))).

(** [d.setDate(date)]. *)
Definition setDate (t date : Z) : Z :=
  UTC (MakeDate (MakeDay (getFullYear t) (getMonth t) date)
                (TimeWithinDay (LocalTime t))).

(** [d.setHours(h, m, s, ms)]. *)
Definition setHours (t h m s ms : Z) : Z :=
  UTC (MakeDate (Day (LocalTime t))
                (h * msPerHour + m * msPerMinute + s * 1000 + ms)).
End LocalTime.

End ECMA.

Import ECMA.

(* ===================================================================== *)
(** ** date-fns: the five functions the action imports *)
(* ===================================================================== *)

(** The key "yyyy-MM-dd" of a calendar day. *)
Record CalendarDate : Type := mkCalendarDate
  { year : Z; month : Z; dayOfMonth : Z }.

Definition CalendarDate_eqb (a b : CalendarDate) : bool :=
  (year a =? year b) && (month a =? month b) && (dayOfMonth a =? dayOfMonth b).

(** [new Date("yyyy-MM-dd")]: a date-only string is read as UTC midnight. *)
Definition parseDateOnly (d : CalendarDate) : Z :=
  MakeDate (days_from_civil (year d) (month d) (dayOfMonth d)) 0.

Module DateFns.

Definition digit (n : Z) : ascii := ascii_of_nat (48 + Z.to_nat n).

Definition twoDigits (n : Z) : string :=
  String (digit (n / 10)) (String (digit (n mod 10)) EmptyString).

Definition decimal (n : Z) : string :=
  if n <? 10 then String (digit n) EmptyString else twoDigits n.

Definition weekdayNames : list string :=
  ["Sunday"; "Monday"; "Tuesday"; "Wednesday"; "Thursday"; "Friday";
   "Saturday"]%string.

Definition monthNames : list string :=
  ["January"; "February"; "March"; "April"; "May"; "June"; "July";
   "August"; "September"; "October"; "November"; "December"]%string.

Definition addMinutes (date amount : Z) : Z := date + amount * msPerMinute.

Definition isBefore (date dateToCompare : Z) : bool := date <? dateToCompare.

Section WithZone.
Variable tz : Z.

(** [addDays]: [setDate(getDate() + amount)] on a copy; nothing is done
    for an amount of 0. *)
Definition addDays (date amount : Z) : Z :=
  if amount =? 0 then date else setDate tz date (getDate tz date + amount).

Definition endOfDay (date : Z) : Z := setHours tz date 23 59 59 999.

(** [format(date, "yyyy-MM-dd")]. *)
Definition format_yyyy_MM_dd (date : Z) : CalendarDate :=
  {| year := getFullYear tz date;
     month := getMonth tz date + 1;
     dayOfMonth := getDate tz date |}.

(** [format(date, "EEEE, MMMM d")]. *)
Definition format_EEEE_MMMM_d (date : Z) : string :=
  (nth (Z.to_nat (getDay tz date)) weekdayNames "" ++ ", "
   ++ nth (Z.to_nat (getMonth tz date)) monthNames "" ++ " "
   ++ decimal (getDate tz date))%string.

(** [format(date, "h:mm a")]. *)
Definition format_h_mm_a (date : Z) : string :=
  let h := getHours tz date in
  let h12 := if h mod 12 =? 0 then 12 else h mod 12 in
  let morning := h <? 12 in
  (decimal h12 ++ ":" ++ twoDigits (getMinutes tz date) ++ " "
   ++ (if morning then "AM" else "PM"))%string.
End WithZone.

End DateFns.
Import DateFns.

(* ===================================================================== *)
(** ** The rows of the database and the records of the result *)
(* ===================================================================== *)

Inductive UserRole : Type := UNASSIGNED | PATIENT | DOCTOR | ADMIN.
Inductive VerificationStatus : Type := PENDING | VERIFIED | REJECTED.
Inductive SlotStatus : Type := AVAILABLE | UNAVAILABLE.
Inductive AppointmentStatus : Type := SCHEDULED | COMPLETED | CANCELLED.

Definition UserRole_eqb (a b : UserRole) : bool :=
  match a, b with
  | UNASSIGNED, UNASSIGNED | PATIENT, PATIENT | DOCTOR, DOCTOR
  | ADMIN, ADMIN => true
  | _, _ => false
  end.

Definition VerificationStatus_eqb (a b : VerificationStatus) : bool :=
  match a, b with
  | PENDING, PENDING | VERIFIED, VERIFIED | REJECTED, REJECTED => true
  | _, _ => false
  end.

Definition SlotStatus_eqb (a b : SlotStatus) : bool :=
  match a, b with
  | AVAILABLE, AVAILABLE | UNAVAILABLE, UNAVAILABLE => true
  | _, _ => false
  end.

Definition AppointmentStatus_eqb (a b : AppointmentStatus) : bool :=
  match a, b with
  | SCHEDULED, SCHEDULED | COMPLETED, COMPLETED | CANCELLED, CANCELLED => true
  | _, _ => false
  end.

Module User.
Record t : Type := mk
  { id : string; role : UserRole; verificationStatus : VerificationStatus }.
End User.

Module Availability.
Record t : Type := mk
  { doctorId : string; startTime : Z; endTime : Z; status : SlotStatus }.
End Availability.

Module Appointment.
Record t : Type := mk
  { doctorId : string; startTime : Z; endTime : Z;
    status : AppointmentStatus }.
End Appointment.

Module TimeSlot.
Record t : Type := mk
  { startTime : Z; endTime : Z; formatted : string; day : string }.
End TimeSlot.

Module TimeSlotDay.
Record t : Type := mk
  { date : CalendarDate; displayDate : string; slots : list TimeSlot.t }.
End TimeSlotDay.

(** What the action reads from its surroundings: the system clock
    ([new Date()]), the zone of the process and the three tables. *)
Record World : Type := mkWorld
  { clock : Z;
    timeZone : Z;
    users : list User.t;
    availabilities : list Availability.t;
    appointments : list Appointment.t }.

(** The outcome of the promise the action returns. *)
Inductive Outcome (A : Type) : Type :=
| Resolved (value : A)
| Rejected (message : string).
Arguments Resolved {A} value.
Arguments Rejected {A} message.

(** [try { ... } catch (error) { throw new Error(prefix + error.message) }] *)
Definition tryCatch {A : Type} (prefix : string) (body : Outcome A)
  : Outcome A :=
  match body with
  | Resolved v => Resolved v
  | Rejected m => Rejected (prefix ++ m)
  end.

(* ===================================================================== *)
(** ** A JavaScript object used as a map, keys in insertion order *)
(* ===================================================================== *)

Section JSObject.
Context {V : Type}.

(** [obj[key] = v]: an own key keeps its place, a new key goes last. *)
Fixpoint obj_set (obj : list (CalendarDate * V)) (key : CalendarDate) (v : V)
  : list (CalendarDate * V) :=
  match obj with
  | [] => [(key, v)]
  | (k, x) :: rest =>
      if CalendarDate_eqb k key then (k, v) :: rest
      else (k, x) :: obj_set rest key v
  end.

Definition Object_entries (obj : list (CalendarDate * V))
  : list (CalendarDate * V) := obj.
End JSObject.

(* ===================================================================== *)
(** ** The action [getAvailableTimeSlots] *)
(* ===================================================================== *)

Definition inspect {A : Type} (a : A) : {b : A | a = b} := exist _ a eq_refl.

(** The variables of the [while] loop that change: the cursor [current] and
    the array [availableSlotsByDay[dayString]] the loop pushes to. *)
Record LoopState : Type := mkLoopState
  { current : Z; pushed : list TimeSlot.t }.

(** The callback of [existingAppointments.some(...)]. *)
Definition overlapsAppointment (current next : Z) (appointment : Appointment.t)
  : bool :=
  let aStart := Appointment.startTime appointment in
  let aEnd := Appointment.endTime appointment in
  ((current >=? aStart) && (current <? aEnd))
  || ((next >? aStart) && (next <=? aEnd))
  || ((current <=? aStart) && (next >=? aEnd)).

Definition makeSlot (tz current next : Z) : TimeSlot.t :=
  {| TimeSlot.startTime := current;
     TimeSlot.endTime := next;
     TimeSlot.formatted :=
       (format_h_mm_a tz current ++ " - " ++ format_h_mm_a tz next)%string;
     TimeSlot.day := format_EEEE_MMMM_d tz current |}.

(** The condition of the [while]. *)
Definition loopGuard (end_ : Z) (st : LoopState) : bool :=
  isBefore (addMinutes (current st) 30) end_
  || (addMinutes (current st) 30 =? end_).

(** One pass through the body of the [while]. *)
Definition loopBody (tz now : Z) (existingAppointments : list Appointment.t)
  (st : LoopState) : LoopState :=
  let next := addMinutes (current st) 30 in
  if isBefore (current st) now then
    {| current := next; pushed := pushed st |}
  else
    let overlaps :=
      existsb (overlapsAppointment (current st) next) existingAppointments in
    if negb overlaps then
      {| current := next;
         pushed := pushed st ++ [makeSlot tz (current st) next] |}
    else
      {| current := next; pushed := pushed st |}.

Equations? whileLoop (tz now : Z) (existingAppointments : list Appointment.t)
  (end_ : Z) (st : LoopState) : LoopState
  by wf (Z.to_nat ((end_ - current st) / (30 * msPerMinute))) lt :=
  whileLoop tz now existingAppointments end_ st
    with inspect (loopGuard end_ st) := {
    | exist _ true _ =>
        whileLoop tz now existingAppointments end_
          (loopBody tz now existingAppointments st)
    | exist _ false _ => st }.
Proof.
  unfold loopGuard, isBefore, addMinutes in e.
  apply orb_true_iff in e. rewrite Z.ltb_lt, Z.eqb_eq in e.
  assert (Hc : current (loopBody tz now existingAppointments st)
               = current st + 30 * msPerMinute).
  { unfold loopBody, addMinutes.
    destruct (isBefore (current st) now); [reflexivity|].
    destruct (negb _); reflexivity. }
  rewrite Hc. clear Hc.
  change (30 * msPerMinute) with 1800000 in *.
  replace (end_ - current st)
    with (end_ - (current st + 1800000) + 1 * 1800000) by lia.
  rewrite Z.div_add by discriminate.
  assert (0 <= (end_ - (current st + 1800000)) / 1800000)
    by (apply Z.div_pos; lia).
  lia.
Qed.

(** The body of [for (const day of days)]: the window of the doctor is
    moved to the calendar day of [day], then walked in steps of 30 minutes. *)
Definition slotsForDay (tz now : Z) (existingAppointments : list Appointment.t)
  (availability : Availability.t) (day : Z) : list TimeSlot.t :=
  let availabilityStart :=
    setFullYear tz (Availability.startTime availability)
      (getFullYear tz day) (getMonth tz day) (getDate tz day) in
  let availabilityEnd :=
    setFullYear tz (Availability.endTime availability)
      (getFullYear tz day) (getMonth tz day) (getDate tz day) in
  pushed (whileLoop tz now existingAppointments availabilityEnd
            {| current := availabilityStart; pushed := [] |}).

(** [db.user.findUnique({ where: { id, role: "DOCTOR",
    verificationStatus: "VERIFIED" } })] *)
Definition findDoctor (w : World) (doctorId : string) : option User.t :=
  find (fun u =>
          String.eqb (User.id u) doctorId
          && UserRole_eqb (User.role u) DOCTOR
          && VerificationStatus_eqb (User.verificationStatus u) VERIFIED)
       (users w).

(** [db.availability.findFirst({ where: { doctorId, status: "AVAILABLE" } })] *)
Definition findAvailability (w : World) (doctorId : string)
  : option Availability.t :=
  find (fun a =>
          String.eqb (Availability.doctorId a) doctorId
          && SlotStatus_eqb (Availability.status a) AVAILABLE)
       (availabilities w).

(** [db.appointment.findMany({ where: { doctorId, status: "SCHEDULED",
    startTime: { lte: lastDay } } })] *)
Definition findAppointments (w : World) (doctorId : string) (lastDay : Z)
  : list Appointment.t :=
  filter (fun a =>
            String.eqb (Appointment.doctorId a) doctorId
            && AppointmentStatus_eqb (Appointment.status a) SCHEDULED
            && (Appointment.startTime a <=? lastDay))
         (appointments w).

(** The callback of [Object.entries(availableSlotsByDay).map(...)]. *)
Definition toTimeSlotDay (tz : Z) (entry : CalendarDate * list TimeSlot.t)
  : TimeSlotDay.t :=
  let '(date, slots) := entry in
  {| TimeSlotDay.date := date;
     TimeSlotDay.displayDate :=
       match slots with
       | s :: _ => TimeSlot.day s
       | [] => format_EEEE_MMMM_d tz (parseDateOnly date)
       end;
     TimeSlotDay.slots := slots |}.

Definition fourDays (tz now : Z) : list Z :=
  [now; addDays tz now 1; addDays tz now 2; addDays tz now 3].

Definition getAvailableTimeSlots (w : World) (doctorId : string)
  : Outcome (list TimeSlotDay.t) :=
  tryCatch "Failed to fetch available slots: "
    match findDoctor w doctorId with
    | None => Rejected "Doctor not found or not verified"
    | Some doctor =>
        match findAvailability w (User.id doctor) with
        | None => Rejected "No availability set by doctor"
        | Some availability =>
            let tz := timeZone w in
            let now := clock w in
            let days := fourDays tz now in
            let lastDay := endOfDay tz (nth 3 days 0) in
            let existingAppointments :=
              findAppointments w (User.id doctor) lastDay in
            let availableSlotsByDay :=
              fold_left
                (fun obj day =>
                   obj_set obj (format_yyyy_MM_dd tz day)
                     (slotsForDay tz now existingAppointments availability
                        day))
                days [] in
            Resolved (map (toTimeSlotDay tz)
                        (Object_entries availableSlotsByDay))
        end
    end.

(* ===================================================================== *)
(** ** Facts about the calendar *)
(* ===================================================================== *)

Module CalendarFacts.

(** What one day of an era must satisfy: its fields are in range and
    [doe_of_civil] leads back to it. *)
Definition era_day_ok (doe : Z) : bool :=
  let '(yoe, m, d) := civil_of_doe doe in
  (0 <=? yoe) && (yoe <? 400) && (1 <=? m) && (m <=? 12)
  && (1 <=? d) && (d <=? 31) && (doe_of_civil yoe m d =? doe).

Fixpoint all_from (n : nat) (z : Z) (p : Z -> bool) : bool :=
  match n with
  | O => true
  | S k => p z && all_from k (z + 1) p
  end.

Lemma all_from_spec (p : Z -> bool) (n : nat) :
  forall z, all_from n z p = true ->
  forall k, z <= k < z + Z.of_nat n -> p k = true.
Proof.
  induction n as [|n IH]; intros z H k Hk.
  - simpl in Hk. lia.
  - cbn [all_from] in H. apply andb_true_iff in H. destruct H as [Hz Hr].
    destruct (Z.eq_dec k z) as [->|Hne]; [exact Hz|].
    apply (IH (z + 1) Hr). lia.
Qed.

(** Checked by running through the 146097 days of an era. *)
Lemma era_days_ok : all_from (Z.to_nat daysPerEra) 0 era_day_ok = true.
Proof. vm_cast_no_check (@eq_refl bool true). Qed.

Lemma era_day_ok_at (doe : Z) :
  0 <= doe < daysPerEra -> era_day_ok doe = true.
Proof.
  intros H. apply (all_from_spec era_day_ok _ 0 era_days_ok).
  rewrite Z2Nat.id by (unfold daysPerEra; lia). lia.
Qed.

Lemma civil_from_days_spec (z : Z) :
  forall y m d, civil_from_days z = (y, m, d) ->
  1 <= m <= 12 /\ 1 <= d <= 31 /\ days_from_civil y m d = z.
Proof.
  intros y m d. unfold civil_from_days.
  set (z' := z + eraShift).
  assert (Hr : 0 <= z' mod daysPerEra < daysPerEra)
    by (apply Z.mod_pos_bound; reflexivity).
  pose proof (era_day_ok_at _ Hr) as Hok. unfold era_day_ok in Hok.
  destruct (civil_of_doe (z' mod daysPerEra)) as [[yoe m0] d0].
  repeat (apply andb_true_iff in Hok; destruct Hok as [Hok ?]).
  intros E. injection E as <- <- <-.
  repeat split; try lia.
  unfold days_from_civil.
  replace (yoe + z' / daysPerEra * 400 + (if m0 <=? 2 then 1 else 0)
           - (if m0 <=? 2 then 1 else 0))
    with (yoe + z' / daysPerEra * 400) by lia.
  rewrite Z.div_add by lia. rewrite Z.mod_add by lia.
  rewrite Z.div_small, Z.mod_small by lia.
  pose proof (Z.div_mod z' daysPerEra ltac:(discriminate)).
  subst z'. lia.
Qed.

Lemma days_from_civil_day (y m d e : Z) :
  days_from_civil y m d + e = days_from_civil y m (d + e).
Proof. unfold days_from_civil, doe_of_civil. lia. Qed.

(** The day number written by the fields of a calendar date. *)
Definition dayNumber (c : CalendarDate) : Z :=
  days_from_civil (year c) (month c) (dayOfMonth c).

Lemma MakeDay_of_fields (t date : Z) :
  MakeDay (YearFromTime t) (MonthFromTime t) date
  = Day t + (date - DateFromTime t).
Proof.
  unfold MakeDay, YearFromTime, MonthFromTime, DateFromTime.
  destruct (civil_from_days (Day t)) as [[y m] d] eqn:E. cbn [fst snd].
  destruct (civil_from_days_spec _ _ _ _ E) as (Hm & _ & Hd).
  rewrite Z.div_small, Z.mod_small by lia.
  replace (m - 1 + 1) with m by lia. rewrite Z.add_0_r.
  rewrite <- Hd.
  pose proof (days_from_civil_day y m 1 (d - 1)) as H1.
  replace (1 + (d - 1)) with d in H1 by lia. lia.
Qed.

Lemma MakeDate_Day_TimeWithinDay (t : Z) :
  MakeDate (Day t) (TimeWithinDay t) = t.
Proof.
  unfold MakeDate, Day, TimeWithinDay.
  pose proof (Z.div_mod t msPerDay ltac:(discriminate)). lia.
Qed.

Lemma Day_MakeDate (day time : Z) :
  0 <= time < msPerDay -> Day (MakeDate day time) = day.
Proof.
  intros H. unfold Day, MakeDate.
  rewrite Z.div_add_l by discriminate.
  rewrite Z.div_small by lia. lia.
Qed.

Lemma TimeWithinDay_bound (t : Z) : 0 <= TimeWithinDay t < msPerDay.
Proof. apply Z.mod_pos_bound. reflexivity. Qed.

(** Moving a date to the calendar day of another keeps its local time of
    day and takes the local day number of the other. *)
Lemma setFullYear_of_fields (tz t day : Z) :
  setFullYear tz t (getFullYear tz day) (getMonth tz day) (getDate tz day)
  = MakeDate (Day (LocalTime tz day)) (TimeWithinDay (LocalTime tz t)) - tz.
Proof.
  unfold setFullYear, getFullYear, getMonth, getDate, UTC.
  rewrite MakeDay_of_fields. f_equal. f_equal. lia.
Qed.

Lemma addDays_eq (tz date amount : Z) :
  addDays tz date amount = date + amount * msPerDay.
Proof.
  unfold addDays. destruct (Z.eqb_spec amount 0) as [->|_]; [lia|].
  unfold setDate, getFullYear, getMonth, getDate, UTC.
  rewrite MakeDay_of_fields.
  pose proof (MakeDate_Day_TimeWithinDay (LocalTime tz date)) as H.
  unfold MakeDate, LocalTime in *. lia.
Qed.

Lemma Day_addDays (tz date amount : Z) :
  Day (LocalTime tz (addDays tz date amount))
  = Day (LocalTime tz date) + amount.
Proof.
  rewrite addDays_eq. unfold LocalTime, Day.
  replace (date + amount * msPerDay + tz)
    with (date + tz + amount * msPerDay) by lia.
  apply Z.div_add. discriminate.
Qed.

Lemma dayNumber_format (tz date : Z) :
  dayNumber (format_yyyy_MM_dd tz date) = Day (LocalTime tz date).
Proof.
  unfold dayNumber, format_yyyy_MM_dd, getFullYear, getMonth, getDate,
    YearFromTime, MonthFromTime, DateFromTime. cbn [year month dayOfMonth].
  destruct (civil_from_days (Day (LocalTime tz date))) as [[y m] d] eqn:E.
  cbn [fst snd]. replace (m - 1 + 1) with m by lia.
  apply (civil_from_days_spec _ _ _ _ E).
Qed.

Lemma CalendarDate_eqb_eq (a b : CalendarDate) :
  CalendarDate_eqb a b = true <-> a = b.
Proof.
  destruct a as [y1 m1 d1], b as [y2 m2 d2]. unfold CalendarDate_eqb.
  cbn [year month dayOfMonth]. rewrite !andb_true_iff, !Z.eqb_eq.
  split; [intros [[-> ->] ->]; reflexivity|].
  intros E. injection E as -> -> ->. auto.
Qed.

Lemma CalendarDate_eqb_dayNumber (a b : CalendarDate) :
  dayNumber a <> dayNumber b -> CalendarDate_eqb a b = false.
Proof.
  intros H. destruct (CalendarDate_eqb a b) eqn:E; [|reflexivity].
  apply CalendarDate_eqb_eq in E. subst b. contradiction.
Qed.

End CalendarFacts.
Import CalendarFacts.

(* ===================================================================== *)
(** ** Facts about the loop over one day *)
(* ===================================================================== *)

Module LoopFacts.

(** The length of a slot, in milliseconds. *)
Definition slotMs : Z := 30 * msPerMinute.

Lemma addMinutes_30 (t : Z) : addMinutes t 30 = t + slotMs.
Proof. reflexivity. Qed.

Lemma slotMs_pos : 0 < slotMs.
Proof. reflexivity. Qed.

(** [k] is below the number of whole slots between [start] and [end_]
    when the slot after [k] slots still ends by [end_]. *)
Lemma below_slot_count (start end_ : Z) (k : nat) :
  (k < Z.to_nat ((end_ - start) / slotMs))%nat
  <-> start + Z.of_nat k * slotMs + slotMs <= end_.
Proof.
  pose proof slotMs_pos as Hpos.
  pose proof (Z.mul_div_le (end_ - start) slotMs Hpos) as Hle.
  pose proof (Z.mul_succ_div_gt (end_ - start) slotMs Hpos) as Hgt.
  generalize dependent ((end_ - start) / slotMs). intros q Hle Hgt.
  split; intros H; [assert (Z.of_nat k + 1 <= q) by lia; nia|].
  assert (Z.of_nat k < q); [nia|lia].
Qed.

Lemma slot_count_nonpos (start end_ : Z) :
  end_ - start < slotMs -> Z.to_nat ((end_ - start) / slotMs) = 0%nat.
Proof.
  intros H. destruct (Z.to_nat ((end_ - start) / slotMs)) as [|m] eqn:E;
    [reflexivity|].
  assert (Hm : (0 < Z.to_nat ((end_ - start) / slotMs))%nat) by lia.
  apply below_slot_count in Hm. lia.
Qed.

Lemma loopGuard_true (end_ : Z) (st : LoopState) :
  loopGuard end_ st = true <-> current st + slotMs <= end_.
Proof.
  unfold loopGuard, isBefore. rewrite addMinutes_30, orb_true_iff.
  rewrite Z.ltb_lt, Z.eqb_eq. lia.
Qed.

Lemma loopGuard_false (end_ : Z) (st : LoopState) :
  loopGuard end_ st = false <-> end_ < current st + slotMs.
Proof.
  rewrite <- not_true_iff_false, loopGuard_true. lia.
Qed.

Section OneDay.
Variables (tz now : Z) (existingAppointments : list Appointment.t).
Variable end_ : Z.

Let body := loopBody tz now existingAppointments.
Let loop := whileLoop tz now existingAppointments end_.

(** The [while] loop, unfolded once. *)
Lemma whileLoop_unfold_once (st : LoopState) :
  loop st = if loopGuard end_ st then loop (body st) else st.
Proof.
  unfold loop. rewrite whileLoop_equation_1.
  assert (G : forall x : {b : bool | loopGuard end_ st = b},
             whileLoop_unfold_clause_1 tz now existingAppointments end_ st x
             = if proj1_sig x then loop (body st) else st).
  { intros [[] e]; reflexivity. }
  rewrite G. reflexivity.
Qed.

(** The candidate at [c] is pushed when it is not in the past and no
    appointment overlaps it. *)
Definition kept (c : Z) : bool :=
  negb (isBefore c now)
  && negb (existsb (overlapsAppointment c (addMinutes c 30))
             existingAppointments).

Lemma current_loopBody (st : LoopState) :
  current (body st) = current st + slotMs.
Proof.
  unfold body, loopBody. rewrite addMinutes_30.
  destruct (isBefore (current st) now); [reflexivity|].
  destruct (negb _); reflexivity.
Qed.

Lemma pushed_loopBody (st : LoopState) :
  pushed (body st)
  = pushed st
    ++ (if kept (current st)
        then [makeSlot tz (current st) (addMinutes (current st) 30)]
        else []).
Proof.
  unfold body, loopBody, kept.
  destruct (isBefore (current st) now); cbn [negb andb pushed].
  - now rewrite app_nil_r.
  - destruct (existsb _ _); cbn [negb pushed]; [now rewrite app_nil_r|].
    reflexivity.
Qed.

(** The starts of the candidates of [n] passes from [start]. *)
Definition candidates (start : Z) (n : nat) : list Z :=
  map (fun k => start + Z.of_nat k * slotMs) (seq 0 n).

Lemma candidates_S (start : Z) (n : nat) :
  candidates start (S n) = start :: candidates (start + slotMs) n.
Proof.
  unfold candidates. cbn [seq map]. f_equal; [lia|].
  rewrite <- seq_shift, map_map. apply map_ext. intros k. lia.
Qed.

Lemma current_iter (n : nat) (st : LoopState) :
  current (Nat.iter n body st) = current st + Z.of_nat n * slotMs.
Proof.
  induction n as [|n IH]; [cbn; lia|].
  rewrite Nat.iter_succ, current_loopBody, IH. lia.
Qed.

Lemma pushed_iter (n : nat) :
  forall st,
  pushed (Nat.iter n body st)
  = pushed st
    ++ map (fun c => makeSlot tz c (addMinutes c 30))
         (filter kept (candidates (current st) n)).
Proof.
  induction n as [|n IH]; intros st.
  - cbn. now rewrite app_nil_r.
  - rewrite Nat.iter_succ_r, IH, pushed_loopBody, current_loopBody.
    rewrite candidates_S. cbn [filter]. rewrite <- app_assoc.
    destruct (kept (current st)); reflexivity.
Qed.

(** The number of passes of the loop started at [st]. *)
Definition passes (st : LoopState) : nat :=
  Z.to_nat ((end_ - current st) / slotMs).

Lemma passes_guard_false (st : LoopState) :
  loopGuard end_ st = false -> passes st = 0%nat.
Proof.
  rewrite loopGuard_false. intros H. unfold passes.
  assert ((end_ - current st) / slotMs <= 0); [|lia].
  assert ((end_ - current st) / slotMs < 1); [|lia].
  apply Z.div_lt_upper_bound; unfold slotMs, msPerMinute in *; lia.
Qed.

Lemma passes_guard_true (st : LoopState) :
  loopGuard end_ st = true -> passes st = S (passes (body st)).
Proof.
  rewrite loopGuard_true. intros H. unfold passes.
  rewrite current_loopBody.
  replace (end_ - current st)
    with (end_ - (current st + slotMs) + 1 * slotMs) by lia.
  rewrite Z.div_add by discriminate.
  assert (0 <= (end_ - (current st + slotMs)) / slotMs)
    by (apply Z.div_pos; [lia|reflexivity]).
  lia.
Qed.

(** The loop is the body run [passes st] times. *)
Lemma whileLoop_iter (st : LoopState) :
  loop st = Nat.iter (passes st) body st.
Proof.
  remember (passes st) as n eqn:En. revert st En.
  induction n as [|n IH]; intros st En; rewrite whileLoop_unfold_once.
  - destruct (loopGuard end_ st) eqn:G; [|reflexivity].
    apply passes_guard_true in G. congruence.
  - destruct (loopGuard end_ st) eqn:G.
    + rewrite Nat.iter_succ_r. apply IH.
      apply passes_guard_true in G. congruence.
    + apply passes_guard_false in G. congruence.
Qed.

Lemma pushed_whileLoop (st : LoopState) :
  pushed (loop st)
  = pushed st
    ++ map (fun c => makeSlot tz c (addMinutes c 30))
         (filter kept (candidates (current st) (passes st))).
Proof. rewrite whileLoop_iter. apply pushed_iter. Qed.
End OneDay.

End LoopFacts.
Import LoopFacts.

(* ===================================================================== *)
(** ** Facts about the action as a whole *)
(* ===================================================================== *)

Module ActionFacts.

Section Objects.
Context {V : Type}.
Variables (keyOf : Z -> CalendarDate) (valueOf : Z -> V).

Lemma obj_set_fresh (obj : list (CalendarDate * V)) key v :
  ~ In (dayNumber key) (map (fun e => dayNumber (fst e)) obj) ->
  obj_set obj key v = obj ++ [(key, v)].
Proof.
  induction obj as [|[k x] obj IH]; intros H; [reflexivity|].
  cbn [obj_set]. cbn [map In fst] in H.
  rewrite CalendarDate_eqb_dayNumber by tauto.
  rewrite IH by tauto. reflexivity.
Qed.

(** Storing under keys of different days appends the entries in the
    order of the stores. *)
Lemma fold_obj_set_fresh (days : list Z) :
  forall obj,
  NoDup (map (fun e => dayNumber (fst e)) obj
         ++ map (fun day => dayNumber (keyOf day)) days) ->
  fold_left (fun o day => obj_set o (keyOf day) (valueOf day)) days obj
  = obj ++ map (fun day => (keyOf day, valueOf day)) days.
Proof.
  induction days as [|day days IH]; intros obj H.
  - cbn. now rewrite app_nil_r.
  - cbn [fold_left map].
    assert (Hn := NoDup_remove_2 _ _ _ H).
    rewrite obj_set_fresh by (intros Hin; apply Hn, in_or_app; auto).
    rewrite IH.
    + now rewrite <- app_assoc.
    + rewrite map_app. cbn [map fst]. rewrite <- app_assoc. exact H.
Qed.
End Objects.

(** The window of the doctor on the calendar day of [day]. *)
Definition availabilityStartOn (tz : Z) (availability : Availability.t)
  (day : Z) : Z :=
  setFullYear tz (Availability.startTime availability)
    (getFullYear tz day) (getMonth tz day) (getDate tz day).

Definition availabilityEndOn (tz : Z) (availability : Availability.t)
  (day : Z) : Z :=
  setFullYear tz (Availability.endTime availability)
    (getFullYear tz day) (getMonth tz day) (getDate tz day).

(** The appointments the action fetches for a doctor. *)
Definition existingAppointmentsOf (w : World) (doctor : User.t)
  : list Appointment.t :=
  findAppointments w (User.id doctor)
    (endOfDay (timeZone w) (nth 3 (fourDays (timeZone w) (clock w)) 0)).

(** The record the action builds for one of the four days. *)
Definition recordOfDay (w : World) (doctor : User.t)
  (availability : Availability.t) (day : Z) : TimeSlotDay.t :=
  toTimeSlotDay (timeZone w)
    (format_yyyy_MM_dd (timeZone w) day,
     slotsForDay (timeZone w) (clock w) (existingAppointmentsOf w doctor)
       availability day).

Lemma fourDays_dayNumbers (tz now : Z) :
  map (fun day => dayNumber (format_yyyy_MM_dd tz day)) (fourDays tz now)
  = map (fun k => Day (LocalTime tz now) + k) [0; 1; 2; 3].
Proof.
  unfold fourDays. cbn [map]. rewrite !dayNumber_format, !Day_addDays.
  now rewrite Z.add_0_r.
Qed.

Lemma fourDays_keys_NoDup (tz now : Z) :
  NoDup (map (fun day => dayNumber (format_yyyy_MM_dd tz day))
           (fourDays tz now)).
Proof.
  rewrite fourDays_dayNumbers. cbn [map].
  repeat (constructor; [cbn [In]; lia|]). constructor.
Qed.

(** The action, with the object of the four days written out. *)
Lemma getAvailableTimeSlots_eq (w : World) (doctorId : string) :
  getAvailableTimeSlots w doctorId
  = match findDoctor w doctorId with
    | None =>
        Rejected
          "Failed to fetch available slots: Doctor not found or not verified"
    | Some doctor =>
        match findAvailability w (User.id doctor) with
        | None =>
            Rejected
              "Failed to fetch available slots: No availability set by doctor"
        | Some availability =>
            Resolved (map (recordOfDay w doctor availability)
                        (fourDays (timeZone w) (clock w)))
        end
    end.
Proof.
  unfold getAvailableTimeSlots.
  destruct (findDoctor w doctorId) as [doctor|]; [|reflexivity].
  destruct (findAvailability w (User.id doctor)) as [availability|];
    [|reflexivity].
  cbn [tryCatch]. f_equal. unfold Object_entries.
  rewrite (fold_obj_set_fresh (format_yyyy_MM_dd (timeZone w))).
  - cbn [app]. rewrite map_map. reflexivity.
  - cbn [map app]. apply fourDays_keys_NoDup.
Qed.

Lemma getAvailableTimeSlots_resolved (w : World) (doctorId : string) ds :
  getAvailableTimeSlots w doctorId = Resolved ds ->
  exists doctor availability,
    findDoctor w doctorId = Some doctor
    /\ findAvailability w (User.id doctor) = Some availability
    /\ ds = map (recordOfDay w doctor availability)
              (fourDays (timeZone w) (clock w)).
Proof.
  rewrite getAvailableTimeSlots_eq.
  destruct (findDoctor w doctorId) as [doctor|]; [|discriminate].
  destruct (findAvailability w (User.id doctor)) as [availability|] eqn:Ea;
    [|discriminate].
  intros E. injection E as <-.
  exists doctor, availability. repeat split. exact Ea.
Qed.

Lemma findDoctor_id (w : World) (doctorId : string) doctor :
  findDoctor w doctorId = Some doctor -> User.id doctor = doctorId.
Proof.
  unfold findDoctor. intros H. apply find_some in H. destruct H as [_ H].
  apply andb_true_iff in H. destruct H as [H _].
  apply andb_true_iff in H. destruct H as [H _].
  now apply String.eqb_eq.
Qed.

(** The slots of a day are the kept candidates, in the order of the walk. *)
Lemma slotsForDay_eq (tz now : Z) (appts : list Appointment.t)
  (availability : Availability.t) (day : Z) :
  slotsForDay tz now appts availability day
  = map (fun c => makeSlot tz c (addMinutes c 30))
      (filter (kept now appts)
         (candidates (availabilityStartOn tz availability day)
            (Z.to_nat ((availabilityEndOn tz availability day
                        - availabilityStartOn tz availability day)
                       / slotMs)))).
Proof.
  unfold slotsForDay, availabilityStartOn, availabilityEndOn.
  rewrite pushed_whileLoop. unfold passes. cbn [current pushed app].
  reflexivity.
Qed.

Lemma slots_recordOfDay (w : World) doctor availability day :
  TimeSlotDay.slots (recordOfDay w doctor availability day)
  = slotsForDay (timeZone w) (clock w) (existingAppointmentsOf w doctor)
      availability day.
Proof. reflexivity. Qed.

End ActionFacts.
Import ActionFacts.

(* ===================================================================== *)
(** ** Sample data: Monday 2 November 2026, doctor "d1" *)
(* ===================================================================== *)

Module Sample.

Definition day1 : Z := days_from_civil 2026 11 2.

(** An instant of [day1], given by its UTC hour and minute. *)
Definition at_ (h m : Z) : Z :=
  MakeDate day1 (h * msPerHour + m * msPerMinute).

(** A window row as the doctor stored it some day before. *)
Definition window (h1 m1 h2 m2 : Z) : Availability.t :=
  {| Availability.doctorId := "d1";
     Availability.startTime :=
       MakeDate 20000 (h1 * msPerHour + m1 * msPerMinute);
     Availability.endTime :=
       MakeDate 20000 (h2 * msPerHour + m2 * msPerMinute);
     Availability.status := AVAILABLE |}.

Definition booking (start end_ : Z) : Appointment.t :=
  {| Appointment.doctorId := "d1";
     Appointment.startTime := start;
     Appointment.endTime := end_;
     Appointment.status := SCHEDULED |}.

Definition doctor1 : User.t :=
  {| User.id := "d1"; User.role := DOCTOR;
     User.verificationStatus := VERIFIED |}.

Definition world (now tz : Z) (windows : list Availability.t)
  (booked : list Appointment.t) : World :=
  {| clock := now; timeZone := tz; users := [doctor1];
     availabilities := windows; appointments := booked |}.

(** The days of a resolved outcome. *)
Definition daysOf (o : Outcome (list TimeSlotDay.t)) : list TimeSlotDay.t :=
  match o with
  | Resolved ds => ds
  | Rejected _ => []
  end.

(** Window 09:00-10:00, one booking 09:00-09:30, asked at 08:00. *)
Definition bookedWorld : World :=
  world (at_ 8 0) 0 [window 9 0 10 0] [booking (at_ 9 0) (at_ 9 30)].

(** Window 09:00-10:00, no booking, asked at 09:15. *)
Definition lateWorld : World :=
  world (at_ 9 15) 0 [window 9 0 10 0] [].

(** Window 09:00-17:00, no booking, asked at 08:00. *)
Definition freeWorld : World :=
  world (at_ 8 0) 0 [window 9 0 17 0] [].


(** [freeWorld] asked an hour and a half later. *)
Definition laterFreeWorld : World :=
  world (at_ 9 30) 0 [window 9 0 17 0] [].

(** Five hours west of UTC: window 09:00-09:30 local time (14:00-14:30 UTC),
    no booking, asked at 13:00 local time (18:00 UTC). *)
Definition westWorld : World :=
  world (at_ 18 0) (-5 * msPerHour) [window 14 0 14 30] [].

End Sample.

(* ===================================================================== *)
(** ** Membership in the slots of a day *)
(* ===================================================================== *)

Module SlotFacts.

Lemma In_candidates (start : Z) (n : nat) (c : Z) :
  In c (candidates start n)
  <-> exists k : nat, (k < n)%nat /\ c = start + Z.of_nat k * slotMs.
Proof.
  unfold candidates. rewrite in_map_iff. split.
  - intros (k & <- & Hk). apply in_seq in Hk. exists k. split; [lia|easy].
  - intros (k & Hk & ->). exists k. split; [easy|]. apply in_seq. lia.
Qed.

(** A slot of a day starts at a kept candidate of the walk of that day. *)
Lemma In_slotsForDay (tz now : Z) (appts : list Appointment.t)
  (availability : Availability.t) (day : Z) (s : TimeSlot.t) :
  In s (slotsForDay tz now appts availability day)
  <-> exists k : nat,
        let c := availabilityStartOn tz availability day
                 + Z.of_nat k * slotMs in
        c + slotMs <= availabilityEndOn tz availability day
        /\ kept now appts c = true
        /\ s = makeSlot tz c (addMinutes c 30).
Proof.
  rewrite slotsForDay_eq, in_map_iff.
  split.
  - intros (c & <- & Hc). apply filter_In in Hc. destruct Hc as [Hc Hk].
    apply In_candidates in Hc. destruct Hc as (k & Hlt & ->).
    exists k. cbv zeta. apply below_slot_count in Hlt. auto.
  - intros (k & Hle & Hk & ->). eexists. split; [reflexivity|].
    apply filter_In. split; [|exact Hk].
    apply In_candidates. exists k. split; [|reflexivity].
    apply below_slot_count. exact Hle.
Qed.

(** A resolved outcome lists the records of the four days. *)
Lemma In_resolved (w : World) (doctorId : string) ds d :
  getAvailableTimeSlots w doctorId = Resolved ds -> In d ds ->
  exists doctor availability day,
    findDoctor w doctorId = Some doctor
    /\ findAvailability w (User.id doctor) = Some availability
    /\ In day (fourDays (timeZone w) (clock w))
    /\ d = recordOfDay w doctor availability day.
Proof.
  intros H Hd. apply getAvailableTimeSlots_resolved in H.
  destruct H as (doctor & availability & Hdoc & Hav & ->).
  apply in_map_iff in Hd. destruct Hd as (day & <- & Hday).
  exists doctor, availability, day. auto.
Qed.

(** The test of the action holds whenever the intervals share an instant. *)
Lemma overlapsAppointment_complete (current next : Z) (a : Appointment.t) :
  current < Appointment.endTime a -> Appointment.startTime a < next ->
  overlapsAppointment current next a = true.
Proof.
  intros H1 H2. unfold overlapsAppointment.
  rewrite !Z.geb_leb, !Z.gtb_ltb.
  destruct (Z.leb_spec (Appointment.startTime a) current);
    destruct (Z.ltb_spec current (Appointment.endTime a));
    destruct (Z.ltb_spec (Appointment.startTime a) next);
    destruct (Z.leb_spec next (Appointment.endTime a));
    destruct (Z.leb_spec current (Appointment.startTime a));
    destruct (Z.leb_spec (Appointment.endTime a) next);
    cbn; try reflexivity; lia.
Qed.

Lemma overlapsAppointment_sound (current next : Z) (a : Appointment.t) :
  current < next -> Appointment.startTime a < Appointment.endTime a ->
  overlapsAppointment current next a = true ->
  current < Appointment.endTime a /\ Appointment.startTime a < next.
Proof.
  intros H0 H1. unfold overlapsAppointment.
  rewrite !Z.geb_leb, !Z.gtb_ltb, !orb_true_iff, !andb_true_iff.
  rewrite !Z.leb_le, !Z.ltb_lt. lia.
Qed.

Lemma kept_spec (now : Z) (appts : list Appointment.t) (c : Z) :
  kept now appts c = true
  <-> now <= c
      /\ forall a, In a appts ->
           overlapsAppointment c (addMinutes c 30) a = false.
Proof.
  unfold kept, isBefore. rewrite andb_true_iff, !negb_true_iff, Z.ltb_ge.
  rewrite <- not_true_iff_false, existsb_exists. split.
  - intros [H1 H2]. split; [exact H1|]. intros a Ha.
    apply not_true_iff_false. intros E. apply H2. eauto.
  - intros [H1 H2]. split; [exact H1|]. intros (a & Ha & E).
    rewrite (H2 a Ha) in E. discriminate.
Qed.

End SlotFacts.
Import SlotFacts.

(* ===================================================================== *)
(** ** No slot overlaps a booked interval *)
(* ===================================================================== *)

Lemma lastDay_eq (tz now : Z) :
  endOfDay tz (nth 3 (fourDays tz now) 0)
  = MakeDate (Day (LocalTime tz now) + 3) (msPerDay - 1) - tz.
Proof.
  cbn [fourDays nth]. unfold endOfDay, setHours, UTC.
  rewrite Day_addDays. reflexivity.
Qed.

Lemma Day_fourDays (tz now day : Z) :
  In day (fourDays tz now) ->
  Day (LocalTime tz day) <= Day (LocalTime tz now) + 3.
Proof.
  intros H. apply (in_map (fun d => Day (LocalTime tz d))) in H.
  revert H. unfold fourDays. cbn [map]. rewrite !Day_addDays.
  cbn [In]. lia.
Qed.

(** The window of each of the four days ends by the end of the last. *)
Lemma availabilityEndOn_by_lastDay (tz now day : Z)
  (availability : Availability.t) :
  In day (fourDays tz now) ->
  availabilityEndOn tz availability day
  <= endOfDay tz (nth 3 (fourDays tz now) 0).
Proof.
  intros H. apply Day_fourDays in H. rewrite lastDay_eq.
  unfold availabilityEndOn. rewrite setFullYear_of_fields.
  pose proof (TimeWithinDay_bound
                (LocalTime tz (Availability.endTime availability))).
  unfold MakeDate, msPerDay in *. lia.
Qed.

(** A slot passed the overlap test against every fetched appointment. *)
Lemma slot_passed_test (w : World) (doctor : User.t)
  (availability : Availability.t) (day : Z) (s : TimeSlot.t) :
  In s (TimeSlotDay.slots (recordOfDay w doctor availability day)) ->
  TimeSlot.endTime s <= availabilityEndOn (timeZone w) availability day
  /\ forall b, In b (existingAppointmentsOf w doctor) ->
       overlapsAppointment (TimeSlot.startTime s) (TimeSlot.endTime s) b
       = false.
Proof.
  rewrite slots_recordOfDay. intros Hs. apply In_slotsForDay in Hs.
  destruct Hs as (k & Hend & Hk & ->).
  cbn [makeSlot TimeSlot.startTime TimeSlot.endTime].
  rewrite addMinutes_30 at 1. split; [exact Hend|].
  apply kept_spec in Hk. apply Hk.
Qed.

(** C1.  Every slot of the output is disjoint from every appointment the
    action fetched for the doctor, under half-open semantics: it is never the
    case that the slot starts before the appointment ends and the appointment
    starts before the slot ends.  The same holds for every SCHEDULED
    appointment of the doctor in the table, fetched or not. *)
Theorem slots_avoid_booked (w : World) (doctorId : string)
  (ds : list TimeSlotDay.t) (doctor : User.t) :
  getAvailableTimeSlots w doctorId = Resolved ds ->
  findDoctor w doctorId = Some doctor ->
  forall (d : TimeSlotDay.t) (s : TimeSlot.t) (b : Appointment.t),
    In d ds -> In s (TimeSlotDay.slots d) ->
    In b (existingAppointmentsOf w doctor)
    \/ (In b (appointments w)
        /\ Appointment.doctorId b = doctorId
        /\ Appointment.status b = SCHEDULED) ->
    ~ (TimeSlot.startTime s < Appointment.endTime b
       /\ Appointment.startTime b < TimeSlot.endTime s).
Proof.
  intros Hres Hdoc d s b Hd Hs Hb [H1 H2].
  destruct (In_resolved _ _ _ _ Hres Hd)
    as (doctor' & availability & day & Hdoc' & _ & Hday & ->).
  rewrite Hdoc in Hdoc'. injection Hdoc' as <-.
  destruct (slot_passed_test _ _ _ _ _ Hs) as [Hend Hpass].
  assert (Hin : In b (existingAppointmentsOf w doctor)).
  { destruct Hb as [Hb|(Hb & Hid & Hst)]; [exact Hb|].
    apply filter_In. split; [exact Hb|].
    rewrite (findDoctor_id _ _ _ Hdoc), Hid, Hst, String.eqb_refl.
    cbn [AppointmentStatus_eqb andb]. apply Z.leb_le.
    pose proof (availabilityEndOn_by_lastDay _ _ _ availability Hday).
    lia. }
  pose proof (Hpass b Hin) as Hp.
  rewrite (overlapsAppointment_complete _ _ b H1 H2) in Hp. discriminate.
Qed.

Lemma slots_avoid_booked_witness :
  ~ (Sample.at_ 9 30 < Sample.at_ 9 30 /\ Sample.at_ 9 0 < Sample.at_ 10 0).
Proof.
  apply (slots_avoid_booked Sample.bookedWorld "d1"
           (Sample.daysOf (getAvailableTimeSlots Sample.bookedWorld "d1"))
           Sample.doctor1 eq_refl eq_refl
           (nth 0 (Sample.daysOf
                     (getAvailableTimeSlots Sample.bookedWorld "d1"))
              (TimeSlotDay.mk (mkCalendarDate 0 0 0) "" []))
           (makeSlot 0 (Sample.at_ 9 30) (Sample.at_ 10 0))
           (Sample.booking (Sample.at_ 9 0) (Sample.at_ 9 30))).
  - vm_compute. left. reflexivity.
  - vm_compute. left. reflexivity.
  - left. vm_compute. left. reflexivity.
Defined.

(* ===================================================================== *)
(** ** The discard test and the half-open rule *)
(* ===================================================================== *)

(** The rule in the words of the specification: [a,b) and [c,d) overlap
    iff [a < d && c < b]. *)
Definition halfOpenOverlap (a b c d : Z) : bool := (a <? d) && (c <? b).

(** C2.  When every booked interval starts before it ends, the test of the
    action on a candidate [current, current + 30 min) agrees with the
    half-open rule on every booking, so a candidate that is not in the past
    is dropped exactly when some booking [aStart, aEnd) has
    [current < aEnd] and [aStart < next]; a candidate that ends where a
    booking starts, or starts where a booking ends, passes the test. *)
Theorem discard_test_is_half_open (tz now : Z)
  (existingAppointments : list Appointment.t) (st : LoopState) :
  (forall a, In a existingAppointments ->
     Appointment.startTime a < Appointment.endTime a) ->
  let next := addMinutes (current st) 30 in
  (forall a, In a existingAppointments ->
     overlapsAppointment (current st) next a
     = halfOpenOverlap (current st) next
         (Appointment.startTime a) (Appointment.endTime a))
  /\ (existsb (overlapsAppointment (current st) next) existingAppointments
        = true
      <-> exists a, In a existingAppointments
            /\ current st < Appointment.endTime a
            /\ Appointment.startTime a < next)
  /\ (isBefore (current st) now = false ->
      (pushed (loopBody tz now existingAppointments st) = pushed st
       <-> exists a, In a existingAppointments
             /\ current st < Appointment.endTime a
             /\ Appointment.startTime a < next))
  /\ (forall a, In a existingAppointments ->
        next = Appointment.startTime a \/ current st = Appointment.endTime a ->
        overlapsAppointment (current st) next a = false).
Proof.
  intros Hwf next.
  assert (Hnext : current st < next)
    by (unfold next; rewrite addMinutes_30; unfold slotMs, msPerMinute; lia).
  assert (Hone : forall a, In a existingAppointments ->
            overlapsAppointment (current st) next a
            = halfOpenOverlap (current st) next
                (Appointment.startTime a) (Appointment.endTime a)).
  { intros a Ha. unfold halfOpenOverlap.
    destruct (overlapsAppointment (current st) next a) eqn:E.
    - apply overlapsAppointment_sound in E; auto.
      symmetry. apply andb_true_iff. rewrite !Z.ltb_lt. exact E.
    - symmetry. apply not_true_iff_false. intros H.
      apply andb_true_iff in H. rewrite !Z.ltb_lt in H.
      rewrite overlapsAppointment_complete in E by tauto. discriminate. }
  assert (Hsome :
            existsb (overlapsAppointment (current st) next)
              existingAppointments = true
            <-> exists a, In a existingAppointments
                  /\ current st < Appointment.endTime a
                  /\ Appointment.startTime a < next).
  { rewrite existsb_exists. split.
    - intros (a & Ha & E). exists a. split; [exact Ha|].
      apply overlapsAppointment_sound; auto.
    - intros (a & Ha & H1 & H2). exists a. split; [exact Ha|].
      now apply overlapsAppointment_complete. }
  split; [exact Hone|]. split; [exact Hsome|]. split.
  - intros Hpast. rewrite pushed_loopBody. unfold kept. rewrite Hpast.
    cbn [negb andb]. fold next. rewrite <- Hsome.
    destruct (existsb _ _); cbn [negb].
    + rewrite app_nil_r. split; reflexivity.
    + split; [|discriminate]. intros E.
      apply (f_equal (@length _)) in E. rewrite length_app in E.
      cbn [length] in E. lia.
  - intros a Ha Hadj. rewrite (Hone a Ha). unfold halfOpenOverlap.
    apply andb_false_iff. rewrite !Z.ltb_ge. lia.
Qed.

Lemma discard_test_is_half_open_witness :
  overlapsAppointment (Sample.at_ 9 30) (addMinutes (Sample.at_ 9 30) 30)
    (Sample.booking (Sample.at_ 9 0) (Sample.at_ 9 30)) = false.
Proof.
  refine (proj2 (proj2 (proj2
    (discard_test_is_half_open 0 (Sample.at_ 8 0)
       [Sample.booking (Sample.at_ 9 0) (Sample.at_ 9 30)]
       {| current := Sample.at_ 9 30; pushed := [] |} _))) _ _ _).
  - intros a [<-|[]]. vm_compute. reflexivity.
  - left. reflexivity.
  - right. reflexivity.
Defined.

(** The scenario of the specification: window 09:00-10:00 with one booking
    09:00-09:30 leaves exactly the slot 09:30-10:00 on that day. *)
Example booked_morning_scenario :
  map (fun d => map (fun s => (TimeSlot.startTime s, TimeSlot.endTime s))
                  (TimeSlotDay.slots d))
    (firstn 1 (Sample.daysOf (getAvailableTimeSlots Sample.bookedWorld "d1")))
  = [[(Sample.at_ 9 30, Sample.at_ 10 0)]].
Proof. vm_compute. reflexivity. Qed.

(* ===================================================================== *)
(** ** No slot in the past *)
(* ===================================================================== *)

(** C3.  Every slot of the output starts at or after the reading of the
    clock: a candidate that starts strictly before it is never pushed, and a
    candidate of a day's walk that starts exactly at it, and passes the
    overlap test, is a slot of that day's record. *)
Theorem slots_not_in_past (w : World) (doctorId : string)
  (ds : list TimeSlotDay.t) :
  getAvailableTimeSlots w doctorId = Resolved ds ->
  (forall d s, In d ds -> In s (TimeSlotDay.slots d) ->
     clock w <= TimeSlot.startTime s)
  /\ (forall appts st, current st < clock w ->
        pushed (loopBody (timeZone w) (clock w) appts st) = pushed st)
  /\ (forall doctor availability day (k : nat),
        findDoctor w doctorId = Some doctor ->
        findAvailability w (User.id doctor) = Some availability ->
        In day (fourDays (timeZone w) (clock w)) ->
        let c := availabilityStartOn (timeZone w) availability day
                 + Z.of_nat k * slotMs in
        c + slotMs <= availabilityEndOn (timeZone w) availability day ->
        c = clock w ->
        existsb (overlapsAppointment c (addMinutes c 30))
          (existingAppointmentsOf w doctor) = false ->
        exists d, In d ds
          /\ TimeSlotDay.date d = format_yyyy_MM_dd (timeZone w) day
          /\ In (makeSlot (timeZone w) c (addMinutes c 30))
               (TimeSlotDay.slots d)).
Proof.
  intros Hres. split; [|split].
  - intros d s Hd Hs.
    destruct (In_resolved _ _ _ _ Hres Hd)
      as (doctor & availability & day & _ & _ & _ & ->).
    rewrite slots_recordOfDay in Hs. apply In_slotsForDay in Hs.
    destruct Hs as (k & _ & Hk & ->). apply kept_spec in Hk.
    cbn [makeSlot TimeSlot.startTime]. tauto.
  - intros appts st Hlt. rewrite pushed_loopBody. unfold kept, isBefore.
    apply Z.ltb_lt in Hlt. rewrite Hlt. apply app_nil_r.
  - intros doctor availability day k Hdoc Hav Hday c Hend Hnow Hfree.
    apply getAvailableTimeSlots_resolved in Hres.
    destruct Hres as (doctor' & availability' & Hdoc' & Hav' & ->).
    rewrite Hdoc in Hdoc'. injection Hdoc' as <-.
    rewrite Hav in Hav'. injection Hav' as <-.
    exists (recordOfDay w doctor availability day).
    split; [apply in_map; exact Hday|]. split; [reflexivity|].
    rewrite slots_recordOfDay. apply In_slotsForDay. exists k.
    fold c. cbv zeta. split; [exact Hend|]. split; [|reflexivity].
    unfold kept, isBefore. rewrite Hfree.
    replace (c <? clock w) with false; [reflexivity|].
    symmetry. apply Z.ltb_ge. lia.
Qed.

Lemma slots_not_in_past_witness :
  Sample.at_ 9 15 <= Sample.at_ 9 30.
Proof.
  apply (proj1 (slots_not_in_past Sample.lateWorld "d1"
                  (Sample.daysOf
                     (getAvailableTimeSlots Sample.lateWorld "d1")) eq_refl)
           (nth 0 (Sample.daysOf
                     (getAvailableTimeSlots Sample.lateWorld "d1"))
              (TimeSlotDay.mk (mkCalendarDate 0 0 0) "" []))
           (makeSlot 0 (Sample.at_ 9 30) (Sample.at_ 10 0))).
  - vm_compute. left. reflexivity.
  - vm_compute. left. reflexivity.
Defined.

(** The scenario of the specification: asked at 09:15 with the window
    09:00-10:00 and no booking, the first day keeps the 09:30 slot only. *)
Example late_morning_scenario :
  map (fun d => map TimeSlot.startTime (TimeSlotDay.slots d))
    (firstn 1 (Sample.daysOf (getAvailableTimeSlots Sample.lateWorld "d1")))
  = [[Sample.at_ 9 30]].
Proof. vm_compute. reflexivity. Qed.

(** A candidate that starts exactly at the reading of the clock is kept. *)
Example slot_at_now_scenario :
  map (fun d => map TimeSlot.startTime (TimeSlotDay.slots d))
    (firstn 1
       (Sample.daysOf
          (getAvailableTimeSlots
             (Sample.world (Sample.at_ 9 30) 0 [Sample.window 9 0 10 0] [])
             "d1")))
  = [[Sample.at_ 9 30]].
Proof. vm_compute. reflexivity. Qed.

(* ===================================================================== *)
(** ** A free day is cut into consecutive slots *)
(* ===================================================================== *)

Lemma filter_all {A : Type} (f : A -> bool) (l : list A) :
  (forall x, In x l -> f x = true) -> filter f l = l.
Proof.
  induction l as [|x l IH]; intros H; [reflexivity|].
  cbn [filter]. rewrite (H x (or_introl eq_refl)).
  f_equal. apply IH. intros y Hy. apply H. now right.
Qed.

(** C4.  For a day whose window [dayStart, dayEnd) is not empty, with no
    appointment and the clock not after [dayStart], the slots are exactly
    the intervals [dayStart + 30k min, dayStart + 30(k+1) min), in this
    order, for the [k >= 0] with [dayStart + 30(k+1) min <= dayEnd]; a
    candidate that ends exactly at [dayEnd] is among them.  These are the
    slots of the record of that day in the outcome of the action, when its
    query finds no appointment. *)
Theorem free_day_slots (tz now : Z) (availability : Availability.t)
  (day : Z) :
  let dayStart := availabilityStartOn tz availability day in
  let dayEnd := availabilityEndOn tz availability day in
  let n := Z.to_nat ((dayEnd - dayStart) / slotMs) in
  dayStart < dayEnd -> now <= dayStart ->
  map (fun s => (TimeSlot.startTime s, TimeSlot.endTime s))
    (slotsForDay tz now [] availability day)
  = map (fun k => (dayStart + Z.of_nat k * slotMs,
                   dayStart + (Z.of_nat k + 1) * slotMs))
      (seq 0 n)
  /\ (forall k : nat,
        (k < n)%nat <-> dayStart + (Z.of_nat k + 1) * slotMs <= dayEnd)
  /\ length (slotsForDay tz now [] availability day) = n
  /\ (forall m, 0 <= m -> dayEnd = dayStart + m * slotMs ->
        n = Z.to_nat m)
  /\ (forall (w : World) (doctorId : string) (ds : list TimeSlotDay.t)
             (doctor : User.t) (i : nat) (d : TimeSlotDay.t),
        timeZone w = tz -> clock w = now ->
        getAvailableTimeSlots w doctorId = Resolved ds ->
        findDoctor w doctorId = Some doctor ->
        findAvailability w (User.id doctor) = Some availability ->
        existingAppointmentsOf w doctor = [] ->
        nth_error ds i = Some d ->
        nth_error (fourDays tz now) i = Some day ->
        map (fun s => (TimeSlot.startTime s, TimeSlot.endTime s))
          (TimeSlotDay.slots d)
        = map (fun k => (dayStart + Z.of_nat k * slotMs,
                         dayStart + (Z.of_nat k + 1) * slotMs))
            (seq 0 n)).
Proof.
  intros dayStart dayEnd n Hlt Hnow.
  assert (Hslots : slotsForDay tz now [] availability day
                   = map (fun c => makeSlot tz c (addMinutes c 30))
                       (candidates dayStart n)).
  { rewrite slotsForDay_eq. fold dayStart dayEnd n. f_equal.
    apply filter_all. intros c Hc. apply In_candidates in Hc.
    destruct Hc as (k & _ & ->). apply kept_spec. split.
    - unfold slotMs, msPerMinute. lia.
    - intros a []. }
  assert (Hpairs : map (fun s => (TimeSlot.startTime s, TimeSlot.endTime s))
                     (slotsForDay tz now [] availability day)
                   = map (fun k => (dayStart + Z.of_nat k * slotMs,
                                    dayStart + (Z.of_nat k + 1) * slotMs))
                       (seq 0 n)).
  { rewrite Hslots. unfold candidates. rewrite !map_map. apply map_ext.
    intros k. cbn [makeSlot TimeSlot.startTime TimeSlot.endTime].
    rewrite addMinutes_30. f_equal. lia. }
  split; [exact Hpairs|]. split; [|split; [|split]].
  - intros k. split.
    + intros H. apply below_slot_count in H. lia.
    + intros H. apply below_slot_count. lia.
  - rewrite Hslots. unfold candidates. now rewrite !length_map, length_seq.
  - intros m Hm E. unfold n. rewrite E.
    replace (dayStart + m * slotMs - dayStart) with (m * slotMs) by lia.
    now rewrite Z.div_mul by discriminate.
  - intros w doctorId ds doctor i d Hz Hc Hres Hdoc Hav Hnone Hd Hday.
    apply getAvailableTimeSlots_resolved in Hres.
    destruct Hres as (doctor' & availability' & Hdoc' & Hav' & ->).
    rewrite Hdoc in Hdoc'. injection Hdoc' as <-.
    rewrite Hav in Hav'. injection Hav' as <-.
    rewrite Hz, Hc, nth_error_map, Hday in Hd. cbn [option_map] in Hd.
    injection Hd as <-.
    rewrite slots_recordOfDay, Hz, Hc, Hnone. exact Hpairs.
Qed.

Lemma free_day_slots_witness :
  length (slotsForDay 0 (Sample.at_ 8 0) [] (Sample.window 9 0 17 0)
            (Sample.at_ 8 0)) = 16%nat.
Proof.
  refine (proj1 (proj2 (proj2
    (free_day_slots 0 (Sample.at_ 8 0) (Sample.window 9 0 17 0)
       (Sample.at_ 8 0) _ _)))).
  - vm_compute. reflexivity.
  - vm_compute. discriminate.
Defined.

(** The scenarios of the specification: the window 09:00-17:00 asked at
    08:00 gives sixteen slots on the first day, from 09:00 to 16:30. *)
Example full_day_scenario :
  map (fun d => map TimeSlot.startTime (TimeSlotDay.slots d))
    (firstn 1 (Sample.daysOf (getAvailableTimeSlots Sample.freeWorld "d1")))
  = [map (fun k => Sample.at_ 9 0 + k * slotMs)
       [0; 1; 2; 3; 4; 5; 6; 7; 8; 9; 10; 11; 12; 13; 14; 15]]
  /\ Sample.at_ 9 0 + 15 * slotMs = Sample.at_ 16 30.
Proof. vm_compute. split; reflexivity. Qed.

(** The window 09:00-09:30 gives one slot, the window itself. *)
Example single_slot_scenario :
  map (fun d => map (fun s => (TimeSlot.startTime s, TimeSlot.endTime s))
                  (TimeSlotDay.slots d))
    (firstn 1
       (Sample.daysOf
          (getAvailableTimeSlots
             (Sample.world (Sample.at_ 8 0) 0 [Sample.window 9 0 9 30] [])
             "d1")))
  = [[(Sample.at_ 9 0, Sample.at_ 9 30)]].
Proof. vm_compute. reflexivity. Qed.

(* ===================================================================== *)
(** ** Slots lie on the 30-minute grid of their day *)
(* ===================================================================== *)

(** C5.  A slot of the [i]-th record starts a whole number of 30-minute
    steps after the start of the window on the [i]-th day, and ends 30
    minutes after it starts. *)
Theorem slots_on_grid (w : World) (doctorId : string)
  (ds : list TimeSlotDay.t) (doctor : User.t)
  (availability : Availability.t) :
  getAvailableTimeSlots w doctorId = Resolved ds ->
  findDoctor w doctorId = Some doctor ->
  findAvailability w (User.id doctor) = Some availability ->
  forall (i : nat) (d : TimeSlotDay.t) (day : Z) (s : TimeSlot.t),
    nth_error ds i = Some d ->
    nth_error (fourDays (timeZone w) (clock w)) i = Some day ->
    In s (TimeSlotDay.slots d) ->
    (TimeSlot.startTime s
     - availabilityStartOn (timeZone w) availability day) mod slotMs = 0
    /\ availabilityStartOn (timeZone w) availability day
       <= TimeSlot.startTime s
    /\ TimeSlot.endTime s = TimeSlot.startTime s + slotMs.
Proof.
  intros Hres Hdoc Hav i d day s Hd Hday Hs.
  apply getAvailableTimeSlots_resolved in Hres.
  destruct Hres as (doctor' & availability' & Hdoc' & Hav' & ->).
  rewrite Hdoc in Hdoc'. injection Hdoc' as <-.
  rewrite Hav in Hav'. injection Hav' as <-.
  rewrite nth_error_map, Hday in Hd. cbn [option_map] in Hd.
  injection Hd as <-.
  rewrite slots_recordOfDay in Hs. apply In_slotsForDay in Hs.
  destruct Hs as (k & _ & _ & ->).
  cbn [makeSlot TimeSlot.startTime TimeSlot.endTime].
  rewrite addMinutes_30. repeat split.
  - replace (availabilityStartOn (timeZone w) availability day
             + Z.of_nat k * slotMs
             - availabilityStartOn (timeZone w) availability day)
      with (Z.of_nat k * slotMs) by lia.
    apply Z.mod_mul. discriminate.
  - unfold slotMs, msPerMinute. lia.
Qed.

Lemma slots_on_grid_witness :
  (Sample.at_ 9 30 - Sample.at_ 9 0) mod slotMs = 0
  /\ Sample.at_ 9 0 <= Sample.at_ 9 30
  /\ Sample.at_ 10 0 = Sample.at_ 9 30 + slotMs.
Proof.
  apply (slots_on_grid Sample.bookedWorld "d1"
           (Sample.daysOf (getAvailableTimeSlots Sample.bookedWorld "d1"))
           Sample.doctor1 (Sample.window 9 0 10 0) eq_refl eq_refl eq_refl
           0%nat
           (nth 0 (Sample.daysOf
                     (getAvailableTimeSlots Sample.bookedWorld "d1"))
              (TimeSlotDay.mk (mkCalendarDate 0 0 0) "" []))
           (Sample.at_ 8 0)
           (makeSlot 0 (Sample.at_ 9 30) (Sample.at_ 10 0))).
  - vm_compute. reflexivity.
  - vm_compute. reflexivity.
  - vm_compute. left. reflexivity.
Defined.

(* ===================================================================== *)
(** ** One record per day, slots in order *)
(* ===================================================================== *)

Module OrderFacts.

Lemma StronglySorted_filter {A : Type} (R : A -> A -> Prop) (f : A -> bool)
  (l : list A) :
  StronglySorted R l -> StronglySorted R (filter f l).
Proof.
  induction 1 as [|x l Hl IH Hx]; [constructor|].
  cbn [filter]. destruct (f x); [|exact IH].
  constructor; [exact IH|].
  apply Forall_forall. intros y Hy. apply filter_In in Hy.
  rewrite Forall_forall in Hx. apply Hx, Hy.
Qed.

Lemma candidates_sorted (n : nat) :
  forall start, StronglySorted Z.lt (candidates start n).
Proof.
  induction n as [|n IH]; intros start; [constructor|].
  rewrite candidates_S. constructor; [apply IH|].
  apply Forall_forall. intros c Hc. apply In_candidates in Hc.
  destruct Hc as (k & _ & ->). unfold slotMs, msPerMinute. lia.
Qed.

Lemma startTimes_slotsForDay (tz now : Z) (appts : list Appointment.t)
  (availability : Availability.t) (day : Z) :
  StronglySorted Z.lt
    (map TimeSlot.startTime (slotsForDay tz now appts availability day)).
Proof.
  rewrite slotsForDay_eq, map_map. cbn [makeSlot TimeSlot.startTime].
  rewrite map_id. apply StronglySorted_filter, candidates_sorted.
Qed.

Lemma parseDateOnly_dayNumber (d : CalendarDate) :
  parseDateOnly d = MakeDate (dayNumber d) 0.
Proof. reflexivity. Qed.

(** The label of a date-only string depends on the zone: east of UTC (and
    at UTC) it names the day of the key. *)
Lemma label_of_key_east (tz day : Z) :
  0 <= tz < msPerDay ->
  format_EEEE_MMMM_d tz (parseDateOnly (format_yyyy_MM_dd tz day))
  = format_EEEE_MMMM_d tz day.
Proof.
  intros Htz.
  assert (E : Day (LocalTime tz (parseDateOnly (format_yyyy_MM_dd tz day)))
              = Day (LocalTime tz day)).
  { rewrite parseDateOnly_dayNumber, dayNumber_format.
    unfold LocalTime at 1. unfold MakeDate at 1. rewrite Z.add_0_r.
    apply (Day_MakeDate _ tz Htz). }
  unfold format_EEEE_MMMM_d, getDay, getMonth, getDate, WeekDay,
    MonthFromTime, DateFromTime.
  now rewrite E.
Qed.

(** A label names the local day of its instant and nothing else. *)
Lemma label_by_local_day (tz t1 t2 : Z) :
  Day (LocalTime tz t1) = Day (LocalTime tz t2) ->
  format_EEEE_MMMM_d tz t1 = format_EEEE_MMMM_d tz t2.
Proof.
  intros E.
  unfold format_EEEE_MMMM_d, getDay, getMonth, getDate, WeekDay,
    MonthFromTime, DateFromTime.
  now rewrite E.
Qed.

(** The local day of the UTC midnight a date-only string is parsed to. *)
Lemma Day_of_key (tz day : Z) :
  Day (LocalTime tz (parseDateOnly (format_yyyy_MM_dd tz day)))
  = Day (LocalTime tz day) + tz / msPerDay.
Proof.
  rewrite parseDateOnly_dayNumber, dayNumber_format.
  unfold LocalTime at 1. unfold MakeDate. rewrite Z.add_0_r.
  unfold Day at 1. rewrite Z.div_add_l by discriminate. reflexivity.
Qed.

(** West of UTC that midnight is still the evening before: the label of a
    date-only string names the day before the key. *)
Lemma label_of_key_west (tz day : Z) :
  - msPerDay <= tz < 0 ->
  format_EEEE_MMMM_d tz (parseDateOnly (format_yyyy_MM_dd tz day))
  = format_EEEE_MMMM_d tz (addDays tz day (-1)).
Proof.
  intros Htz. apply label_by_local_day.
  rewrite Day_of_key, Day_addDays. f_equal.
  symmetry. apply (Z.div_unique tz msPerDay (-1) (tz + msPerDay)).
  - left. unfold msPerDay in *. lia.
  - unfold msPerDay. lia.
Qed.

Lemma weekday_names_differ (a : Z) (x y : string) :
  0 <= a < 7 ->
  (nth (Z.to_nat a) weekdayNames EmptyString ++ x)%string
  <> (nth (Z.to_nat ((a + 1) mod 7)) weekdayNames EmptyString ++ y)%string.
Proof.
  intros Ha.
  assert (H : a = 0 \/ a = 1 \/ a = 2 \/ a = 3 \/ a = 4 \/ a = 5 \/ a = 6)
    by lia.
  destruct H as [->|[->|[->|[->|[->|[->| ->]]]]]]; cbn; discriminate.
Qed.

(** The labels of two consecutive days differ: they name different days of
    the week. *)
Lemma labels_of_neighbours_differ (tz t1 t2 : Z) :
  Day (LocalTime tz t2) = Day (LocalTime tz t1) + 1 ->
  format_EEEE_MMMM_d tz t1 <> format_EEEE_MMMM_d tz t2.
Proof.
  intros E. unfold format_EEEE_MMMM_d, getDay, WeekDay. rewrite E.
  replace ((Day (LocalTime tz t1) + 1 + 4) mod 7)
    with (((Day (LocalTime tz t1) + 4) mod 7 + 1) mod 7).
  - apply weekday_names_differ. apply Z.mod_pos_bound. lia.
  - rewrite Zplus_mod_idemp_l. f_equal. lia.
Qed.

(** A slot carries the label of the day it was built for: the window is
    moved to that day and the walk stays inside it. *)
Lemma slot_on_its_day (tz now : Z) (appts : list Appointment.t)
  (availability : Availability.t) (day : Z) (s : TimeSlot.t) :
  In s (slotsForDay tz now appts availability day) ->
  TimeSlot.day s = format_EEEE_MMMM_d tz day.
Proof.
  intros Hs. apply In_slotsForDay in Hs. destruct Hs as (k & Hle & _ & ->).
  cbv zeta in Hle. cbn [makeSlot TimeSlot.day]. apply label_by_local_day.
  revert Hle. unfold availabilityStartOn, availabilityEndOn.
  rewrite !setFullYear_of_fields.
  pose proof (TimeWithinDay_bound
                (LocalTime tz (Availability.startTime availability))) as Ha.
  pose proof (TimeWithinDay_bound
                (LocalTime tz (Availability.endTime availability))) as Hb.
  revert Ha Hb.
  generalize (TimeWithinDay
                (LocalTime tz (Availability.startTime availability))).
  generalize (TimeWithinDay
                (LocalTime tz (Availability.endTime availability))).
  generalize (Day (LocalTime tz day)).
  intros D b a Ha Hb Hle. unfold LocalTime, MakeDate, Day in *.
  symmetry.
  apply (Z.div_unique _ msPerDay D (a + Z.of_nat k * slotMs)).
  - left. unfold slotMs, msPerMinute, msPerDay in *. lia.
  - unfold slotMs, msPerMinute, msPerDay in *. lia.
Qed.

End OrderFacts.
Import OrderFacts.

(** C6.  A resolved outcome holds four records, one for each of the four
    consecutive calendar days that start at the day of the clock, in this
    order and under different dates; the slots of a record are in strictly
    increasing order of their start.  A record with slots is labelled with
    its day.  A record without slots is there all the same, and is labelled
    with its day when the zone is at or east of UTC; west of UTC its label
    is the one of the day before, not its own. *)
Theorem one_record_per_day (w : World) (doctorId : string)
  (ds : list TimeSlotDay.t) :
  getAvailableTimeSlots w doctorId = Resolved ds ->
  let tz := timeZone w in
  let today := Day (LocalTime tz (clock w)) in
  length ds = 4%nat
  /\ map TimeSlotDay.date ds
     = map (format_yyyy_MM_dd tz) (fourDays tz (clock w))
  /\ map (fun d => dayNumber (TimeSlotDay.date d)) ds
     = [today; today + 1; today + 2; today + 3]
  /\ NoDup (map TimeSlotDay.date ds)
  /\ (forall d, In d ds ->
        StronglySorted Z.lt
          (map TimeSlot.startTime (TimeSlotDay.slots d)))
  /\ (forall (i : nat) (d : TimeSlotDay.t) (day : Z),
        nth_error ds i = Some d ->
        nth_error (fourDays tz (clock w)) i = Some day ->
        (TimeSlotDay.slots d <> [] ->
         TimeSlotDay.displayDate d = format_EEEE_MMMM_d tz day)
        /\ (TimeSlotDay.slots d = [] -> 0 <= tz < msPerDay ->
            TimeSlotDay.displayDate d = format_EEEE_MMMM_d tz day)
        /\ (TimeSlotDay.slots d = [] -> - msPerDay <= tz < 0 ->
            TimeSlotDay.displayDate d
            = format_EEEE_MMMM_d tz (addDays tz day (-1))
            /\ TimeSlotDay.displayDate d <> format_EEEE_MMMM_d tz day)).
Proof.
  intros Hres tz today.
  pose proof (getAvailableTimeSlots_resolved _ _ _ Hres)
    as (doctor & availability & _ & _ & E).
  assert (Hdates : map TimeSlotDay.date ds
                   = map (format_yyyy_MM_dd tz) (fourDays tz (clock w))).
  { rewrite E, map_map. reflexivity. }
  assert (Hnum : map (fun d => dayNumber (TimeSlotDay.date d)) ds
                 = [today; today + 1; today + 2; today + 3]).
  { rewrite <- (map_map TimeSlotDay.date dayNumber), Hdates, map_map.
    fold tz. rewrite fourDays_dayNumbers. cbn [map]. fold today.
    now rewrite Z.add_0_r. }
  split; [rewrite E; reflexivity|].
  split; [exact Hdates|]. split; [exact Hnum|]. split; [|split].
  - apply (NoDup_map_inv dayNumber). rewrite map_map, Hnum.
    repeat (constructor; [cbn [In]; lia|]). constructor.
  - intros d Hd. rewrite E in Hd. apply in_map_iff in Hd.
    destruct Hd as (day & <- & _). rewrite slots_recordOfDay.
    apply startTimes_slotsForDay.
  - intros i d day Hd Hday. rewrite E, nth_error_map in Hd. fold tz in Hd.
    rewrite Hday in Hd. cbn [option_map] in Hd. injection Hd as <-.
    unfold recordOfDay. fold tz.
    remember (slotsForDay tz (clock w) (existingAppointmentsOf w doctor)
                availability day) as slots eqn:Es.
    cbn [toTimeSlotDay TimeSlotDay.slots TimeSlotDay.displayDate].
    destruct slots as [|s rest].
    + split; [intros H; now contradiction H|]. split.
      * intros _ Htz. apply label_of_key_east, Htz.
      * intros _ Htz. rewrite (label_of_key_west _ _ Htz). split;
          [reflexivity|].
        apply labels_of_neighbours_differ. rewrite Day_addDays. lia.
    + split; [|split; discriminate].
      intros _. apply (slot_on_its_day tz (clock w)
                         (existingAppointmentsOf w doctor) availability).
      rewrite <- Es. left. reflexivity.
Qed.

(** Asked at 13:00 local time in a zone five hours west of UTC, the record
    of the day, whose only slot is past, is labelled with the day before. *)
Lemma one_record_per_day_witness :
  exists d,
    nth_error
      (Sample.daysOf (getAvailableTimeSlots Sample.westWorld "d1")) 0
    = Some d
    /\ TimeSlotDay.date d = mkCalendarDate 2026 11 2
    /\ TimeSlotDay.slots d = []
    /\ TimeSlotDay.displayDate d = "Sunday, November 1"%string
    /\ TimeSlotDay.displayDate d
       <> format_EEEE_MMMM_d (timeZone Sample.westWorld)
            (clock Sample.westWorld).
Proof.
  eexists. split; [vm_compute; reflexivity|].
  split; [reflexivity|]. split; [reflexivity|]. split; [reflexivity|].
  assert (Hres : getAvailableTimeSlots Sample.westWorld "d1"
                 = Resolved
                     (Sample.daysOf
                        (getAvailableTimeSlots Sample.westWorld "d1")))
    by (vm_compute; reflexivity).
  destruct (one_record_per_day _ _ _ Hres) as (_ & _ & _ & _ & _ & H).
  refine (proj2 (proj2 (proj2 (H 0%nat _ (clock Sample.westWorld) _ _))
                  _ _)).
  - vm_compute. reflexivity.
  - reflexivity.
  - reflexivity.
  - vm_compute. split; [discriminate|reflexivity].
Defined.

(** A day whose only candidate is booked is still reported, without slots;
    the other days follow in order. *)
Example empty_day_scenario :
  map (fun d => (TimeSlotDay.date d, TimeSlotDay.displayDate d,
                 length (TimeSlotDay.slots d)))
    (Sample.daysOf
       (getAvailableTimeSlots
          (Sample.world (Sample.at_ 8 0) 0 [Sample.window 9 0 9 30]
             [Sample.booking (Sample.at_ 9 0) (Sample.at_ 9 30)])
          "d1"))
  = [(mkCalendarDate 2026 11 2, "Monday, November 2"%string, 0%nat);
     (mkCalendarDate 2026 11 3, "Tuesday, November 3"%string, 1%nat);
     (mkCalendarDate 2026 11 4, "Wednesday, November 4"%string, 1%nat);
     (mkCalendarDate 2026 11 5, "Thursday, November 5"%string, 1%nat)].
Proof. vm_compute. reflexivity. Qed.

(** West of UTC the label of a record without slots is read off the UTC
    midnight of its date, which is still the evening before; the records
    with slots carry the label of their own day. *)
Example empty_day_label_west_of_UTC :
  map (fun d => (TimeSlotDay.date d, TimeSlotDay.displayDate d,
                 length (TimeSlotDay.slots d)))
    (Sample.daysOf (getAvailableTimeSlots Sample.westWorld "d1"))
  = [(mkCalendarDate 2026 11 2, "Sunday, November 1"%string, 0%nat);
     (mkCalendarDate 2026 11 3, "Tuesday, November 3"%string, 1%nat);
     (mkCalendarDate 2026 11 4, "Wednesday, November 4"%string, 1%nat);
     (mkCalendarDate 2026 11 5, "Thursday, November 5"%string, 1%nat)].
Proof. vm_compute. reflexivity. Qed.

(* ===================================================================== *)
(** ** Rejections *)
(* ===================================================================== *)

(** C7.  When the doctor has no availability row with status AVAILABLE,
    the promise is rejected, never resolved: no record at all is returned.
    For a doctor that exists the message is the one of the missing
    availability, behind the prefix of the [catch]. *)
Theorem no_availability_rejects (w : World) (doctorId : string) :
  (forall a, In a (availabilities w) ->
     Availability.doctorId a = doctorId ->
     Availability.status a <> AVAILABLE) ->
  (exists message, getAvailableTimeSlots w doctorId = Rejected message)
  /\ (forall ds, getAvailableTimeSlots w doctorId <> Resolved ds)
  /\ (forall doctor, findDoctor w doctorId = Some doctor ->
        getAvailableTimeSlots w doctorId
        = Rejected
            "Failed to fetch available slots: No availability set by doctor").
Proof.
  intros Hnone.
  assert (Hfind : findAvailability w doctorId = None).
  { destruct (findAvailability w doctorId) as [a|] eqn:E; [|reflexivity].
    unfold findAvailability in E. apply find_some in E.
    destruct E as [Ha E]. apply andb_true_iff in E. destruct E as [E1 E2].
    apply String.eqb_eq in E1. exfalso. apply (Hnone a Ha E1).
    destruct (Availability.status a); [reflexivity|discriminate]. }
  assert (Hdoc : forall doctor, findDoctor w doctorId = Some doctor ->
            getAvailableTimeSlots w doctorId
            = Rejected
                "Failed to fetch available slots: No availability set by doctor").
  { intros doctor Hd. rewrite getAvailableTimeSlots_eq, Hd.
    rewrite (findDoctor_id _ _ _ Hd), Hfind. reflexivity. }
  assert (Hrej : exists message,
            getAvailableTimeSlots w doctorId = Rejected message).
  { destruct (findDoctor w doctorId) as [doctor|] eqn:Hd.
    - eexists. apply (Hdoc doctor eq_refl).
    - eexists. rewrite getAvailableTimeSlots_eq, Hd. reflexivity. }
  split; [exact Hrej|]. split; [|exact Hdoc].
  intros ds E. destruct Hrej as [m Hm]. congruence.
Qed.

Lemma no_availability_rejects_witness :
  getAvailableTimeSlots
    (Sample.world (Sample.at_ 8 0) 0
       [Availability.mk "d1" (Sample.at_ 9 0) (Sample.at_ 17 0) UNAVAILABLE]
       [])
    "d1"
  = Rejected "Failed to fetch available slots: No availability set by doctor".
Proof.
  refine (proj2 (proj2
    (no_availability_rejects
       (Sample.world (Sample.at_ 8 0) 0
          [Availability.mk "d1" (Sample.at_ 9 0) (Sample.at_ 17 0)
             UNAVAILABLE] [])
       "d1" _)) Sample.doctor1 eq_refl).
  intros a [<-|[]] _. discriminate.
Defined.

(* ===================================================================== *)
(** ** A window that ends before it starts *)
(* ===================================================================== *)






(* ===================================================================== *)
(** ** The action as a sequence of calls *)
(* ===================================================================== *)

(** The calls that the actions of src/actions/appointments.ts make on
    their surroundings: the three queries of [getAvailableTimeSlots], its
    reading of the clock, and [db.appointment.create], the write of
    [bookAppointment].  A script is an action with these calls made
    explicit; the continuation of a call receives its answer. *)
Inductive Script (A : Type) : Type :=
| Return (value : A)
| Throw (message : string)
| user_findUnique (id : string) (k : option User.t -> Script A)
| availability_findFirst (doctorId : string)
    (k : option Availability.t -> Script A)
| appointment_findMany (doctorId : string) (lte : Z)
    (k : list Appointment.t -> Script A)
| appointment_create (data : Appointment.t) (k : Script A)
| new_Date (k : Z -> Script A).

Arguments Return {A} value.
Arguments Throw {A} message.
Arguments user_findUnique {A} id k.
Arguments availability_findFirst {A} doctorId k.
Arguments appointment_findMany {A} doctorId lte k.
Arguments appointment_create {A} data k.
Arguments new_Date {A} k.

Definition withAppointment (w : World) (data : Appointment.t) : World :=
  {| clock := clock w; timeZone := timeZone w; users := users w;
     availabilities := availabilities w;
     appointments := appointments w ++ [data] |}.

(** A script run from a world: each query is answered from the tables,
    [new Date()] from the clock, and a write changes the table.  The
    result is the outcome together with the world that is left. *)
Fixpoint run {A : Type} (s : Script A) (w : World) : Outcome A * World :=
  match s with
  | Return value => (Resolved value, w)
  | Throw message => (Rejected message, w)
  | user_findUnique id k => run (k (findDoctor w id)) w
  | availability_findFirst doctorId k =>
      run (k (findAvailability w doctorId)) w
  | appointment_findMany doctorId lte k =>
      run (k (findAppointments w doctorId lte)) w
  | appointment_create data k => run k (withAppointment w data)
  | new_Date k => run (k (clock w)) w
  end.

Module Calls.

(** The body of the [try] of [getAvailableTimeSlots], call by call, in a
    process whose zone is [tz]. *)
Definition getAvailableTimeSlots (tz : Z) (doctorId : string)
  : Script (list TimeSlotDay.t) :=
  user_findUnique doctorId (fun doctor =>
  match doctor with
  | None => Throw "Doctor not found or not verified"
  | Some doctor =>
      availability_findFirst (User.id doctor) (fun availability =>
      match availability with
      | None => Throw "No availability set by doctor"
      | Some availability =>
          new_Date (fun now =>
          let days := fourDays tz now in
          let lastDay := endOfDay tz (nth 3 days 0) in
          appointment_findMany (User.id doctor) lastDay
            (fun existingAppointments =>
          let availableSlotsByDay :=
            fold_left
              (fun obj day =>
                 obj_set obj (format_yyyy_MM_dd tz day)
                   (slotsForDay tz now existingAppointments availability
                      day))
              days [] in
          Return (map (toTimeSlotDay tz)
                    (Object_entries availableSlotsByDay))))
      end)
  end).

End Calls.

(** The action run from a world: its outcome, behind the [catch], and the
    world it leaves. *)
Definition runAction (w : World) (doctorId : string)
  : Outcome (list TimeSlotDay.t) * World :=
  let r := run (Calls.getAvailableTimeSlots (timeZone w) doctorId) w in
  (tryCatch "Failed to fetch available slots: " (fst r), snd r).

(** The instant the action passes as the bound of its query on the
    appointments: the end of the fourth day. *)
Definition lastDayOf (w : World) : Z :=
  endOfDay (timeZone w) (nth 3 (fourDays (timeZone w) (clock w)) 0).

(** The two worlds of the sample agree on every read of the action; the
    second holds more rows: another doctor with a window and a booking, a
    cancelled appointment of the doctor asked for, and a scheduled one ten
    days after the clock. *)
Definition crowdedWorld : World :=
  {| clock := Sample.at_ 8 0; timeZone := 0;
     users := [Sample.doctor1; User.mk "d2" DOCTOR VERIFIED];
     availabilities := [Sample.window 9 0 17 0;
                        Availability.mk "d2" 0 1 AVAILABLE];
     appointments :=
       [Appointment.mk "d2" (Sample.at_ 9 0) (Sample.at_ 9 30) SCHEDULED;
        Appointment.mk "d1" (Sample.at_ 9 0) (Sample.at_ 9 30) CANCELLED;
        Appointment.mk "d1" (Sample.at_ 9 0 + 10 * msPerDay)
          (Sample.at_ 9 30 + 10 * msPerDay) SCHEDULED] |}.

Module CallFacts.

Lemma run_user_findUnique {A : Type} (id : string)
  (k : option User.t -> Script A) (w : World) :
  run (user_findUnique id k) w = run (k (findDoctor w id)) w.
Proof. reflexivity. Qed.

Lemma run_availability_findFirst {A : Type} (doctorId : string)
  (k : option Availability.t -> Script A) (w : World) :
  run (availability_findFirst doctorId k) w
  = run (k (findAvailability w doctorId)) w.
Proof. reflexivity. Qed.

Lemma run_appointment_findMany {A : Type} (doctorId : string) (lte : Z)
  (k : list Appointment.t -> Script A) (w : World) :
  run (appointment_findMany doctorId lte k) w
  = run (k (findAppointments w doctorId lte)) w.
Proof. reflexivity. Qed.

Lemma run_new_Date {A : Type} (k : Z -> Script A) (w : World) :
  run (new_Date k) w = run (k (clock w)) w.
Proof. reflexivity. Qed.

(** A write is seen in the world that is left. *)
Lemma run_appointment_create (data : Appointment.t) (w : World) :
  snd (run (appointment_create data (Return tt)) w) = withAppointment w data.
Proof. reflexivity. Qed.

Lemma lastDayOf_eq (w : World) :
  lastDayOf w
  = endOfDay (timeZone w) (nth 3 (fourDays (timeZone w) (clock w)) 0).
Proof. unfold lastDayOf. reflexivity. Qed.

End CallFacts.
Import CallFacts.

(* ===================================================================== *)
(** ** What the outcome depends on *)
(* ===================================================================== *)

(** C9, as the specification states it: with the same tables and the same
    zone, asking for the same doctor at two readings of the clock gives two
    different outcomes, so the outcome is not a function of the window and
    the bookings alone. *)
Lemma clock_dependence_counterexample :
  users Sample.freeWorld = users Sample.laterFreeWorld
  /\ availabilities Sample.freeWorld = availabilities Sample.laterFreeWorld
  /\ appointments Sample.freeWorld = appointments Sample.laterFreeWorld
  /\ timeZone Sample.freeWorld = timeZone Sample.laterFreeWorld
  /\ getAvailableTimeSlots Sample.freeWorld "d1"
     <> getAvailableTimeSlots Sample.laterFreeWorld "d1".
Proof.
  repeat split. intros E.
  apply (f_equal (fun o => map (fun d => length (TimeSlotDay.slots d))
                             (Sample.daysOf o))) in E.
  vm_compute in E. discriminate.
Qed.

(** C9, amended.  Run call by call, the action makes its queries and reads
    the clock, writes nothing, and leaves the world as it found it, with
    the outcome of [getAvailableTimeSlots].  That outcome is determined by
    the doctor asked for together with the answers to the reads the action
    makes: the doctor; if there is one, the availability; if there is one,
    the clock, the zone and the scheduled appointments that start by the
    end of the fourth day.  Two worlds that agree on these give the same
    outcome, whatever else their tables hold. *)
Theorem outcome_determined_by_reads (doctorId : string) :
  (forall w, runAction w doctorId = (getAvailableTimeSlots w doctorId, w))
  /\ (forall w1 w2,
        findDoctor w1 doctorId = findDoctor w2 doctorId ->
        (forall doctor, findDoctor w1 doctorId = Some doctor ->
           findAvailability w1 (User.id doctor)
           = findAvailability w2 (User.id doctor)) ->
        (forall doctor availability,
           findDoctor w1 doctorId = Some doctor ->
           findAvailability w1 (User.id doctor) = Some availability ->
           clock w1 = clock w2
           /\ timeZone w1 = timeZone w2
           /\ findAppointments w1 (User.id doctor) (lastDayOf w1)
              = findAppointments w2 (User.id doctor) (lastDayOf w1)) ->
        getAvailableTimeSlots w1 doctorId
        = getAvailableTimeSlots w2 doctorId).
Proof.
  split.
  - intros w. unfold runAction, Calls.getAvailableTimeSlots,
      getAvailableTimeSlots.
    rewrite run_user_findUnique.
    destruct (findDoctor w doctorId) as [doctor|]; [|reflexivity].
    rewrite run_availability_findFirst.
    destruct (findAvailability w (User.id doctor)) as [availability|];
      [|reflexivity].
    rewrite run_new_Date. cbv beta zeta. rewrite run_appointment_findMany.
    reflexivity.
  - intros w1 w2 Hd Ha Hb. rewrite !getAvailableTimeSlots_eq, <- Hd.
    destruct (findDoctor w1 doctorId) as [doctor|] eqn:E; [|reflexivity].
    rewrite <- (Ha doctor eq_refl).
    destruct (findAvailability w1 (User.id doctor)) as [availability|] eqn:Ea;
      [|reflexivity].
    destruct (Hb doctor availability eq_refl Ea) as (Hc & Hz & Hq).
    f_equal. rewrite <- Hc, <- Hz. apply map_ext. intros day.
    unfold recordOfDay, existingAppointmentsOf.
    rewrite <- Hc, <- Hz, <- lastDayOf_eq, <- Hq. reflexivity.
Qed.

Lemma outcome_determined_by_reads_witness :
  getAvailableTimeSlots Sample.freeWorld "d1"
  = getAvailableTimeSlots crowdedWorld "d1"
  /\ appointments Sample.freeWorld <> appointments crowdedWorld.
Proof.
  split; [|discriminate].
  apply (proj2 (outcome_determined_by_reads "d1")).
  - reflexivity.
  - intros doctor H. injection H as <-. reflexivity.
  - intros doctor availability Hd Ha. injection Hd as <-.
    injection Ha as <-. split; [reflexivity|]. split; [reflexivity|].
    vm_compute. reflexivity.
Defined.

(** The query of the action leaves out the appointment ten days after the
    clock, which only the second world holds, so the two worlds differ on
    a bound the action never asks for. *)
Example unread_rows_scenario :
  findAppointments Sample.freeWorld "d1"
    (lastDayOf Sample.freeWorld + 7 * msPerDay)
  <> findAppointments crowdedWorld "d1"
       (lastDayOf Sample.freeWorld + 7 * msPerDay).
Proof. vm_compute. discriminate. Qed.

(* ===================================================================== *)
(** ** The loop ends *)
(* ===================================================================== *)

(** C10.  Whatever the inputs, the loop over a day is the body run
    [n = (end - current) / 30 min] times (no time when this is negative):
    the condition holds before each of these passes and fails after the
    last, each pass moves [current] by exactly 30 minutes, and [n] is at
    most the length of the window divided by 30 minutes.  When the window
    ends at or before its start there is no pass at all and the day has no
    slot. *)
Theorem loop_terminates (tz now : Z)
  (existingAppointments : list Appointment.t) (end_ : Z) (st : LoopState) :
  let body := loopBody tz now existingAppointments in
  let n := Z.to_nat ((end_ - current st) / slotMs) in
  whileLoop tz now existingAppointments end_ st = Nat.iter n body st
  /\ (forall k, (k < n)%nat -> loopGuard end_ (Nat.iter k body st) = true)
  /\ loopGuard end_ (Nat.iter n body st) = false
  /\ (forall st', current (body st') = current st' + slotMs)
  /\ Z.of_nat n = Z.max 0 ((end_ - current st) / slotMs)
  /\ (end_ <= current st ->
      n = 0%nat /\ whileLoop tz now existingAppointments end_ st = st)
  /\ (forall availability day,
        availabilityEndOn tz availability day
        <= availabilityStartOn tz availability day ->
        slotsForDay tz now existingAppointments availability day = []).
Proof.
  intros body n.
  assert (Hn : forall k : nat,
             (k < n)%nat <-> current st + Z.of_nat k * slotMs + slotMs <= end_).
  { intros k. apply below_slot_count. }
  assert (Hzero : end_ <= current st -> n = 0%nat).
  { intros H. destruct n as [|m] eqn:E; [reflexivity|].
    assert (Hm : (0 < S m)%nat) by lia. apply Hn in Hm.
    unfold slotMs, msPerMinute in Hm. lia. }
  split; [apply whileLoop_iter|]. split; [|split; [|split; [|split; [|split]]]].
  - intros k Hk. apply loopGuard_true. unfold body.
    rewrite current_iter. apply Hn in Hk. lia.
  - apply loopGuard_false. unfold body. rewrite current_iter.
    assert (H : ~ (n < n)%nat) by lia. rewrite Hn in H. lia.
  - intros st'. apply current_loopBody.
  - unfold n. lia.
  - intros H. split; [exact (Hzero H)|].
    fold (passes end_ st) in n. rewrite whileLoop_iter.
    fold n. now rewrite (Hzero H).
  - intros availability day H. rewrite slotsForDay_eq.
    rewrite slot_count_nonpos; [reflexivity|].
    pose proof slotMs_pos. lia.
Qed.

(* ===================================================================== *)
(** * Booking, credits and video tokens

    The other actions of src/actions/appointments.ts, the credit transfer
    of src/actions/credits they call, and the checks of the pages that call
    them.  These actions write to the database, so the tables are threaded
    through them as a state. *)
(* ===================================================================== *)

(** ** The tables, with the columns these actions use *)

Inductive TransactionType : Type :=
| CREDIT_PURCHASE | APPOINTMENT_DEDUCTION | ADMIN_ADJUSTMENT.

Module UserRow.
Record t : Type := mk
  { id : string; clerkUserId : string; name : string; role : UserRole;
    verificationStatus : VerificationStatus; credits : Z }.
End UserRow.

Module AppointmentRow.
Record t : Type := mk
  { id : string; patientId : string; doctorId : string;
    startTime : Z; endTime : Z; status : AppointmentStatus;
    patientDescription : option string;
    videoSessionId : option string;
    videoSessionToken : option string }.
End AppointmentRow.

Module CreditTransaction.
Record t : Type := mk
  { userId : string; amount : Z; type : TransactionType;
    packageId : option string }.
End CreditTransaction.

Module Database.
Record t : Type := mk
  { users : list UserRow.t;
    availabilities : list Availability.t;
    appointments : list AppointmentRow.t;
    creditTransactions : list CreditTransaction.t }.
End Database.

(** The columns [getAvailableTimeSlots] reads. *)
Definition userView (u : UserRow.t) : User.t :=
  {| User.id := UserRow.id u; User.role := UserRow.role u;
     User.verificationStatus := UserRow.verificationStatus u |}.

Definition appointmentView (a : AppointmentRow.t) : Appointment.t :=
  {| Appointment.doctorId := AppointmentRow.doctorId a;
     Appointment.startTime := AppointmentRow.startTime a;
     Appointment.endTime := AppointmentRow.endTime a;
     Appointment.status := AppointmentRow.status a |}.

(** The surroundings of [getAvailableTimeSlots] when the tables are [db],
    the clock reads [now] and the zone is [tz]. *)
Definition worldOf (db : Database.t) (now tz : Z) : World :=
  {| clock := now; timeZone := tz;
     users := map userView (Database.users db);
     availabilities := Database.availabilities db;
     appointments := map appointmentView (Database.appointments db) |}.

(** [db.user.findUnique({ where: { id } })] *)
Definition findUserById (db : Database.t) (id : string) : option UserRow.t :=
  find (fun u => String.eqb (UserRow.id u) id) (Database.users db).

(** [tx.user.update({ where: { id }, data })]: the row with this id is
    replaced; [None] when there is none (the query throws). *)
Fixpoint updateUserRow (id : string) (data : UserRow.t -> UserRow.t)
  (rows : list UserRow.t) : option (UserRow.t * list UserRow.t) :=
  match rows with
  | [] => None
  | u :: rest =>
      if String.eqb (UserRow.id u) id then Some (data u, data u :: rest)
      else
        match updateUserRow id data rest with
        | Some (updated, rest') => Some (updated, u :: rest')
        | None => None
        end
  end.

Definition incrementCredits (n : Z) (u : UserRow.t) : UserRow.t :=
  {| UserRow.id := UserRow.id u; UserRow.clerkUserId := UserRow.clerkUserId u;
     UserRow.name := UserRow.name u; UserRow.role := UserRow.role u;
     UserRow.verificationStatus := UserRow.verificationStatus u;
     UserRow.credits := UserRow.credits u + n |}.

Definition decrementCredits (n : Z) (u : UserRow.t) : UserRow.t :=
  incrementCredits (- n) u.

Definition withUsers (db : Database.t) (rows : list UserRow.t) : Database.t :=
  {| Database.users := rows;
     Database.availabilities := Database.availabilities db;
     Database.appointments := Database.appointments db;
     Database.creditTransactions := Database.creditTransactions db |}.

(** [tx.creditTransaction.create({ data })] *)
Definition createCreditTransaction (db : Database.t) (row : CreditTransaction.t)
  : Database.t :=
  {| Database.users := Database.users db;
     Database.availabilities := Database.availabilities db;
     Database.appointments := Database.appointments db;
     Database.creditTransactions := Database.creditTransactions db ++ [row] |}.

(** [db.appointment.create({ data })] *)
Definition createAppointment (db : Database.t) (row : AppointmentRow.t)
  : Database.t :=
  {| Database.users := Database.users db;
     Database.availabilities := Database.availabilities db;
     Database.appointments := Database.appointments db ++ [row];
     Database.creditTransactions := Database.creditTransactions db |}.

(** The message of the error an update of a missing row throws. *)
Definition recordNotFound : string := "Record to update not found.".

(** [db.$transaction(async (tx) => ...)]: the writes of the callback are
    kept when it returns and dropped when it throws. *)
Definition transaction {A : Type} (db : Database.t)
  (callback : Database.t -> Outcome (A * Database.t))
  : Outcome A * Database.t :=
  match callback db with
  | Resolved (a, db') => (Resolved a, db')
  | Rejected m => (Rejected m, db)
  end.

(* ===================================================================== *)
(** ** credits: [deductCreditsForAppointment] *)
(* ===================================================================== *)

Definition APPOINTMENT_CREDIT_COST : Z := 2.

Module DeductResult.
Record t : Type := mk
  { success : bool; user : option UserRow.t; error : option string }.
End DeductResult.

(** The callback of the transaction of [deductCreditsForAppointment]. *)
Definition transferCredits (user doctor : UserRow.t) (tx : Database.t)
  : Outcome (UserRow.t * Database.t) :=
  let tx1 :=
    createCreditTransaction tx
      {| CreditTransaction.userId := UserRow.id user;
         CreditTransaction.amount := - APPOINTMENT_CREDIT_COST;
         CreditTransaction.type := APPOINTMENT_DEDUCTION;
         CreditTransaction.packageId := None |} in
  let tx2 :=
    createCreditTransaction tx1
      {| CreditTransaction.userId := UserRow.id doctor;
         CreditTransaction.amount := APPOINTMENT_CREDIT_COST;
         CreditTransaction.type := APPOINTMENT_DEDUCTION;
         CreditTransaction.packageId := None |} in
  match updateUserRow (UserRow.id user)
          (decrementCredits APPOINTMENT_CREDIT_COST) (Database.users tx2) with
  | None => Rejected recordNotFound
  | Some (updatedUser, rows) =>
      let tx3 := withUsers tx2 rows in
      match updateUserRow (UserRow.id doctor)
              (incrementCredits APPOINTMENT_CREDIT_COST)
              (Database.users tx3) with
      | None => Rejected recordNotFound
      | Some (_, rows') => Resolved (updatedUser, withUsers tx3 rows')
      end
  end.

Definition deductCreditsForAppointment (userId doctorId : string)
  (db : Database.t) : DeductResult.t * Database.t :=
  let user := findUserById db userId in
  let doctor := findUserById db doctorId in
  let attempt : Outcome UserRow.t * Database.t :=
    match user with
    | None => (Rejected "User not found", db)
    | Some user =>
        if UserRow.credits user <? APPOINTMENT_CREDIT_COST then
          (Rejected "Insufficient credits to book an appointment", db)
        else
          match doctor with
          | None => (Rejected "Doctor not found", db)
          | Some doctor => transaction db (transferCredits user doctor)
          end
    end in
  match attempt with
  | (Resolved result, db') =>
      ({| DeductResult.success := true; DeductResult.user := Some result;
          DeductResult.error := None |}, db')
  | (Rejected message, db') =>
      ({| DeductResult.success := false; DeductResult.user := None;
          DeductResult.error := Some message |}, db')
  end.

(* ===================================================================== *)
(** ** appointments: [bookAppointment] *)
(* ===================================================================== *)

(** The fields of the form.  A missing field and an empty one are both
    falsy for the action; the two time fields hold the instant their ISO
    text denotes. *)
Module BookingForm.
Record t : Type := mk
  { doctorId : option string; startTime : option Z; endTime : option Z;
    description : option string }.
End BookingForm.

(** What the action gets from outside the database: the signed-in user of
    [auth()], the outcome of [vonage.video.createSession()] and the id the
    database gives to a new appointment. *)
Module Externals.
Record t : Type := mk
  { authUserId : option string;
    createSession : Outcome string;
    newAppointmentId : string }.
End Externals.

Module BookAppointmentResponse.
Record t : Type := mk
  { success : bool; appointment : option AppointmentRow.t;
    error : option string }.
End BookAppointmentResponse.

Definition bookingFailure (message : string) : BookAppointmentResponse.t :=
  {| BookAppointmentResponse.success := false;
     BookAppointmentResponse.appointment := None;
     BookAppointmentResponse.error := Some message |}.

(** A string of a form field, when it is truthy. *)
Definition truthy (field : option string) : option string :=
  match field with
  | Some s => if String.eqb s "" then None else Some s
  | None => None
  end.

(** [db.user.findUnique({ where: { clerkUserId, role: "PATIENT" } })] *)
Definition findPatient (db : Database.t) (clerkUserId : string)
  : option UserRow.t :=
  find (fun u =>
          String.eqb (UserRow.clerkUserId u) clerkUserId
          && UserRole_eqb (UserRow.role u) PATIENT)
       (Database.users db).

(** [db.user.findUnique({ where: { id, role: "DOCTOR",
    verificationStatus: "VERIFIED" } })] *)
Definition findVerifiedDoctor (db : Database.t) (doctorId : string)
  : option UserRow.t :=
  find (fun u =>
          String.eqb (UserRow.id u) doctorId
          && UserRole_eqb (UserRow.role u) DOCTOR
          && VerificationStatus_eqb (UserRow.verificationStatus u) VERIFIED)
       (Database.users db).

(** The [OR] of the query for an overlapping appointment. *)
Definition overlapsRequest (startTime endTime : Z) (a : AppointmentRow.t)
  : bool :=
  ((AppointmentRow.startTime a <=? startTime)
   && (AppointmentRow.endTime a >? startTime))
  || ((AppointmentRow.startTime a <? endTime)
      && (AppointmentRow.endTime a >=? endTime))
  || ((AppointmentRow.startTime a >=? startTime)
      && (AppointmentRow.endTime a <=? endTime)).

(** [db.appointment.findFirst({ where: { doctorId, status: "SCHEDULED",
    OR: [...] } })] *)
Definition findOverlappingAppointment (db : Database.t) (doctorId : string)
  (startTime endTime : Z) : option AppointmentRow.t :=
  find (fun a =>
          String.eqb (AppointmentRow.doctorId a) doctorId
          && AppointmentStatus_eqb (AppointmentRow.status a) SCHEDULED
          && overlapsRequest startTime endTime a)
       (Database.appointments db).

(** [createVideoSession]: the error of the SDK is thrown again behind a
    prefix. *)
Definition createVideoSession (ext : Externals.t) : Outcome string :=
  tryCatch "Failed to create video session: " (Externals.createSession ext).

Definition bookAppointment (ext : Externals.t) (formData : BookingForm.t)
  (db : Database.t) : BookAppointmentResponse.t * Database.t :=
  match Externals.authUserId ext with
  | None => (bookingFailure "Unauthorized", db)
  | Some userId =>
      match findPatient db userId with
      | None => (bookingFailure "Patient not found", db)
      | Some patient =>
          match truthy (BookingForm.doctorId formData),
                BookingForm.startTime formData,
                BookingForm.endTime formData with
          | Some doctorId, Some startTime, Some endTime =>
              match findVerifiedDoctor db doctorId with
              | None =>
                  (bookingFailure "Doctor not found or not verified", db)
              | Some doctor =>
                  if UserRow.credits patient <? 2 then
                    (bookingFailure "Insufficient credits", db)
                  else
                    match findOverlappingAppointment db doctorId
                            startTime endTime with
                    | Some _ =>
                        (bookingFailure "This time slot is already booked",
                         db)
                    | None =>
                        match createVideoSession ext with
                        | Rejected message => (bookingFailure message, db)
                        | Resolved sessionId =>
                            let '(deducted, db1) :=
                              deductCreditsForAppointment
                                (UserRow.id patient) (UserRow.id doctor) db in
                            if negb (DeductResult.success deducted) then
                              (bookingFailure
                                 match DeductResult.error deducted with
                                 | Some message =>
                                     if String.eqb message ""
                                     then "Failed to deduct credits"
                                     else message
                                 | None => "Failed to deduct credits"
                                 end, db1)
                            else
                              let appointment :=
                                {| AppointmentRow.id :=
                                     Externals.newAppointmentId ext;
                                   AppointmentRow.patientId :=
                                     UserRow.id patient;
                                   AppointmentRow.doctorId :=
                                     UserRow.id doctor;
                                   AppointmentRow.startTime := startTime;
                                   AppointmentRow.endTime := endTime;
                                   AppointmentRow.status := SCHEDULED;
                                   AppointmentRow.patientDescription :=
                                     truthy
                                       (BookingForm.description formData);
                                   AppointmentRow.videoSessionId :=
                                     Some sessionId;
                                   AppointmentRow.videoSessionToken :=
                                     None |} in
                              ({| BookAppointmentResponse.success := true;
                                  BookAppointmentResponse.appointment :=
                                    Some appointment;
                                  BookAppointmentResponse.error := None |},
                               createAppointment db1 appointment)
                        end
                    end
              end
          | _, _, _ =>
              (bookingFailure
                 "Doctor, start time, and end time are required", db)
          end
      end
  end.

(* ===================================================================== *)
(** ** Facts about the credit transfer *)
(* ===================================================================== *)

Module CreditFacts.

(** The credits held by all users together. *)
Definition totalCredits (rows : list UserRow.t) : Z :=
  fold_right (fun u acc => UserRow.credits u + acc) 0 rows.

(** The sum of the amounts of the ledger. *)
Definition ledgerSum (rows : list CreditTransaction.t) : Z :=
  fold_right (fun r acc => CreditTransaction.amount r + acc) 0 rows.

Definition hasId (id : string) (u : UserRow.t) : bool :=
  String.eqb (UserRow.id u) id.

Lemma ledgerSum_app (l1 l2 : list CreditTransaction.t) :
  ledgerSum (l1 ++ l2) = ledgerSum l1 + ledgerSum l2.
Proof.
  unfold ledgerSum.
  induction l1 as [|r l1 IH]; cbn [app fold_right]; [lia|rewrite IH; lia].
Qed.

Lemma id_incrementCredits (n : Z) (u : UserRow.t) :
  UserRow.id (incrementCredits n u) = UserRow.id u.
Proof. reflexivity. Qed.

Section Update.
Variables (id : string) (data : UserRow.t -> UserRow.t).
Hypothesis data_id : forall u, UserRow.id (data u) = UserRow.id u.

Lemma updateUserRow_found (rows : list UserRow.t) (u : UserRow.t) :
  find (hasId id) rows = Some u ->
  exists rows', updateUserRow id data rows = Some (data u, rows').
Proof.
  induction rows as [|x rows IH]; cbn [find updateUserRow]; [discriminate|].
  unfold hasId at 1. destruct (String.eqb (UserRow.id x) id).
  - intros E. injection E as <-. eexists. reflexivity.
  - intros E. destruct (IH E) as [rows' ->]. eexists. reflexivity.
Qed.

Lemma updateUserRow_inv (rows rows' : list UserRow.t) (u' : UserRow.t) :
  updateUserRow id data rows = Some (u', rows') ->
  exists u,
    find (hasId id) rows = Some u /\ u' = data u
    /\ totalCredits rows'
       = totalCredits rows + (UserRow.credits (data u) - UserRow.credits u)
    /\ map UserRow.id rows' = map UserRow.id rows
    /\ (forall x, In x rows' -> x = data u \/ In x rows)
    /\ (forall id',
          find (hasId id') rows'
          = if String.eqb id id' then Some (data u)
            else find (hasId id') rows).
Proof.
  revert rows' u'. induction rows as [|x rows IH]; intros rows' u';
    cbn [updateUserRow]; [discriminate|].
  cbn [find map totalCredits fold_right In]. unfold hasId at 1.
  fold (totalCredits rows).
  destruct (String.eqb (UserRow.id x) id) eqn:Ex.
  - intros E. injection E as <- <-. exists x.
    cbn [find map totalCredits fold_right In]. fold (totalCredits rows).
    split; [reflexivity|]. split; [reflexivity|]. split; [lia|].
    split; [f_equal; apply data_id|]. split.
    + intros y [<-|Hy]; auto.
    + intros id'. unfold hasId at 1 3. rewrite data_id.
      apply String.eqb_eq in Ex. rewrite Ex.
      destruct (String.eqb id id'); reflexivity.
  - destruct (updateUserRow id data rows) as [[u0 rows0]|] eqn:Eu;
      [|discriminate].
    intros E. injection E as <- <-.
    destruct (IH rows0 u0 eq_refl) as (u & Hf & -> & Ht & Hm & Hin & Hfind).
    exists u. cbn [find map totalCredits fold_right In].
    fold (totalCredits rows0).
    split; [exact Hf|]. split; [reflexivity|]. split; [lia|].
    split; [now rewrite Hm|]. split.
    + intros y [<-|Hy]; [auto|]. destruct (Hin y Hy); auto.
    + intros id'. unfold hasId at 1 3.
      destruct (String.eqb (UserRow.id x) id') eqn:Ex'.
      * destruct (String.eqb id id') eqn:Ei; [|reflexivity].
        apply String.eqb_eq in Ex', Ei. rewrite <- Ei in Ex'.
        rewrite Ex', String.eqb_refl in Ex. discriminate.
      * apply Hfind.
Qed.
End Update.

Lemma find_hasId_own (db : Database.t) (userId : string) (user : UserRow.t) :
  findUserById db userId = Some user ->
  find (hasId (UserRow.id user)) (Database.users db) = Some user
  /\ UserRow.id user = userId.
Proof.
  intros E. pose proof (find_some _ _ E) as [_ Hid].
  apply String.eqb_eq in Hid. rewrite Hid. split; [exact E|reflexivity].
Qed.

(** What a successful transfer went through and what it wrote. *)
Lemma deductCredits_success (userId doctorId : string) (db db' : Database.t)
  (r : DeductResult.t) :
  deductCreditsForAppointment userId doctorId db = (r, db') ->
  DeductResult.success r = true ->
  exists user doctor rows1 doctor' rows2,
    findUserById db userId = Some user
    /\ APPOINTMENT_CREDIT_COST <= UserRow.credits user
    /\ findUserById db doctorId = Some doctor
    /\ updateUserRow (UserRow.id user)
         (decrementCredits APPOINTMENT_CREDIT_COST) (Database.users db)
       = Some (decrementCredits APPOINTMENT_CREDIT_COST user, rows1)
    /\ updateUserRow (UserRow.id doctor)
         (incrementCredits APPOINTMENT_CREDIT_COST) rows1
       = Some (doctor', rows2)
    /\ DeductResult.user r
       = Some (decrementCredits APPOINTMENT_CREDIT_COST user)
    /\ Database.users db' = rows2
    /\ Database.availabilities db' = Database.availabilities db
    /\ Database.appointments db' = Database.appointments db
    /\ Database.creditTransactions db'
       = Database.creditTransactions db
         ++ [ {| CreditTransaction.userId := UserRow.id user;
                 CreditTransaction.amount := - APPOINTMENT_CREDIT_COST;
                 CreditTransaction.type := APPOINTMENT_DEDUCTION;
                 CreditTransaction.packageId := None |};
              {| CreditTransaction.userId := UserRow.id doctor;
                 CreditTransaction.amount := APPOINTMENT_CREDIT_COST;
                 CreditTransaction.type := APPOINTMENT_DEDUCTION;
                 CreditTransaction.packageId := None |} ].
Proof.
  unfold deductCreditsForAppointment.
  destruct (findUserById db userId) as [user|] eqn:Eu;
    [|intros E; injection E as <- <-; discriminate].
  destruct (Z.ltb_spec (UserRow.credits user) APPOINTMENT_CREDIT_COST)
    as [Hlt|Hge]; [intros E; injection E as <- <-; discriminate|].
  destruct (findUserById db doctorId) as [doctor|] eqn:Ed;
    [|intros E; injection E as <- <-; discriminate].
  unfold transaction, transferCredits.
  cbn [createCreditTransaction Database.users withUsers].
  destruct (updateUserRow (UserRow.id user) _ (Database.users db))
    as [[u1 rows1]|] eqn:E1;
    [|intros E; injection E as <- <-; discriminate].
  destruct (updateUserRow (UserRow.id doctor) _ rows1)
    as [[u2 rows2]|] eqn:E2;
    [|intros E; injection E as <- <-; discriminate].
  intros E _. injection E as <- <-.
  pose proof (updateUserRow_inv _ _ (id_incrementCredits _) _ _ _ E1)
    as (u & Hf & -> & _).
  assert (u = user) as ->.
  { pose proof (find_some _ _ Eu) as [_ Hid]. apply String.eqb_eq in Hid.
    rewrite Hid in Hf. unfold findUserById in Eu. unfold hasId in Hf.
    rewrite Eu in Hf. now injection Hf. }
  exists user, doctor, rows1, u2, rows2.
  unfold withUsers, createCreditTransaction.
  cbn [DeductResult.user Database.users Database.availabilities
         Database.appointments Database.creditTransactions].
  rewrite <- app_assoc. repeat split; assumption || reflexivity.
Qed.

(** The transfer goes through when its three checks pass. *)
Lemma deductCredits_succeeds (userId doctorId : string) (db : Database.t)
  (user doctor : UserRow.t) :
  findUserById db userId = Some user ->
  APPOINTMENT_CREDIT_COST <= UserRow.credits user ->
  findUserById db doctorId = Some doctor ->
  DeductResult.success (fst (deductCreditsForAppointment userId doctorId db))
  = true.
Proof.
  intros Eu Hge Ed. unfold deductCreditsForAppointment. rewrite Eu, Ed.
  destruct (Z.ltb_spec (UserRow.credits user) APPOINTMENT_CREDIT_COST)
    as [Hlt|_]; [lia|].
  unfold transaction, transferCredits.
  cbn [createCreditTransaction Database.users withUsers].
  pose proof (find_some _ _ Eu) as [_ Hu]. apply String.eqb_eq in Hu.
  pose proof (find_some _ _ Ed) as [_ Hd]. apply String.eqb_eq in Hd.
  unfold findUserById in Eu, Ed.
  destruct (updateUserRow_found (UserRow.id user)
              (decrementCredits APPOINTMENT_CREDIT_COST)
              (Database.users db) user) as [rows1 E1].
  { rewrite Hu. exact Eu. }
  rewrite E1.
  pose proof (updateUserRow_inv _ _ (id_incrementCredits _) _ _ _ E1)
    as (u & _ & _ & _ & _ & _ & Hfind).
  destruct (updateUserRow_found (UserRow.id doctor)
              (incrementCredits APPOINTMENT_CREDIT_COST) rows1
              (if String.eqb (UserRow.id user) (UserRow.id doctor)
               then decrementCredits APPOINTMENT_CREDIT_COST u
               else doctor)) as [rows2 E2].
  { rewrite Hfind.
    destruct (String.eqb (UserRow.id user) (UserRow.id doctor));
      [reflexivity|].
    rewrite Hd. exact Ed. }
  rewrite E2. reflexivity.
Qed.

(** A refused transfer leaves the tables as they were. *)
Lemma deductCredits_refused (userId doctorId : string) (db : Database.t) :
  DeductResult.success (fst (deductCreditsForAppointment userId doctorId db))
  = false ->
  snd (deductCreditsForAppointment userId doctorId db) = db
  /\ DeductResult.user
       (fst (deductCreditsForAppointment userId doctorId db)) = None
  /\ DeductResult.error
       (fst (deductCreditsForAppointment userId doctorId db))
     = Some
         match findUserById db userId with
         | None => "User not found"%string
         | Some user =>
             if UserRow.credits user <? APPOINTMENT_CREDIT_COST
             then "Insufficient credits to book an appointment"%string
             else "Doctor not found"%string
         end.
Proof.
  destruct (findUserById db userId) as [user|] eqn:Eu.
  - destruct (Z.ltb_spec (UserRow.credits user) APPOINTMENT_CREDIT_COST)
      as [Hlt|Hge].
    + intros _. unfold deductCreditsForAppointment. rewrite Eu.
      apply Z.ltb_lt in Hlt. rewrite Hlt. repeat split.
    + destruct (findUserById db doctorId) as [doctor|] eqn:Ed.
      * rewrite (deductCredits_succeeds _ _ _ _ _ Eu Hge Ed).
        discriminate.
      * intros _. unfold deductCreditsForAppointment. rewrite Eu, Ed.
        apply Z.ltb_ge in Hge. rewrite Hge. repeat split.
  - intros _. unfold deductCreditsForAppointment. rewrite Eu.
    repeat split.
Qed.

End CreditFacts.
Import CreditFacts.

(** ** Sample tables: a patient with five credits and two doctors *)

Module SampleDb.

Definition patient1 : UserRow.t :=
  {| UserRow.id := "p1"; UserRow.clerkUserId := "clerk_p1";
     UserRow.name := "Pat"; UserRow.role := PATIENT;
     UserRow.verificationStatus := PENDING; UserRow.credits := 5 |}.

Definition doctor1 : UserRow.t :=
  {| UserRow.id := "d1"; UserRow.clerkUserId := "clerk_d1";
     UserRow.name := "Dee"; UserRow.role := DOCTOR;
     UserRow.verificationStatus := VERIFIED; UserRow.credits := 8 |}.

Definition doctor2 : UserRow.t :=
  {| UserRow.id := "d2"; UserRow.clerkUserId := "clerk_d2";
     UserRow.name := "Dan"; UserRow.role := DOCTOR;
     UserRow.verificationStatus := PENDING; UserRow.credits := 0 |}.

(** A scheduled appointment of [doctor1], 09:00-09:30 on the sample day. *)
Definition appointment1 : AppointmentRow.t :=
  {| AppointmentRow.id := "a1"; AppointmentRow.patientId := "p1";
     AppointmentRow.doctorId := "d1";
     AppointmentRow.startTime := Sample.at_ 9 0;
     AppointmentRow.endTime := Sample.at_ 9 30;
     AppointmentRow.status := SCHEDULED;
     AppointmentRow.patientDescription := None;
     AppointmentRow.videoSessionId := Some "session1"%string;
     AppointmentRow.videoSessionToken := None |}.

Definition db : Database.t :=
  {| Database.users := [patient1; doctor1; doctor2];
     Database.availabilities := [Sample.window 9 0 11 0];
     Database.appointments := [appointment1];
     Database.creditTransactions := [] |}.

(** The patient is signed in and the video service answers. *)
Definition ext : Externals.t :=
  {| Externals.authUserId := Some "clerk_p1"%string;
     Externals.createSession := Resolved "session2"%string;
     Externals.newAppointmentId := "a2" |}.

(** A request for 10:00-10:30 with [doctor1]. *)
Definition form : BookingForm.t :=
  {| BookingForm.doctorId := Some "d1"%string;
     BookingForm.startTime := Some (Sample.at_ 10 0);
     BookingForm.endTime := Some (Sample.at_ 10 30);
     BookingForm.description := Some "headache"%string |}.

End SampleDb.

(* ===================================================================== *)
(** ** Properties of the credit transfer *)
(* ===================================================================== *)

(** X1.  The transfer is made exactly when the payer exists, holds at
    least two credits and the doctor exists; a refused transfer reports
    the first check that failed and leaves every table as it was. *)
Theorem transfer_refused_writes_nothing (userId doctorId : string)
  (db : Database.t) :
  let r := fst (deductCreditsForAppointment userId doctorId db) in
  let db' := snd (deductCreditsForAppointment userId doctorId db) in
  (DeductResult.success r = true
   <-> exists user doctor,
         findUserById db userId = Some user
         /\ APPOINTMENT_CREDIT_COST <= UserRow.credits user
         /\ findUserById db doctorId = Some doctor)
  /\ (DeductResult.success r = false ->
      db' = db /\ DeductResult.user r = None
      /\ DeductResult.error r
         = Some
             match findUserById db userId with
             | None => "User not found"%string
             | Some user =>
                 if UserRow.credits user <? APPOINTMENT_CREDIT_COST
                 then "Insufficient credits to book an appointment"%string
                 else "Doctor not found"%string
             end).
Proof.
  cbv zeta. split.
  - split.
    + intros H.
      destruct (deductCreditsForAppointment userId doctorId db)
        as [r db'] eqn:E.
      destruct (deductCredits_success _ _ _ _ _ E H)
        as (user & doctor & _ & _ & _ & Hu & Hc & Hd & _).
      exists user, doctor. auto.
    + intros (user & doctor & Hu & Hc & Hd).
      apply (deductCredits_succeeds _ _ _ _ _ Hu Hc Hd).
  - apply deductCredits_refused.
Qed.

Lemma transfer_refused_writes_nothing_witness :
  snd (deductCreditsForAppointment "p1" "nobody" SampleDb.db) = SampleDb.db
  /\ DeductResult.user
       (fst (deductCreditsForAppointment "p1" "nobody" SampleDb.db)) = None
  /\ DeductResult.error
       (fst (deductCreditsForAppointment "p1" "nobody" SampleDb.db))
     = Some "Doctor not found"%string.
Proof.
  apply (proj2 (transfer_refused_writes_nothing "p1" "nobody" SampleDb.db)).
  reflexivity.
Defined.


(** X2.  A transfer that is made conserves credits: the credits of all
    users together are what they were, the ledger gains one row of -2 for
    the payer and one of +2 for the doctor, so that its sum is unchanged,
    no user row is added or removed, and the other tables are untouched. *)
Theorem transfer_conserves_credits (userId doctorId : string)
  (db : Database.t) :
  let r := fst (deductCreditsForAppointment userId doctorId db) in
  let db' := snd (deductCreditsForAppointment userId doctorId db) in
  DeductResult.success r = true ->
  totalCredits (Database.users db') = totalCredits (Database.users db)
  /\ map UserRow.id (Database.users db') = map UserRow.id (Database.users db)
  /\ Database.creditTransactions db'
     = Database.creditTransactions db
       ++ [CreditTransaction.mk userId (-2) APPOINTMENT_DEDUCTION None;
           CreditTransaction.mk doctorId 2 APPOINTMENT_DEDUCTION None]
  /\ ledgerSum (Database.creditTransactions db')
     = ledgerSum (Database.creditTransactions db)
  /\ Database.appointments db' = Database.appointments db
  /\ Database.availabilities db' = Database.availabilities db.
Proof.
  cbv zeta. intros H.
  destruct (deductCreditsForAppointment userId doctorId db) as [r db'] eqn:E.
  cbn [fst snd] in *.
  destruct (deductCredits_success _ _ _ _ _ E H)
    as (user & doctor & rows1 & doctor' & rows2 & Hu & Hc & Hd & E1 & E2
        & _ & -> & Hav & Hap & Hled).
  pose proof (find_some _ _ Hu) as [_ Hidu]. apply String.eqb_eq in Hidu.
  pose proof (find_some _ _ Hd) as [_ Hidd]. apply String.eqb_eq in Hidd.
  pose proof (updateUserRow_inv _ _ (id_incrementCredits _) _ _ _ E1)
    as (u1 & Hf1 & Hu1 & Ht1 & Hm1 & _).
  pose proof (updateUserRow_inv _ _ (id_incrementCredits _) _ _ _ E2)
    as (u2 & Hf2 & Hu2 & Ht2 & Hm2 & _).
  split.
  { rewrite Ht2, Ht1. unfold decrementCredits, incrementCredits.
    cbn [UserRow.credits]. lia. }
  split; [now rewrite Hm2, Hm1|].
  rewrite Hled, Hidu, Hidd. split; [reflexivity|].
  split; [|split; assumption].
  rewrite ledgerSum_app. cbn. lia.
Qed.

Lemma transfer_conserves_credits_witness :
  totalCredits
    (Database.users (snd (deductCreditsForAppointment "p1" "d1" SampleDb.db)))
  = totalCredits (Database.users SampleDb.db).
Proof.
  apply (transfer_conserves_credits "p1" "d1" SampleDb.db). reflexivity.
Defined.

(** X3.  A transfer that is made between two different users lowers the
    payer's balance by two, raises the doctor's by two, returns the payer's
    new row and changes no other user; a user who pays himself keeps his
    balance. *)
Theorem transfer_moves_two_credits (userId doctorId : string)
  (db : Database.t) :
  let r := fst (deductCreditsForAppointment userId doctorId db) in
  let db' := snd (deductCreditsForAppointment userId doctorId db) in
  DeductResult.success r = true ->
  exists user doctor,
    findUserById db userId = Some user
    /\ findUserById db doctorId = Some doctor
    /\ DeductResult.user r = Some (decrementCredits 2 user)
    /\ (userId <> doctorId ->
        findUserById db' userId = Some (decrementCredits 2 user)
        /\ findUserById db' doctorId = Some (incrementCredits 2 doctor))
    /\ (userId = doctorId ->
        exists user', findUserById db' userId = Some user'
          /\ UserRow.credits user' = UserRow.credits user)
    /\ (forall id, id <> userId -> id <> doctorId ->
          findUserById db' id = findUserById db id).
Proof.
  cbv zeta. intros H.
  destruct (deductCreditsForAppointment userId doctorId db) as [r db'] eqn:E.
  cbn [fst snd] in *.
  destruct (deductCredits_success _ _ _ _ _ E H)
    as (user & doctor & rows1 & doctor' & rows2 & Hu & Hc & Hd & E1 & E2
        & Hr & Hrows & _).
  pose proof (find_some _ _ Hu) as [_ Hidu]. apply String.eqb_eq in Hidu.
  pose proof (find_some _ _ Hd) as [_ Hidd]. apply String.eqb_eq in Hidd.
  pose proof (updateUserRow_inv _ _ (id_incrementCredits _) _ _ _ E1)
    as (u1 & Hf1 & Hu1 & _ & _ & _ & Hfind1).
  pose proof (updateUserRow_inv _ _ (id_incrementCredits _) _ _ _ E2)
    as (u2 & Hf2 & Hu2 & _ & _ & _ & Hfind2).
  rewrite Hidu in Hfind1. rewrite Hidd in Hfind2.
  assert (Hafter : forall id,
             findUserById db' id
             = if String.eqb doctorId id
               then Some (incrementCredits APPOINTMENT_CREDIT_COST u2)
               else if String.eqb userId id
                    then Some (decrementCredits APPOINTMENT_CREDIT_COST u1)
                    else findUserById db id).
  { intros id. unfold findUserById. rewrite Hrows.
    change (fun u => String.eqb (UserRow.id u) id) with (hasId id).
    rewrite Hfind2, Hfind1. reflexivity. }
  assert (Hu1' : u1 = user).
  { unfold findUserById in Hu. rewrite Hidu in Hf1.
    unfold hasId in Hf1. rewrite Hu in Hf1. now injection Hf1. }
  subst u1.
  exists user, doctor. split; [exact Hu|]. split; [exact Hd|].
  split; [exact Hr|]. split; [|split].
  - intros Hne.
    assert (Hneq : String.eqb userId doctorId = false)
      by (apply String.eqb_neq; exact Hne).
    assert (Hneq' : String.eqb doctorId userId = false)
      by (apply String.eqb_neq; congruence).
    assert (u2 = doctor) as ->.
    { rewrite Hidd, Hfind1, Hneq in Hf2. unfold findUserById in Hd.
      unfold hasId in Hf2. rewrite Hd in Hf2. now injection Hf2. }
    rewrite !Hafter, Hneq', !String.eqb_refl. split; reflexivity.
  - intros <-. rewrite Hafter, String.eqb_refl. eexists.
    split; [reflexivity|].
    rewrite Hidd, Hfind1, String.eqb_refl in Hf2. injection Hf2 as <-.
    unfold decrementCredits, incrementCredits, APPOINTMENT_CREDIT_COST.
    cbn [UserRow.credits]. lia.
  - intros id Hn1 Hn2. rewrite Hafter.
    replace (String.eqb doctorId id) with false
      by (symmetry; apply String.eqb_neq; congruence).
    replace (String.eqb userId id) with false
      by (symmetry; apply String.eqb_neq; congruence).
    reflexivity.
Qed.

Lemma transfer_moves_two_credits_witness :
  exists user doctor,
    findUserById SampleDb.db "p1" = Some user
    /\ findUserById SampleDb.db "d1" = Some doctor
    /\ DeductResult.user
         (fst (deductCreditsForAppointment "p1" "d1" SampleDb.db))
       = Some (decrementCredits 2 user)
    /\ ("p1"%string <> "d1"%string ->
        findUserById
          (snd (deductCreditsForAppointment "p1" "d1" SampleDb.db)) "p1"
        = Some (decrementCredits 2 user)
        /\ findUserById
             (snd (deductCreditsForAppointment "p1" "d1" SampleDb.db)) "d1"
           = Some (incrementCredits 2 doctor))
    /\ ("p1"%string = "d1"%string ->
        exists user',
          findUserById
            (snd (deductCreditsForAppointment "p1" "d1" SampleDb.db)) "p1"
          = Some user'
          /\ UserRow.credits user' = UserRow.credits user)
    /\ (forall id, id <> "p1"%string -> id <> "d1"%string ->
          findUserById
            (snd (deductCreditsForAppointment "p1" "d1" SampleDb.db)) id
          = findUserById SampleDb.db id).
Proof.
  apply (transfer_moves_two_credits "p1" "d1" SampleDb.db). reflexivity.
Defined.



(* ===================================================================== *)
(** ** Facts about booking *)
(* ===================================================================== *)

Module BookingFacts.

(** The row a successful booking creates. *)
Definition bookedRow (ext : Externals.t) (formData : BookingForm.t)
  (patient doctor : UserRow.t) (startTime endTime : Z) (sessionId : string)
  : AppointmentRow.t :=
  {| AppointmentRow.id := Externals.newAppointmentId ext;
     AppointmentRow.patientId := UserRow.id patient;
     AppointmentRow.doctorId := UserRow.id doctor;
     AppointmentRow.startTime := startTime;
     AppointmentRow.endTime := endTime;
     AppointmentRow.status := SCHEDULED;
     AppointmentRow.patientDescription :=
       truthy (BookingForm.description formData);
     AppointmentRow.videoSessionId := Some sessionId;
     AppointmentRow.videoSessionToken := None |}.

(** The conditions under which [bookAppointment] gets to its writes. *)
Record Accepted (ext : Externals.t) (formData : BookingForm.t)
  (db : Database.t) (userId : string) (patient : UserRow.t)
  (doctorId : string) (doctor : UserRow.t) (startTime endTime : Z)
  (sessionId : string) : Prop := mkAccepted
  { accepted_auth : Externals.authUserId ext = Some userId;
    accepted_patient : findPatient db userId = Some patient;
    accepted_doctorId : truthy (BookingForm.doctorId formData) = Some doctorId;
    accepted_start : BookingForm.startTime formData = Some startTime;
    accepted_end : BookingForm.endTime formData = Some endTime;
    accepted_doctor : findVerifiedDoctor db doctorId = Some doctor;
    accepted_credits : 2 <= UserRow.credits patient;
    accepted_free :
      findOverlappingAppointment db doctorId startTime endTime = None;
    accepted_session : Externals.createSession ext = Resolved sessionId }.

(** The action, once its checks have passed. *)
Lemma bookAppointment_accepted ext formData db userId patient doctorId doctor
  startTime endTime sessionId :
  Accepted ext formData db userId patient doctorId doctor startTime endTime
    sessionId ->
  bookAppointment ext formData db
  = let deducted :=
      deductCreditsForAppointment (UserRow.id patient) (UserRow.id doctor) db
    in
    if DeductResult.success (fst deducted) then
      ({| BookAppointmentResponse.success := true;
          BookAppointmentResponse.appointment :=
            Some (bookedRow ext formData patient doctor startTime endTime
                    sessionId);
          BookAppointmentResponse.error := None |},
       createAppointment (snd deducted)
         (bookedRow ext formData patient doctor startTime endTime sessionId))
    else
      (bookingFailure
         match DeductResult.error (fst deducted) with
         | Some message =>
             if String.eqb message "" then "Failed to deduct credits"%string
             else message
         | None => "Failed to deduct credits"%string
         end, snd deducted).
Proof.
  intros [Ha Hp Hd Hs He Hdoc Hc Hfree Hsess]. unfold bookAppointment.
  rewrite Ha, Hp, Hd, Hs, He, Hdoc, Hfree.
  replace (UserRow.credits patient <? 2) with false
    by (symmetry; apply Z.ltb_ge; exact Hc).
  unfold createVideoSession. rewrite Hsess. cbn [tryCatch].
  cbv zeta.
  destruct (deductCreditsForAppointment (UserRow.id patient)
              (UserRow.id doctor) db) as [deducted db1].
  cbn [fst snd]. destruct (DeductResult.success deducted); reflexivity.
Qed.

(** A booking that succeeded passed every check. *)
Lemma bookAppointment_success ext formData db :
  BookAppointmentResponse.success (fst (bookAppointment ext formData db))
  = true ->
  exists userId patient doctorId doctor startTime endTime sessionId,
    Accepted ext formData db userId patient doctorId doctor startTime endTime
      sessionId
    /\ DeductResult.success
         (fst (deductCreditsForAppointment (UserRow.id patient)
                 (UserRow.id doctor) db)) = true.
Proof.
  unfold bookAppointment.
  destruct (Externals.authUserId ext) as [userId|] eqn:Ha; [|discriminate].
  destruct (findPatient db userId) as [patient|] eqn:Hp; [|discriminate].
  destruct (truthy (BookingForm.doctorId formData)) as [doctorId|] eqn:Hd;
    [|discriminate].
  destruct (BookingForm.startTime formData) as [startTime|] eqn:Hs;
    [|discriminate].
  destruct (BookingForm.endTime formData) as [endTime|] eqn:He;
    [|discriminate].
  destruct (findVerifiedDoctor db doctorId) as [doctor|] eqn:Hdoc;
    [|discriminate].
  destruct (Z.ltb_spec (UserRow.credits patient) 2) as [|Hc]; [discriminate|].
  destruct (findOverlappingAppointment db doctorId startTime endTime)
    eqn:Hfree; [discriminate|].
  unfold createVideoSession.
  destruct (Externals.createSession ext) as [sessionId|] eqn:Hsess;
    cbn [tryCatch]; [|discriminate].
  destruct (deductCreditsForAppointment (UserRow.id patient)
              (UserRow.id doctor) db) as [deducted db1] eqn:Ededuct.
  cbn [fst]. destruct (DeductResult.success deducted) eqn:Hsucc;
    cbn [negb]; [|discriminate].
  intros _.
  exists userId, patient, doctorId, doctor, startTime, endTime, sessionId.
  split; [constructor; assumption|]. rewrite Ededuct. exact Hsucc.
Qed.

(** A booking that failed wrote nothing. *)
Lemma bookAppointment_failure ext formData db :
  BookAppointmentResponse.success (fst (bookAppointment ext formData db))
  = false ->
  snd (bookAppointment ext formData db) = db
  /\ BookAppointmentResponse.appointment (fst (bookAppointment ext formData db))
     = None
  /\ exists message,
       BookAppointmentResponse.error (fst (bookAppointment ext formData db))
       = Some message.
Proof.
  unfold bookAppointment.
  destruct (Externals.authUserId ext) as [userId|];
    [|intros _; repeat split; eexists; reflexivity].
  destruct (findPatient db userId) as [patient|];
    [|intros _; repeat split; eexists; reflexivity].
  destruct (truthy (BookingForm.doctorId formData)) as [doctorId|];
    [|intros _; repeat split; eexists; reflexivity].
  destruct (BookingForm.startTime formData) as [startTime|];
    [|intros _; repeat split; eexists; reflexivity].
  destruct (BookingForm.endTime formData) as [endTime|];
    [|intros _; repeat split; eexists; reflexivity].
  destruct (findVerifiedDoctor db doctorId) as [doctor|];
    [|intros _; repeat split; eexists; reflexivity].
  destruct (UserRow.credits patient <? 2);
    [intros _; repeat split; eexists; reflexivity|].
  destruct (findOverlappingAppointment db doctorId startTime endTime);
    [intros _; repeat split; eexists; reflexivity|].
  destruct (createVideoSession ext) as [sessionId|];
    [|intros _; repeat split; eexists; reflexivity].
  pose proof (deductCredits_refused (UserRow.id patient) (UserRow.id doctor)
                db) as Hrefused.
  destruct (deductCreditsForAppointment (UserRow.id patient)
              (UserRow.id doctor) db) as [deducted db1].
  cbn [fst snd] in *. destruct (DeductResult.success deducted);
    cbn [negb fst snd]; [discriminate|].
  intros _. destruct (Hrefused eq_refl) as [-> _].
  repeat split. eexists. reflexivity.
Qed.

End BookingFacts.
Import BookingFacts.

(* ===================================================================== *)
(** ** Properties of booking *)
(* ===================================================================== *)

(** X5.  A booking that is refused, for whatever reason, costs nothing:
    every table is as it was, no appointment is returned and the response
    carries an error message. *)
Theorem refused_booking_writes_nothing (ext : Externals.t)
  (formData : BookingForm.t) (db : Database.t) :
  BookAppointmentResponse.success (fst (bookAppointment ext formData db))
  = false ->
  snd (bookAppointment ext formData db) = db
  /\ BookAppointmentResponse.appointment (fst (bookAppointment ext formData db))
     = None
  /\ exists message,
       BookAppointmentResponse.error (fst (bookAppointment ext formData db))
       = Some message.
Proof. apply bookAppointment_failure. Qed.

Lemma refused_booking_writes_nothing_witness :
  snd (bookAppointment SampleDb.ext
         (BookingForm.mk (Some "d1"%string) (Some (Sample.at_ 9 0))
            (Some (Sample.at_ 9 30)) None) SampleDb.db) = SampleDb.db
  /\ BookAppointmentResponse.appointment
       (fst (bookAppointment SampleDb.ext
               (BookingForm.mk (Some "d1"%string) (Some (Sample.at_ 9 0))
                  (Some (Sample.at_ 9 30)) None) SampleDb.db)) = None
  /\ exists message,
       BookAppointmentResponse.error
         (fst (bookAppointment SampleDb.ext
                 (BookingForm.mk (Some "d1"%string) (Some (Sample.at_ 9 0))
                    (Some (Sample.at_ 9 30)) None) SampleDb.db))
       = Some message.
Proof.
  apply (refused_booking_writes_nothing SampleDb.ext).
  vm_compute. reflexivity.
Defined.

(** The booking of the sample slot 09:00-09:30, which is taken, is refused
    with the message of the overlap check. *)
Example taken_slot_scenario :
  BookAppointmentResponse.error
    (fst (bookAppointment SampleDb.ext
            (BookingForm.mk (Some "d1"%string) (Some (Sample.at_ 9 0))
               (Some (Sample.at_ 9 30)) None) SampleDb.db))
  = Some "This time slot is already booked"%string.
Proof. vm_compute. reflexivity. Qed.

(** X6.  A booking that succeeds adds exactly one appointment, last in the
    table: SCHEDULED, for the signed-in patient and the verified doctor of
    the form, with the times of the form and the session of the video
    service, and it is the one returned.  Two credits go from the patient
    to the doctor: the credits of all users together are unchanged and the
    ledger gains a row of -2 for the patient and one of +2 for the doctor. *)
Theorem booking_adds_one_appointment (ext : Externals.t)
  (formData : BookingForm.t) (db : Database.t) :
  let r := fst (bookAppointment ext formData db) in
  let db' := snd (bookAppointment ext formData db) in
  BookAppointmentResponse.success r = true ->
  exists userId patient doctor a,
    Externals.authUserId ext = Some userId
    /\ findPatient db userId = Some patient
    /\ findVerifiedDoctor db (AppointmentRow.doctorId a) = Some doctor
    /\ BookAppointmentResponse.appointment r = Some a
    /\ Database.appointments db' = Database.appointments db ++ [a]
    /\ AppointmentRow.status a = SCHEDULED
    /\ AppointmentRow.patientId a = UserRow.id patient
    /\ truthy (BookingForm.doctorId formData) = Some (AppointmentRow.doctorId a)
    /\ BookingForm.startTime formData = Some (AppointmentRow.startTime a)
    /\ BookingForm.endTime formData = Some (AppointmentRow.endTime a)
    /\ (exists sessionId,
          Externals.createSession ext = Resolved sessionId
          /\ AppointmentRow.videoSessionId a = Some sessionId)
    /\ totalCredits (Database.users db') = totalCredits (Database.users db)
    /\ Database.creditTransactions db'
       = Database.creditTransactions db
         ++ [CreditTransaction.mk (UserRow.id patient) (-2)
               APPOINTMENT_DEDUCTION None;
             CreditTransaction.mk (UserRow.id doctor) 2
               APPOINTMENT_DEDUCTION None]
    /\ Database.availabilities db' = Database.availabilities db.
Proof.
  cbv zeta. intros H.
  destruct (bookAppointment_success _ _ _ H)
    as (userId & patient & doctorId & doctor & startTime & endTime
        & sessionId & Hacc & Hded).
  rewrite (bookAppointment_accepted _ _ _ _ _ _ _ _ _ _ Hacc).
  cbv zeta. rewrite Hded. cbn [fst snd].
  destruct (deductCreditsForAppointment (UserRow.id patient)
              (UserRow.id doctor) db) as [deducted db1] eqn:E.
  cbn [fst snd] in *.
  destruct (deductCredits_success _ _ _ _ _ E Hded)
    as (user & doctor0 & rows1 & doctor' & rows2 & Hu & Hc & Hd & E1 & E2
        & _ & Hrows & Hav & Hap & Hled).
  destruct Hacc as [Ha Hp Hdid Hs He Hdoc Hcred Hfree Hsess].
  assert (Hdocid : UserRow.id doctor = doctorId).
  { unfold findVerifiedDoctor in Hdoc. apply find_some in Hdoc.
    destruct Hdoc as [_ Hdoc]. apply andb_true_iff in Hdoc.
    destruct Hdoc as [Hdoc _]. apply andb_true_iff in Hdoc.
    destruct Hdoc as [Hdoc _]. now apply String.eqb_eq. }
  exists userId, patient, doctor,
    (bookedRow ext formData patient doctor startTime endTime sessionId).
  unfold bookedRow at 1. cbn [AppointmentRow.doctorId].
  rewrite Hdocid.
  split; [exact Ha|]. split; [exact Hp|]. split; [exact Hdoc|].
  split; [reflexivity|].
  split; [cbn [createAppointment Database.appointments]; now rewrite Hap|].
  split; [reflexivity|]. split; [reflexivity|].
  split; [cbn [bookedRow AppointmentRow.doctorId]; now rewrite Hdocid|].
  split; [exact Hs|]. split; [exact He|].
  split; [exists sessionId; split; [exact Hsess|reflexivity]|].
  cbn [createAppointment Database.users Database.creditTransactions
         Database.availabilities].
  pose proof (updateUserRow_inv _ _ (id_incrementCredits _) _ _ _ E1)
    as (u1 & Hf1 & Hu1 & Ht1 & _).
  pose proof (updateUserRow_inv _ _ (id_incrementCredits _) _ _ _ E2)
    as (u2 & Hf2 & Hu2 & Ht2 & _).
  destruct (find_hasId_own _ _ _ Hu) as [_ Hidu].
  destruct (find_hasId_own _ _ _ Hd) as [_ Hidd].
  split.
  { rewrite Hrows, Ht2, Ht1. unfold decrementCredits, incrementCredits.
    cbn [UserRow.credits]. lia. }
  split; [|exact Hav].
  rewrite Hled, Hidu, Hidd, Hdocid. reflexivity.
Qed.

Lemma booking_adds_one_appointment_witness :
  exists userId patient doctor a,
    Externals.authUserId SampleDb.ext = Some userId
    /\ findPatient SampleDb.db userId = Some patient
    /\ findVerifiedDoctor SampleDb.db (AppointmentRow.doctorId a)
       = Some doctor
    /\ BookAppointmentResponse.appointment
         (fst (bookAppointment SampleDb.ext SampleDb.form SampleDb.db))
       = Some a
    /\ Database.appointments
         (snd (bookAppointment SampleDb.ext SampleDb.form SampleDb.db))
       = Database.appointments SampleDb.db ++ [a]
    /\ AppointmentRow.status a = SCHEDULED
    /\ AppointmentRow.patientId a = UserRow.id patient
    /\ truthy (BookingForm.doctorId SampleDb.form)
       = Some (AppointmentRow.doctorId a)
    /\ BookingForm.startTime SampleDb.form = Some (AppointmentRow.startTime a)
    /\ BookingForm.endTime SampleDb.form = Some (AppointmentRow.endTime a)
    /\ (exists sessionId,
          Externals.createSession SampleDb.ext = Resolved sessionId
          /\ AppointmentRow.videoSessionId a = Some sessionId)
    /\ totalCredits
         (Database.users
            (snd (bookAppointment SampleDb.ext SampleDb.form SampleDb.db)))
       = totalCredits (Database.users SampleDb.db)
    /\ Database.creditTransactions
         (snd (bookAppointment SampleDb.ext SampleDb.form SampleDb.db))
       = Database.creditTransactions SampleDb.db
         ++ [CreditTransaction.mk (UserRow.id patient) (-2)
               APPOINTMENT_DEDUCTION None;
             CreditTransaction.mk (UserRow.id doctor) 2
               APPOINTMENT_DEDUCTION None]
    /\ Database.availabilities
         (snd (bookAppointment SampleDb.ext SampleDb.form SampleDb.db))
       = Database.availabilities SampleDb.db.
Proof.
  apply (booking_adds_one_appointment SampleDb.ext SampleDb.form SampleDb.db).
  vm_compute. reflexivity.
Defined.

(* ===================================================================== *)
(** ** Booking and the offered slots *)
(* ===================================================================== *)

Module OfferFacts.

(** The query of the booking applies the test of the slot walk. *)
Lemma overlapsRequest_view (startTime endTime : Z) (a : AppointmentRow.t) :
  overlapsRequest startTime endTime a
  = overlapsAppointment startTime endTime (appointmentView a).
Proof.
  unfold overlapsRequest, overlapsAppointment.
  cbn [appointmentView Appointment.startTime Appointment.endTime].
  rewrite !Z.geb_leb, !Z.gtb_ltb. reflexivity.
Qed.

Lemma find_map {A B : Type} (g : A -> B) (f : B -> bool) (l : list A) :
  find f (map g l) = option_map g (find (fun x => f (g x)) l).
Proof.
  induction l as [|x l IH]; [reflexivity|]. cbn [map find].
  destruct (f (g x)); [reflexivity|exact IH].
Qed.

Lemma findDoctor_worldOf (db : Database.t) (now tz : Z) (doctorId : string) :
  findDoctor (worldOf db now tz) doctorId
  = option_map userView (findVerifiedDoctor db doctorId).
Proof. unfold findDoctor, worldOf. cbn [users]. apply find_map. Qed.

Lemma findVerifiedDoctor_id (db : Database.t) (doctorId : string) doctor :
  findVerifiedDoctor db doctorId = Some doctor ->
  UserRow.id doctor = doctorId /\ In doctor (Database.users db).
Proof.
  unfold findVerifiedDoctor. intros H. apply find_some in H.
  destruct H as [Hin H]. apply andb_true_iff in H. destruct H as [H _].
  apply andb_true_iff in H. destruct H as [H _].
  split; [now apply String.eqb_eq|exact Hin].
Qed.

(** The rows the overlap query of the booking passes over. *)
Lemma findOverlappingAppointment_none (db : Database.t) (doctorId : string)
  (startTime endTime : Z) :
  findOverlappingAppointment db doctorId startTime endTime = None
  <-> forall a, In a (Database.appointments db) ->
        AppointmentRow.doctorId a = doctorId ->
        AppointmentRow.status a = SCHEDULED ->
        overlapsRequest startTime endTime a = false.
Proof.
  unfold findOverlappingAppointment. split.
  - intros H a Ha Hid Hst. pose proof (find_none _ _ H a Ha) as Hf.
    cbv beta in Hf. rewrite Hid, Hst, String.eqb_refl in Hf. exact Hf.
  - intros H. destruct (find _ _) as [a|] eqn:E; [|reflexivity].
    apply find_some in E. destruct E as [Ha E].
    apply andb_true_iff in E. destruct E as [E Eo].
    apply andb_true_iff in E. destruct E as [Ei Es].
    apply String.eqb_eq in Ei.
    assert (Hst : AppointmentRow.status a = SCHEDULED)
      by (destruct (AppointmentRow.status a); [reflexivity|discriminate..]).
    rewrite (H a Ha Ei Hst) in Eo. discriminate.
Qed.

(** What is known of a slot the action offers: it is not empty, and each
    SCHEDULED appointment of the doctor either failed the overlap test on
    it or starts after it ends. *)
Lemma offered_slot_facts (w : World) (doctorId : string) ds d s :
  getAvailableTimeSlots w doctorId = Resolved ds ->
  In d ds -> In s (TimeSlotDay.slots d) ->
  TimeSlot.startTime s < TimeSlot.endTime s
  /\ forall b, In b (appointments w) ->
       Appointment.doctorId b = doctorId ->
       Appointment.status b = SCHEDULED ->
       overlapsAppointment (TimeSlot.startTime s) (TimeSlot.endTime s) b
       = false
       \/ TimeSlot.endTime s < Appointment.startTime b.
Proof.
  intros Hres Hd Hs.
  destruct (In_resolved _ _ _ _ Hres Hd)
    as (doctor & availability & day & Hdoc & _ & Hday & ->).
  destruct (slot_passed_test _ _ _ _ _ Hs) as [Hend Hpass].
  split.
  { rewrite slots_recordOfDay in Hs. apply In_slotsForDay in Hs.
    destruct Hs as (k & _ & _ & ->).
    cbn [makeSlot TimeSlot.startTime TimeSlot.endTime].
    rewrite addMinutes_30. pose proof slotMs_pos. lia. }
  intros b Hb Hid Hst.
  pose proof (availabilityEndOn_by_lastDay _ _ _ availability Hday) as Hlast.
  destruct (Z.leb_spec (Appointment.startTime b)
              (endOfDay (timeZone w)
                 (nth 3 (fourDays (timeZone w) (clock w)) 0)))
    as [Hle|Hgt]; [left|right; lia].
  apply Hpass. apply filter_In. split; [exact Hb|].
  rewrite (findDoctor_id _ _ _ Hdoc), Hid, Hst, String.eqb_refl.
  cbn [AppointmentStatus_eqb andb]. apply Z.leb_le. exact Hle.
Qed.

Lemma find_by_id_NoDup (rows : list UserRow.t) (u : UserRow.t) :
  NoDup (map UserRow.id rows) -> In u rows ->
  find (hasId (UserRow.id u)) rows = Some u.
Proof.
  induction rows as [|x rows IH]; intros Hnd Hin; [contradiction|].
  cbn [map] in Hnd. apply NoDup_cons_iff in Hnd. destruct Hnd as [Hx Hnd].
  cbn [find]. unfold hasId at 1. destruct Hin as [->|Hin].
  - now rewrite String.eqb_refl.
  - destruct (String.eqb (UserRow.id x) (UserRow.id u)) eqn:E.
    + apply String.eqb_eq in E. exfalso. apply Hx. rewrite E.
      apply in_map. exact Hin.
    + apply IH; assumption.
Qed.

(** What a successful booking wrote to the appointments. *)
Lemma bookAppointment_success_rows ext formData db :
  BookAppointmentResponse.success (fst (bookAppointment ext formData db))
  = true ->
  exists doctorId startTime endTime a,
    truthy (BookingForm.doctorId formData) = Some doctorId
    /\ BookingForm.startTime formData = Some startTime
    /\ BookingForm.endTime formData = Some endTime
    /\ findOverlappingAppointment db doctorId startTime endTime = None
    /\ Database.appointments (snd (bookAppointment ext formData db))
       = Database.appointments db ++ [a]
    /\ Database.availabilities (snd (bookAppointment ext formData db))
       = Database.availabilities db
    /\ map userView (Database.users (snd (bookAppointment ext formData db)))
       = map userView (Database.users db)
    /\ AppointmentRow.doctorId a = doctorId
    /\ AppointmentRow.status a = SCHEDULED
    /\ AppointmentRow.startTime a = startTime
    /\ AppointmentRow.endTime a = endTime.
Proof.
  intros H.
  destruct (bookAppointment_success _ _ _ H)
    as (userId & patient & doctorId & doctor & startTime & endTime
        & sessionId & Hacc & Hded).
  rewrite (bookAppointment_accepted _ _ _ _ _ _ _ _ _ _ Hacc).
  cbv zeta. rewrite Hded. cbn [fst snd].
  destruct (deductCreditsForAppointment (UserRow.id patient)
              (UserRow.id doctor) db) as [deducted db1] eqn:E.
  cbn [fst snd] in *.
  destruct (deductCredits_success _ _ _ _ _ E Hded)
    as (user & doctor0 & rows1 & doctor' & rows2 & Hu & Hc & Hd & E1 & E2
        & _ & Hrows & Hav & Hap & Hled).
  destruct Hacc as [Ha Hp Hdid Hs He Hdoc Hcred Hfree Hsess].
  exists doctorId, startTime, endTime,
    (bookedRow ext formData patient doctor startTime endTime sessionId).
  cbn [createAppointment Database.appointments Database.availabilities
         Database.users bookedRow AppointmentRow.doctorId
         AppointmentRow.status AppointmentRow.startTime
         AppointmentRow.endTime].
  rewrite Hap.
  repeat (split; [assumption || reflexivity|]).
  split; [|split; [apply (findVerifiedDoctor_id _ _ _ Hdoc)|repeat split]].
  rewrite Hrows. clear - E1 E2.
  assert (Hview : forall id n rows u rows',
             updateUserRow id (incrementCredits n) rows = Some (u, rows') ->
             map userView rows' = map userView rows).
  { intros id n rows. induction rows as [|x rows IH]; intros u rows';
      cbn [updateUserRow]; [discriminate|].
    destruct (String.eqb (UserRow.id x) id).
    - intros E. injection E as _ <-. reflexivity.
    - destruct (updateUserRow id (incrementCredits n) rows)
        as [[u0 rows0]|]; [|discriminate].
      intros E. injection E as _ <-. cbn [map]. f_equal.
      apply (IH u0 rows0 eq_refl). }
  rewrite (Hview _ _ _ _ _ E2). apply (Hview _ _ _ _ _ E1).
Qed.

End OfferFacts.
Import OfferFacts.




(** X8.  The double-booking query of the booking applies to each row the
    very test of the slot walk.  For a request that starts before it ends,
    and rows that do, the query finds nothing exactly when no SCHEDULED
    appointment of the doctor shares an instant with the request; a request
    that starts when an appointment ends, or ends when one starts, is
    let through. *)
Theorem double_booking_query_is_half_open (db : Database.t)
  (doctorId : string) (startTime endTime : Z) :
  startTime < endTime ->
  (forall a, In a (Database.appointments db) ->
     AppointmentRow.startTime a < AppointmentRow.endTime a) ->
  (forall a, overlapsRequest startTime endTime a
             = overlapsAppointment startTime endTime (appointmentView a))
  /\ (findOverlappingAppointment db doctorId startTime endTime = None
      <-> forall a, In a (Database.appointments db) ->
            AppointmentRow.doctorId a = doctorId ->
            AppointmentRow.status a = SCHEDULED ->
            ~ (startTime < AppointmentRow.endTime a
               /\ AppointmentRow.startTime a < endTime))
  /\ (forall a, In a (Database.appointments db) ->
        AppointmentRow.endTime a = startTime
        \/ AppointmentRow.startTime a = endTime ->
        overlapsRequest startTime endTime a = false).
Proof.
  intros Hreq Hrows.
  assert (Hiff : forall a, In a (Database.appointments db) ->
             overlapsRequest startTime endTime a = true
             <-> startTime < AppointmentRow.endTime a
                 /\ AppointmentRow.startTime a < endTime).
  { intros a Ha. rewrite overlapsRequest_view. split.
    - apply overlapsAppointment_sound; [exact Hreq|apply (Hrows a Ha)].
    - intros [H1 H2]. now apply overlapsAppointment_complete. }
  split; [intros a; apply overlapsRequest_view|]. split.
  - rewrite findOverlappingAppointment_none.
    split; intros H a Ha Hid Hst.
    + rewrite <- (Hiff a Ha), (H a Ha Hid Hst). discriminate.
    + apply not_true_iff_false. rewrite (Hiff a Ha). apply (H a Ha Hid Hst).
  - intros a Ha Hadj. apply not_true_iff_false. rewrite (Hiff a Ha).
    pose proof (Hrows a Ha). lia.
Qed.

Lemma double_booking_query_is_half_open_witness :
  overlapsRequest (Sample.at_ 9 30) (Sample.at_ 10 0) SampleDb.appointment1
  = false.
Proof.
  refine (proj2 (proj2
    (double_booking_query_is_half_open SampleDb.db "d1" (Sample.at_ 9 30)
       (Sample.at_ 10 0) _ _)) SampleDb.appointment1 _ _).
  - reflexivity.
  - intros a [<-|[]]. reflexivity.
  - left. reflexivity.
  - left. reflexivity.
Defined.

(** X9.  Once a booking has succeeded, the slots offered for that doctor,
    at any later reading of the clock and in any zone, stay clear of the
    booked interval. *)
Theorem booked_interval_is_no_longer_offered (ext : Externals.t)
  (formData : BookingForm.t) (db : Database.t) (now tz : Z)
  (doctorId : string) (startTime endTime : Z) (ds : list TimeSlotDay.t) :
  BookAppointmentResponse.success (fst (bookAppointment ext formData db))
  = true ->
  truthy (BookingForm.doctorId formData) = Some doctorId ->
  BookingForm.startTime formData = Some startTime ->
  BookingForm.endTime formData = Some endTime ->
  getAvailableTimeSlots
    (worldOf (snd (bookAppointment ext formData db)) now tz) doctorId
  = Resolved ds ->
  forall d s, In d ds -> In s (TimeSlotDay.slots d) ->
    ~ (TimeSlot.startTime s < endTime /\ startTime < TimeSlot.endTime s).
Proof.
  intros Hs Hdid Hstart Hend Hres d s Hd Hin [H1 H2].
  destruct (bookAppointment_success_rows _ _ _ Hs)
    as (doctorId' & startTime' & endTime' & new & Hdid' & Hstart' & Hend'
        & _ & Hrows & _ & _ & Hid & Hst & Hns & Hne).
  rewrite Hdid in Hdid'. injection Hdid' as <-.
  rewrite Hstart in Hstart'. injection Hstart' as <-.
  rewrite Hend in Hend'. injection Hend' as <-.
  destruct (offered_slot_facts _ _ _ _ _ Hres Hd Hin) as [_ Hall].
  destruct (Hall (appointmentView new)) as [Htest|Hafter].
  - unfold worldOf. cbn [appointments]. apply in_map. rewrite Hrows.
    apply in_or_app. right. left. reflexivity.
  - exact Hid.
  - exact Hst.
  - rewrite overlapsAppointment_complete in Htest; [discriminate| |];
      cbn [appointmentView Appointment.startTime Appointment.endTime];
      lia.
  - cbn [appointmentView Appointment.startTime] in Hafter. lia.
Qed.

Lemma booked_interval_is_no_longer_offered_witness :
  ~ (Sample.at_ 10 30 < Sample.at_ 10 30
     /\ Sample.at_ 10 0 < Sample.at_ 11 0).
Proof.
  apply (booked_interval_is_no_longer_offered SampleDb.ext SampleDb.form
           SampleDb.db (Sample.at_ 8 0) 0 "d1" (Sample.at_ 10 0)
           (Sample.at_ 10 30)
           (Sample.daysOf
              (getAvailableTimeSlots
                 (worldOf
                    (snd (bookAppointment SampleDb.ext SampleDb.form
                            SampleDb.db))
                    (Sample.at_ 8 0) 0) "d1"))
           eq_refl eq_refl eq_refl eq_refl eq_refl
           (nth 0
              (Sample.daysOf
                 (getAvailableTimeSlots
                    (worldOf
                       (snd (bookAppointment SampleDb.ext SampleDb.form
                               SampleDb.db))
                       (Sample.at_ 8 0) 0) "d1"))
              (TimeSlotDay.mk (mkCalendarDate 0 0 0) "" []))
           (makeSlot 0 (Sample.at_ 10 30) (Sample.at_ 11 0))).
  - vm_compute. left. reflexivity.
  - vm_compute. right. left. reflexivity.
Defined.

(** The sample day before and after the booking of 10:00-10:30: the
    offer goes from 09:30, 10:00 and 10:30 to 09:30 and 10:30. *)
Example booking_scenario :
  map (fun d => map TimeSlot.startTime (TimeSlotDay.slots d))
    (firstn 1
       (Sample.daysOf
          (getAvailableTimeSlots (worldOf SampleDb.db (Sample.at_ 8 0) 0)
             "d1")))
  = [[Sample.at_ 9 30; Sample.at_ 10 0; Sample.at_ 10 30]]
  /\ map (fun d => map TimeSlot.startTime (TimeSlotDay.slots d))
       (firstn 1
          (Sample.daysOf
             (getAvailableTimeSlots
                (worldOf
                   (snd (bookAppointment SampleDb.ext SampleDb.form
                           SampleDb.db))
                   (Sample.at_ 8 0) 0) "d1")))
     = [[Sample.at_ 9 30; Sample.at_ 10 30]].
Proof. vm_compute. split; reflexivity. Qed.

(** X10.  Every slot the action offers can be booked: with user ids that
    are unique and SCHEDULED appointments that do not end before they
    start, a signed-in patient who holds two credits and asks for an
    offered slot of the doctor gets it, provided the video service answers. *)
Theorem offered_slot_can_be_booked (ext : Externals.t) (db : Database.t)
  (now tz : Z) (doctorId : string) (ds : list TimeSlotDay.t)
  (d : TimeSlotDay.t) (s : TimeSlot.t) (userId : string)
  (patient : UserRow.t) (sessionId : string) (description : option string) :
  NoDup (map UserRow.id (Database.users db)) ->
  (forall a, In a (Database.appointments db) ->
     AppointmentRow.status a = SCHEDULED ->
     AppointmentRow.startTime a <= AppointmentRow.endTime a) ->
  getAvailableTimeSlots (worldOf db now tz) doctorId = Resolved ds ->
  In d ds -> In s (TimeSlotDay.slots d) ->
  doctorId <> ""%string ->
  Externals.authUserId ext = Some userId ->
  findPatient db userId = Some patient ->
  2 <= UserRow.credits patient ->
  Externals.createSession ext = Resolved sessionId ->
  BookAppointmentResponse.success
    (fst (bookAppointment ext
            (BookingForm.mk (Some doctorId) (Some (TimeSlot.startTime s))
               (Some (TimeSlot.endTime s)) description)
            db)) = true.
Proof.
  intros Hnd Hwf Hres Hd Hs Hne Hauth Hpat Hcred Hsess.
  destruct (offered_slot_facts _ _ _ _ _ Hres Hd Hs) as [Hlt Hall].
  destruct (getAvailableTimeSlots_resolved _ _ _ Hres)
    as (doctorView & _ & Hdoc & _).
  rewrite findDoctor_worldOf in Hdoc.
  destruct (findVerifiedDoctor db doctorId) as [doctor|] eqn:Edoc;
    [|discriminate].
  assert (Hfree : findOverlappingAppointment db doctorId
                    (TimeSlot.startTime s) (TimeSlot.endTime s) = None).
  { apply findOverlappingAppointment_none. intros a Ha Hid Hst.
    rewrite overlapsRequest_view.
    destruct (Hall (appointmentView a)) as [Htest|Hafter];
      [apply in_map; exact Ha|exact Hid|exact Hst|exact Htest|].
    pose proof (Hwf a Ha Hst) as Hle.
    cbn [appointmentView Appointment.startTime] in Hafter.
    unfold overlapsAppointment.
    cbn [appointmentView Appointment.startTime Appointment.endTime].
    rewrite !Z.geb_leb, !Z.gtb_ltb.
    replace (AppointmentRow.startTime a <=? TimeSlot.startTime s) with false
      by (symmetry; apply Z.leb_gt; lia).
    replace (AppointmentRow.startTime a <? TimeSlot.endTime s) with false
      by (symmetry; apply Z.ltb_ge; lia).
    replace (AppointmentRow.endTime a <=? TimeSlot.endTime s) with false
      by (symmetry; apply Z.leb_gt; lia).
    now rewrite andb_false_r. }
  assert (Hacc : Accepted ext
                   (BookingForm.mk (Some doctorId)
                      (Some (TimeSlot.startTime s))
                      (Some (TimeSlot.endTime s)) description)
                   db userId patient doctorId doctor
                   (TimeSlot.startTime s) (TimeSlot.endTime s) sessionId).
  { constructor; try assumption; try reflexivity.
    cbn [BookingForm.doctorId truthy].
    destruct (String.eqb_spec doctorId ""); [contradiction|reflexivity]. }
  rewrite (bookAppointment_accepted _ _ _ _ _ _ _ _ _ _ Hacc). cbv zeta.
  assert (Hin : In patient (Database.users db))
    by (unfold findPatient in Hpat; apply (find_some _ _ Hpat)).
  destruct (findVerifiedDoctor_id _ _ _ Edoc) as [_ Hind].
  rewrite (deductCredits_succeeds (UserRow.id patient) (UserRow.id doctor)
             db patient doctor).
  - reflexivity.
  - apply (find_by_id_NoDup _ _ Hnd Hin).
  - exact Hcred.
  - apply (find_by_id_NoDup _ _ Hnd Hind).
Qed.

Lemma offered_slot_can_be_booked_witness :
  BookAppointmentResponse.success
    (fst (bookAppointment SampleDb.ext
            (BookingForm.mk (Some "d1"%string)
               (Some (TimeSlot.startTime
                        (makeSlot 0 (Sample.at_ 9 30) (Sample.at_ 10 0))))
               (Some (TimeSlot.endTime
                        (makeSlot 0 (Sample.at_ 9 30) (Sample.at_ 10 0))))
               None)
            SampleDb.db)) = true.
Proof.
  apply (offered_slot_can_be_booked SampleDb.ext SampleDb.db (Sample.at_ 8 0)
           0 "d1"
           (Sample.daysOf
              (getAvailableTimeSlots (worldOf SampleDb.db (Sample.at_ 8 0) 0)
                 "d1"))
           (nth 0
              (Sample.daysOf
                 (getAvailableTimeSlots
                    (worldOf SampleDb.db (Sample.at_ 8 0) 0) "d1"))
              (TimeSlotDay.mk (mkCalendarDate 0 0 0) "" []))
           (makeSlot 0 (Sample.at_ 9 30) (Sample.at_ 10 0))
           "clerk_p1" SampleDb.patient1 "session2" None).
  - cbn. repeat constructor; cbn; intuition discriminate.
  - intros a [<-|[]] _. vm_compute. discriminate.
  - reflexivity.
  - vm_compute. left. reflexivity.
  - vm_compute. left. reflexivity.
  - discriminate.
  - reflexivity.
  - reflexivity.
  - vm_compute. discriminate.
  - reflexivity.
Defined.

(* ===================================================================== *)
(** ** appointments: [generateVideoToken] *)
(* ===================================================================== *)

(** The object given to [JSON.stringify] for the connection data. *)
Module ConnectionData.
Record t : Type := mk { name : string; role : UserRole; userId : string }.
End ConnectionData.

(** The options of [vonage.video.generateClientToken]. *)
Module TokenOptions.
Record t : Type := mk
  { role : string; expireTime : Z; data : ConnectionData.t }.
End TokenOptions.

(** What the action gets from outside the database: the signed-in user,
    the reading of the clock and the token service of the SDK. *)
Module TokenExternals.
Record t : Type := mk
  { authUserId : option string;
    now : Z;
    generateClientToken : string -> TokenOptions.t -> Outcome string }.
End TokenExternals.

Module TokenResponse.
Record t : Type := mk
  { success : bool; videoSessionId : option string; token : option string;
    error : option string }.
End TokenResponse.

Definition tokenFailure (message : string) : TokenResponse.t :=
  {| TokenResponse.success := false; TokenResponse.videoSessionId := None;
     TokenResponse.token := None; TokenResponse.error := Some message |}.

(** [db.user.findUnique({ where: { clerkUserId } })] *)
Definition findUserByClerkId (db : Database.t) (clerkUserId : string)
  : option UserRow.t :=
  find (fun u => String.eqb (UserRow.clerkUserId u) clerkUserId)
       (Database.users db).

(** [db.appointment.findUnique({ where: { id } })] *)
Definition findAppointmentById (db : Database.t) (id : string)
  : option AppointmentRow.t :=
  find (fun a => String.eqb (AppointmentRow.id a) id)
       (Database.appointments db).

Definition withToken (token : string) (a : AppointmentRow.t)
  : AppointmentRow.t :=
  {| AppointmentRow.id := AppointmentRow.id a;
     AppointmentRow.patientId := AppointmentRow.patientId a;
     AppointmentRow.doctorId := AppointmentRow.doctorId a;
     AppointmentRow.startTime := AppointmentRow.startTime a;
     AppointmentRow.endTime := AppointmentRow.endTime a;
     AppointmentRow.status := AppointmentRow.status a;
     AppointmentRow.patientDescription := AppointmentRow.patientDescription a;
     AppointmentRow.videoSessionId := AppointmentRow.videoSessionId a;
     AppointmentRow.videoSessionToken := Some token |}.

(** [db.appointment.update({ where: { id }, data })]: [None] when no row
    has this id (the query throws). *)
Fixpoint updateAppointmentRow (id : string)
  (data : AppointmentRow.t -> AppointmentRow.t)
  (rows : list AppointmentRow.t) : option (list AppointmentRow.t) :=
  match rows with
  | [] => None
  | a :: rest =>
      if String.eqb (AppointmentRow.id a) id then Some (data a :: rest)
      else option_map (cons a) (updateAppointmentRow id data rest)
  end.

Definition withAppointments (db : Database.t) (rows : list AppointmentRow.t)
  : Database.t :=
  {| Database.users := Database.users db;
     Database.availabilities := Database.availabilities db;
     Database.appointments := rows;
     Database.creditTransactions := Database.creditTransactions db |}.

(** [timeDifference > 30], where [timeDifference] is the quotient of the
    milliseconds from [now] to the start by [1000 * 60].  The quotient of
    two integers by a correctly rounded division exceeds 30 exactly when
    the dividend exceeds [30 * (1000 * 60)]. *)
Definition tooEarly (startTime now : Z) : bool :=
  30 * (1000 * 60) <? startTime - now.

(** [Math.floor(appointmentEndTime.getTime() / 1000) + 60 * 60] *)
Definition expirationTime (endTime : Z) : Z := endTime / 1000 + 60 * 60.

(** [appointment.videoSessionId || ""] *)
Definition sessionOrEmpty (videoSessionId : option string) : string :=
  match videoSessionId with
  | Some s => s
  | None => ""
  end.

Definition tokenOptionsFor (user : UserRow.t)
  (appointment : AppointmentRow.t) : TokenOptions.t :=
  {| TokenOptions.role := "publisher";
     TokenOptions.expireTime :=
       expirationTime (AppointmentRow.endTime appointment);
     TokenOptions.data :=
       {| ConnectionData.name := UserRow.name user;
          ConnectionData.role := UserRow.role user;
          ConnectionData.userId := UserRow.id user |} |}.

Definition generateVideoToken (ext : TokenExternals.t)
  (appointmentId : option string) (db : Database.t)
  : Outcome TokenResponse.t * Database.t :=
  match TokenExternals.authUserId ext with
  | None => (Rejected "Unauthorized", db)
  | Some userId =>
      match findUserByClerkId db userId with
      | None => (Resolved (tokenFailure "User not found"), db)
      | Some user =>
          match truthy appointmentId with
          | None => (Resolved (tokenFailure "Appointment ID is required"), db)
          | Some appointmentId =>
              match findAppointmentById db appointmentId with
              | None => (Resolved (tokenFailure "Appointment not found"), db)
              | Some appointment =>
                  if negb (String.eqb (AppointmentRow.doctorId appointment)
                             (UserRow.id user))
                     && negb (String.eqb
                                (AppointmentRow.patientId appointment)
                                (UserRow.id user))
                  then
                    (Resolved
                       (tokenFailure
                          "You are not authorized to join this call"), db)
                  else if negb (AppointmentStatus_eqb
                                  (AppointmentRow.status appointment)
                                  SCHEDULED)
                  then (Resolved (tokenFailure "Appointment not scheduled"),
                        db)
                  else if tooEarly (AppointmentRow.startTime appointment)
                            (TokenExternals.now ext)
                  then
                    (Resolved
                       (tokenFailure
                          "Call available 30 minutes before start time"), db)
                  else
                    match TokenExternals.generateClientToken ext
                            (sessionOrEmpty
                               (AppointmentRow.videoSessionId appointment))
                            (tokenOptionsFor user appointment) with
                    | Rejected message =>
                        (Resolved (tokenFailure message), db)
                    | Resolved token =>
                        match updateAppointmentRow appointmentId
                                (withToken token)
                                (Database.appointments db) with
                        | None =>
                            (Resolved (tokenFailure recordNotFound), db)
                        | Some rows =>
                            (Resolved
                               {| TokenResponse.success := true;
                                  TokenResponse.videoSessionId :=
                                    AppointmentRow.videoSessionId appointment;
                                  TokenResponse.token := Some token;
                                  TokenResponse.error := None |},
                             withAppointments db rows)
                        end
                    end
              end
          end
      end
  end.

(** The check of the appointment card before it offers the call:
    [isAppointmentActive], at the reading [now] of the clock. *)
Definition isAppointmentActive (startTime endTime now : Z) : bool :=
  let minutesBefore := 30 * 60 * 1000 in
  ((startTime - now <=? minutesBefore) && (now <? startTime))
  || ((now >=? startTime) && (now <=? endTime)).

(* ===================================================================== *)
(** ** Facts about the video token *)
(* ===================================================================== *)

Module TokenFacts.

Lemma updateAppointmentRow_found (id : string)
  (data : AppointmentRow.t -> AppointmentRow.t)
  (rows : list AppointmentRow.t) (a : AppointmentRow.t) :
  find (fun x => String.eqb (AppointmentRow.id x) id) rows = Some a ->
  exists pre post,
    rows = pre ++ a :: post
    /\ updateAppointmentRow id data rows = Some (pre ++ data a :: post).
Proof.
  induction rows as [|x rows IH]; cbn [find updateAppointmentRow];
    [discriminate|].
  destruct (String.eqb (AppointmentRow.id x) id).
  - intros E. injection E as <-. exists [], rows. split; reflexivity.
  - intros E. destruct (IH E) as (pre & post & -> & ->).
    exists (x :: pre), post. split; reflexivity.
Qed.

Lemma updateAppointmentRow_none (id : string)
  (data : AppointmentRow.t -> AppointmentRow.t)
  (rows : list AppointmentRow.t) :
  find (fun x => String.eqb (AppointmentRow.id x) id) rows = None ->
  updateAppointmentRow id data rows = None.
Proof.
  induction rows as [|x rows IH]; cbn [find updateAppointmentRow];
    [reflexivity|].
  destruct (String.eqb (AppointmentRow.id x) id); [discriminate|].
  intros E. now rewrite (IH E).
Qed.

(** The conditions under which [generateVideoToken] asks for a token. *)
Record Cleared (ext : TokenExternals.t) (field : option string)
  (db : Database.t) (user : UserRow.t) (appointmentId : string)
  (appointment : AppointmentRow.t) : Prop := mkCleared
  { cleared_auth :
      exists userId,
        TokenExternals.authUserId ext = Some userId
        /\ findUserByClerkId db userId = Some user;
    cleared_field : truthy field = Some appointmentId;
    cleared_appointment :
      findAppointmentById db appointmentId = Some appointment;
    cleared_party :
      AppointmentRow.doctorId appointment = UserRow.id user
      \/ AppointmentRow.patientId appointment = UserRow.id user;
    cleared_status : AppointmentRow.status appointment = SCHEDULED;
    cleared_time :
      AppointmentRow.startTime appointment - TokenExternals.now ext
      <= 30 * (1000 * 60) }.

(** The action, once its checks have passed. *)
Lemma generateVideoToken_cleared ext field db user appointmentId appointment :
  Cleared ext field db user appointmentId appointment ->
  generateVideoToken ext field db
  = match TokenExternals.generateClientToken ext
            (sessionOrEmpty (AppointmentRow.videoSessionId appointment))
            (tokenOptionsFor user appointment) with
    | Rejected message => (Resolved (tokenFailure message), db)
    | Resolved token =>
        match updateAppointmentRow appointmentId (withToken token)
                (Database.appointments db) with
        | None => (Resolved (tokenFailure recordNotFound), db)
        | Some rows =>
            (Resolved
               {| TokenResponse.success := true;
                  TokenResponse.videoSessionId :=
                    AppointmentRow.videoSessionId appointment;
                  TokenResponse.token := Some token;
                  TokenResponse.error := None |},
             withAppointments db rows)
        end
    end.
Proof.
  intros [(userId & Ha & Hu) Hf Hap Hparty Hst Htime].
  unfold generateVideoToken. rewrite Ha, Hu, Hf, Hap, Hst.
  replace (negb (String.eqb (AppointmentRow.doctorId appointment)
                   (UserRow.id user))
           && negb (String.eqb (AppointmentRow.patientId appointment)
                      (UserRow.id user))) with false.
  2:{ symmetry. apply andb_false_iff.
      destruct Hparty as [->| ->]; rewrite String.eqb_refl; auto. }
  cbn [AppointmentStatus_eqb negb].
  replace (tooEarly (AppointmentRow.startTime appointment)
             (TokenExternals.now ext)) with false
    by (symmetry; apply Z.ltb_ge; exact Htime).
  reflexivity.
Qed.

(** A token was given only after every check had passed. *)
Lemma generateVideoToken_success ext field db r :
  fst (generateVideoToken ext field db) = Resolved r ->
  TokenResponse.success r = true ->
  exists user appointmentId appointment,
    Cleared ext field db user appointmentId appointment.
Proof.
  unfold generateVideoToken.
  destruct (TokenExternals.authUserId ext) as [userId|] eqn:Ha;
    [|discriminate].
  destruct (findUserByClerkId db userId) as [user|] eqn:Hu;
    [|intros E; injection E as <-; discriminate].
  destruct (truthy field) as [appointmentId|] eqn:Hf;
    [|intros E; injection E as <-; discriminate].
  destruct (findAppointmentById db appointmentId) as [appointment|] eqn:Hap;
    [|intros E; injection E as <-; discriminate].
  destruct (String.eqb (AppointmentRow.doctorId appointment)
              (UserRow.id user)) eqn:Ed;
    destruct (String.eqb (AppointmentRow.patientId appointment)
                (UserRow.id user)) eqn:Ep; cbn [negb andb];
    try (intros E; injection E as <-; discriminate);
    (destruct (AppointmentRow.status appointment) eqn:Hst;
     cbn [AppointmentStatus_eqb negb];
     try (intros E; injection E as <-; discriminate);
     destruct (tooEarly (AppointmentRow.startTime appointment)
                 (TokenExternals.now ext)) eqn:Ht;
     try (intros E; injection E as <-; discriminate);
     intros _ _; exists user, appointmentId, appointment;
     (constructor;
      [exists userId; split; assumption|assumption|assumption
      |try (left; apply String.eqb_eq; assumption);
       right; apply String.eqb_eq; assumption
      |assumption|apply Z.ltb_ge; exact Ht])).
Qed.

End TokenFacts.
Import TokenFacts.

(* ===================================================================== *)
(** ** Properties of the video token *)
(* ===================================================================== *)

(** X11.  A token is given only to a signed-in user who is the doctor or
    the patient of an existing SCHEDULED appointment, and not earlier than
    30 minutes before its start.  The token is the one the SDK made for
    the session of that appointment, as publisher, expiring within the
    second that follows one hour after the end of the appointment; it is
    stored on that appointment and nothing else in the tables changes. *)
Theorem token_only_for_participants (ext : TokenExternals.t)
  (field : option string) (db : Database.t) (r : TokenResponse.t) :
  fst (generateVideoToken ext field db) = Resolved r ->
  TokenResponse.success r = true ->
  exists userId user appointment token pre post,
    TokenExternals.authUserId ext = Some userId
    /\ findUserByClerkId db userId = Some user
    /\ field = Some (AppointmentRow.id appointment)
    /\ findAppointmentById db (AppointmentRow.id appointment)
       = Some appointment
    /\ (AppointmentRow.doctorId appointment = UserRow.id user
        \/ AppointmentRow.patientId appointment = UserRow.id user)
    /\ AppointmentRow.status appointment = SCHEDULED
    /\ AppointmentRow.startTime appointment - 30 * 60 * 1000
       <= TokenExternals.now ext
    /\ TokenExternals.generateClientToken ext
         (sessionOrEmpty (AppointmentRow.videoSessionId appointment))
         (tokenOptionsFor user appointment) = Resolved token
    /\ TokenOptions.role (tokenOptionsFor user appointment)
       = "publisher"%string
    /\ AppointmentRow.endTime appointment + 60 * 60 * 1000 - 1000
       < 1000 * TokenOptions.expireTime (tokenOptionsFor user appointment)
       <= AppointmentRow.endTime appointment + 60 * 60 * 1000
    /\ TokenResponse.token r = Some token
    /\ TokenResponse.videoSessionId r
       = AppointmentRow.videoSessionId appointment
    /\ Database.appointments db = pre ++ appointment :: post
    /\ snd (generateVideoToken ext field db)
       = withAppointments db (pre ++ withToken token appointment :: post).
Proof.
  intros Hr Hs.
  destruct (generateVideoToken_success _ _ _ _ Hr Hs)
    as (user & appointmentId & appointment & Hadm).
  pose proof (generateVideoToken_cleared _ _ _ _ _ _ Hadm) as Heq.
  destruct Hadm as [(userId & Ha & Hu) Hf Hap Hparty Hst Htime].
  assert (Hid : AppointmentRow.id appointment = appointmentId).
  { unfold findAppointmentById in Hap. apply find_some in Hap.
    now apply String.eqb_eq. }
  assert (Hfield : field = Some appointmentId).
  { destruct field as [f|]; [|discriminate]. cbn [truthy] in Hf.
    destruct (String.eqb f ""); [discriminate|]. exact Hf. }
  destruct (updateAppointmentRow_found appointmentId
              (withToken
                 match TokenExternals.generateClientToken ext
                         (sessionOrEmpty
                            (AppointmentRow.videoSessionId appointment))
                         (tokenOptionsFor user appointment) with
                 | Resolved t => t
                 | Rejected _ => ""%string
                 end)
              _ _ Hap) as (pre & post & Hrows & Hupd).
  rewrite Heq in Hr |- *.
  destruct (TokenExternals.generateClientToken ext _ _) as [token|] eqn:Etok;
    [|cbn [fst] in Hr; injection Hr as <-; discriminate].
  rewrite Hupd in Hr |- *. cbn [fst snd] in *. injection Hr as <-.
  exists userId, user, appointment, token, pre, post.
  rewrite Hid.
  split; [exact Ha|]. split; [exact Hu|]. split; [exact Hfield|].
  split; [exact Hap|]. split; [exact Hparty|]. split; [exact Hst|].
  split; [lia|]. split; [exact Etok|]. split; [reflexivity|].
  split.
  { cbn [tokenOptionsFor TokenOptions.expireTime]. unfold expirationTime.
    pose proof (Z.div_mod (AppointmentRow.endTime appointment) 1000
                  ltac:(discriminate)).
    pose proof (Z.mod_pos_bound (AppointmentRow.endTime appointment) 1000
                  ltac:(reflexivity)).
    lia. }
  repeat split. exact Hrows.
Qed.

(** A doctor of the sample tables who asks at 08:45 for the 09:00 call. *)
Definition sampleTokenExt : TokenExternals.t :=
  {| TokenExternals.authUserId := Some "clerk_d1"%string;
     TokenExternals.now := Sample.at_ 8 45;
     TokenExternals.generateClientToken :=
       fun session _ => Resolved ("token-for-" ++ session)%string |}.

Lemma token_only_for_participants_witness :
  exists userId user appointment token pre post,
    TokenExternals.authUserId sampleTokenExt = Some userId
    /\ findUserByClerkId SampleDb.db userId = Some user
    /\ Some "a1"%string = Some (AppointmentRow.id appointment)
    /\ findAppointmentById SampleDb.db (AppointmentRow.id appointment)
       = Some appointment
    /\ (AppointmentRow.doctorId appointment = UserRow.id user
        \/ AppointmentRow.patientId appointment = UserRow.id user)
    /\ AppointmentRow.status appointment = SCHEDULED
    /\ AppointmentRow.startTime appointment - 30 * 60 * 1000
       <= TokenExternals.now sampleTokenExt
    /\ TokenExternals.generateClientToken sampleTokenExt
         (sessionOrEmpty (AppointmentRow.videoSessionId appointment))
         (tokenOptionsFor user appointment) = Resolved token
    /\ TokenOptions.role (tokenOptionsFor user appointment)
       = "publisher"%string
    /\ AppointmentRow.endTime appointment + 60 * 60 * 1000 - 1000
       < 1000 * TokenOptions.expireTime (tokenOptionsFor user appointment)
       <= AppointmentRow.endTime appointment + 60 * 60 * 1000
    /\ TokenResponse.token
         (TokenResponse.mk true (Some "session1"%string)
            (Some "token-for-session1"%string) None) = Some token
    /\ TokenResponse.videoSessionId
         (TokenResponse.mk true (Some "session1"%string)
            (Some "token-for-session1"%string) None)
       = AppointmentRow.videoSessionId appointment
    /\ Database.appointments SampleDb.db = pre ++ appointment :: post
    /\ snd (generateVideoToken sampleTokenExt (Some "a1"%string) SampleDb.db)
       = withAppointments SampleDb.db
           (pre ++ withToken token appointment :: post).
Proof.
  apply (token_only_for_participants sampleTokenExt (Some "a1"%string)
           SampleDb.db); reflexivity.
Defined.

(** X12.  A call that gives no token writes nothing: whether the promise
    is rejected (nobody is signed in) or resolves with [success] false, the
    tables are as they were; and the call is rejected exactly when nobody is
    signed in. *)
Theorem refused_token_writes_nothing (ext : TokenExternals.t)
  (field : option string) (db : Database.t) :
  (forall r, fst (generateVideoToken ext field db) = Resolved r ->
     TokenResponse.success r = false ->
     snd (generateVideoToken ext field db) = db
     /\ TokenResponse.token r = None
     /\ exists message, TokenResponse.error r = Some message)
  /\ (forall message,
        fst (generateVideoToken ext field db) = Rejected message ->
        snd (generateVideoToken ext field db) = db
        /\ message = "Unauthorized"%string
        /\ TokenExternals.authUserId ext = None)
  /\ (TokenExternals.authUserId ext = None ->
      fst (generateVideoToken ext field db) = Rejected "Unauthorized").
Proof.
  unfold generateVideoToken.
  destruct (TokenExternals.authUserId ext) as [userId|].
  2:{ split; [discriminate|]. split; [|reflexivity].
      intros m E. injection E as <-. repeat split. }
  assert (Hfail : forall m r,
             fst (Resolved (tokenFailure m), db) = Resolved r ->
             snd (@Resolved TokenResponse.t (tokenFailure m), db) = db
             /\ TokenResponse.token r = None
             /\ exists message, TokenResponse.error r = Some message).
  { intros m r E. injection E as <-. repeat split. eexists. reflexivity. }
  split; [|split; [|discriminate]].
  - destruct (findUserByClerkId db userId) as [user|];
      [|intros r E _; apply (Hfail _ _ E)].
    destruct (truthy field) as [appointmentId|];
      [|intros r E _; apply (Hfail _ _ E)].
    destruct (findAppointmentById db appointmentId) as [appointment|];
      [|intros r E _; apply (Hfail _ _ E)].
    destruct (negb _ && negb _); [intros r E _; apply (Hfail _ _ E)|].
    destruct (negb _); [intros r E _; apply (Hfail _ _ E)|].
    destruct (tooEarly _ _); [intros r E _; apply (Hfail _ _ E)|].
    destruct (TokenExternals.generateClientToken ext _ _) as [token|];
      [|intros r E _; apply (Hfail _ _ E)].
    destruct (updateAppointmentRow _ _ _);
      [|intros r E _; apply (Hfail _ _ E)].
    intros r E. injection E as <-. discriminate.
  - intros m.
    destruct (findUserByClerkId db userId) as [user|]; [|discriminate].
    destruct (truthy field) as [appointmentId|]; [|discriminate].
    destruct (findAppointmentById db appointmentId) as [appointment|];
      [|discriminate].
    destruct (negb _ && negb _); [discriminate|].
    destruct (negb _); [discriminate|].
    destruct (tooEarly _ _); [discriminate|].
    destruct (TokenExternals.generateClientToken ext _ _) as [token|];
      [|discriminate].
    destruct (updateAppointmentRow _ _ _); discriminate.
Qed.

Lemma refused_token_writes_nothing_witness :
  fst (generateVideoToken
         (TokenExternals.mk None (Sample.at_ 8 45)
            (fun _ _ => Resolved ""%string))
         (Some "a1"%string) SampleDb.db)
  = Rejected "Unauthorized".
Proof.
  apply (proj2 (proj2
    (refused_token_writes_nothing
       (TokenExternals.mk None (Sample.at_ 8 45)
          (fun _ _ => Resolved ""%string))
       (Some "a1"%string) SampleDb.db))).
  reflexivity.
Defined.

(** X13.  When the appointment card shows the call as active, the time
    check of the action lets the user through: a participant of a
    SCHEDULED appointment who is signed in then gets a token, provided the
    SDK makes one.  The action itself sets no end to the call: its check
    passes at any time from 30 minutes before the start. *)
Theorem active_card_gets_a_token (ext : TokenExternals.t) (db : Database.t)
  (userId : string) (user : UserRow.t) (appointment : AppointmentRow.t)
  (token : string) :
  TokenExternals.authUserId ext = Some userId ->
  findUserByClerkId db userId = Some user ->
  AppointmentRow.id appointment <> ""%string ->
  findAppointmentById db (AppointmentRow.id appointment) = Some appointment ->
  AppointmentRow.doctorId appointment = UserRow.id user
  \/ AppointmentRow.patientId appointment = UserRow.id user ->
  AppointmentRow.status appointment = SCHEDULED ->
  isAppointmentActive (AppointmentRow.startTime appointment)
    (AppointmentRow.endTime appointment) (TokenExternals.now ext) = true ->
  TokenExternals.generateClientToken ext
    (sessionOrEmpty (AppointmentRow.videoSessionId appointment))
    (tokenOptionsFor user appointment) = Resolved token ->
  (exists r,
     fst (generateVideoToken ext (Some (AppointmentRow.id appointment)) db)
     = Resolved r
     /\ TokenResponse.success r = true
     /\ TokenResponse.token r = Some token)
  /\ (forall later, TokenExternals.now ext <= later ->
        tooEarly (AppointmentRow.startTime appointment) later = false).
Proof.
  intros Ha Hu Hne Hap Hparty Hst Hactive Htok.
  assert (Htime : AppointmentRow.startTime appointment
                  - TokenExternals.now ext <= 30 * (1000 * 60)).
  { unfold isAppointmentActive in Hactive. cbv zeta in Hactive.
    apply orb_true_iff in Hactive. rewrite !andb_true_iff in Hactive.
    rewrite Z.geb_leb, !Z.leb_le, Z.ltb_lt in Hactive. lia. }
  split.
  - assert (Hadm : Cleared ext (Some (AppointmentRow.id appointment)) db user
                     (AppointmentRow.id appointment) appointment).
    { constructor; try assumption.
      - exists userId. split; assumption.
      - cbn [truthy].
        destruct (String.eqb_spec (AppointmentRow.id appointment) "");
          [contradiction|reflexivity]. }
    rewrite (generateVideoToken_cleared _ _ _ _ _ _ Hadm), Htok.
    destruct (updateAppointmentRow_found (AppointmentRow.id appointment)
                (withToken token) _ _ Hap) as (pre & post & _ & ->).
    eexists. cbn [fst]. split; [reflexivity|]. split; reflexivity.
  - intros later Hlater. apply Z.ltb_ge. lia.
Qed.

Lemma active_card_gets_a_token_witness :
  (exists r,
     fst (generateVideoToken sampleTokenExt
            (Some (AppointmentRow.id SampleDb.appointment1)) SampleDb.db)
     = Resolved r
     /\ TokenResponse.success r = true
     /\ TokenResponse.token r = Some "token-for-session1"%string)
  /\ (forall later, TokenExternals.now sampleTokenExt <= later ->
        tooEarly (AppointmentRow.startTime SampleDb.appointment1) later
        = false).
Proof.
  apply (active_card_gets_a_token sampleTokenExt SampleDb.db "clerk_d1"
           SampleDb.doctor1 SampleDb.appointment1 "token-for-session1");
    try reflexivity.
  - discriminate.
  - left. reflexivity.
Defined.

(* ===================================================================== *)
(** ** appointments: [getDoctorById], and the profile page that calls it *)
(* ===================================================================== *)

Definition getDoctorById (db : Database.t) (doctorId : string)
  : Outcome UserRow.t :=
  tryCatch "Failed to fetch doctor details: "
    match findVerifiedDoctor db doctorId with
    | None => Rejected "Doctor not found"
    | Some doctor => Resolved doctor
    end.

(** [Promise.all([p, q])] for two promises that have settled: the first
    rejection wins. *)
Definition Promise_all {A B : Type} (p : Outcome A) (q : Outcome B)
  : Outcome (A * B) :=
  match p, q with
  | Resolved a, Resolved b => Resolved (a, b)
  | Rejected m, _ => Rejected m
  | Resolved _, Rejected m => Rejected m
  end.

(** What the page of a doctor comes to: the profile with its days, or a
    redirection. *)
Inductive PageResult : Type :=
| DoctorProfile (doctor : UserRow.t) (availableDays : list TimeSlotDay.t)
| Redirect (path : string).

(** [DoctorProfilePage], with the tables, the clock and the zone it is
    rendered with. *)
Definition DoctorProfilePage (db : Database.t) (now tz : Z) (id : string)
  : PageResult :=
  match Promise_all (getDoctorById db id)
          (getAvailableTimeSlots (worldOf db now tz) id) with
  | Resolved (doctor, days) => DoctorProfile doctor days
  | Rejected _ => Redirect "/doctors"
  end.

(** X14.  The page of a doctor shows the profile exactly when the doctor
    is verified and has an availability with status AVAILABLE; it then
    shows the verified doctor of that id with the four days the slot action
    computes.  In every other case it redirects to the list of doctors. *)
Theorem profile_page_renders_iff (db : Database.t) (now tz : Z)
  (id : string) :
  ((exists doctor days, DoctorProfilePage db now tz id
                        = DoctorProfile doctor days)
   <-> (exists doctor availability,
          findVerifiedDoctor db id = Some doctor
          /\ findAvailability (worldOf db now tz) id = Some availability))
  /\ (forall doctor days,
        DoctorProfilePage db now tz id = DoctorProfile doctor days ->
        findVerifiedDoctor db id = Some doctor
        /\ UserRow.id doctor = id
        /\ getAvailableTimeSlots (worldOf db now tz) id = Resolved days
        /\ length days = 4%nat)
  /\ ((forall doctor days,
         DoctorProfilePage db now tz id <> DoctorProfile doctor days) ->
      DoctorProfilePage db now tz id = Redirect "/doctors").
Proof.
  unfold DoctorProfilePage, getDoctorById.
  rewrite getAvailableTimeSlots_eq, findDoctor_worldOf.
  destruct (findVerifiedDoctor db id) as [doctor|] eqn:Edoc;
    cbn [option_map tryCatch Promise_all].
  2:{ split; [|split; [discriminate|reflexivity]].
      split; [intros (? & ? & E); discriminate
             |intros (? & ? & E & _); discriminate]. }
  destruct (findVerifiedDoctor_id _ _ _ Edoc) as [Hid _].
  cbn [userView User.id]. rewrite Hid.
  destruct (findAvailability (worldOf db now tz) id) as [availability|]
    eqn:Eav; cbn [Promise_all].
  - split; [|split].
    + split; intros _; eauto.
    + intros doctor' days E. injection E as <- <-.
      repeat split. exact Hid.
    + intros H. exfalso. eapply H. reflexivity.
  - split; [|split; [discriminate|reflexivity]].
    split; [intros (? & ? & E); discriminate
           |intros (? & ? & _ & E); discriminate].
Qed.

Lemma profile_page_renders_iff_witness :
  findVerifiedDoctor SampleDb.db "d1" = Some SampleDb.doctor1
  /\ UserRow.id SampleDb.doctor1 = "d1"%string
  /\ getAvailableTimeSlots (worldOf SampleDb.db (Sample.at_ 8 0) 0) "d1"
     = Resolved
         (Sample.daysOf
            (getAvailableTimeSlots (worldOf SampleDb.db (Sample.at_ 8 0) 0)
               "d1"))
  /\ length
       (Sample.daysOf
          (getAvailableTimeSlots (worldOf SampleDb.db (Sample.at_ 8 0) 0)
             "d1")) = 4%nat.
Proof.
  apply (proj1 (proj2
    (profile_page_renders_iff SampleDb.db (Sample.at_ 8 0) 0 "d1"))).
  vm_compute. reflexivity.
Defined.

(** A doctor who is not verified has no page. *)
Example unverified_doctor_scenario :
  DoctorProfilePage SampleDb.db (Sample.at_ 8 0) 0 "d2" = Redirect "/doctors".
Proof. reflexivity. Qed.

(* ===================================================================== *)
(** * Administration: verifying and suspending doctors

    The actions of src/actions/admin.ts that decide which doctors the
    booking actions accept. *)
(* ===================================================================== *)

Module ActionResponse.
Record t : Type := mk
  { success : option bool; redirect : option string; error : option string }.
End ActionResponse.

Definition actionDone : ActionResponse.t :=
  {| ActionResponse.success := Some true; ActionResponse.redirect := None;
     ActionResponse.error := None |}.

(** [verifyAdmin]: the signed-in user has the role ADMIN. *)
Definition verifyAdmin (authUserId : option string) (db : Database.t) : bool :=
  match authUserId with
  | None => false
  | Some userId =>
      match findUserByClerkId db userId with
      | Some user => UserRole_eqb (UserRow.role user) ADMIN
      | None => false
      end
  end.

Definition withVerificationStatus (status : VerificationStatus)
  (u : UserRow.t) : UserRow.t :=
  {| UserRow.id := UserRow.id u; UserRow.clerkUserId := UserRow.clerkUserId u;
     UserRow.name := UserRow.name u; UserRow.role := UserRow.role u;
     UserRow.verificationStatus := status;
     UserRow.credits := UserRow.credits u |}.

(** The value of the field "status" when it is one of the two the action
    accepts. *)
Definition acceptedStatus (status : string) : option VerificationStatus :=
  if String.eqb status "VERIFIED" then Some VERIFIED
  else if String.eqb status "REJECTED" then Some REJECTED
  else None.

(** [db.user.update({ where: { id }, data: { verificationStatus } })]
    inside the [try] of the two actions. *)
Definition setVerificationStatus (doctorId : string)
  (status : VerificationStatus) (db : Database.t)
  : Outcome ActionResponse.t * Database.t :=
  match updateUserRow doctorId (withVerificationStatus status)
          (Database.users db) with
  | Some (_, rows) => (Resolved actionDone, withUsers db rows)
  | None =>
      (Rejected ("Failed to update doctor status: " ++ recordNotFound), db)
  end.

(** [updateDoctorStatus], with the fields "doctorId" and "status". *)
Definition updateDoctorStatus (authUserId : option string)
  (doctorId status : option string) (db : Database.t)
  : Outcome ActionResponse.t * Database.t :=
  if negb (verifyAdmin authUserId db) then (Rejected "Unauthorized", db)
  else
    match truthy doctorId, truthy status with
    | Some doctorId, Some status =>
        match acceptedStatus status with
        | Some status => setVerificationStatus doctorId status db
        | None => (Rejected "Invalid input", db)
        end
    | _, _ => (Rejected "Invalid input", db)
    end.

(** [updateDoctorActiveStatus], with the fields "doctorId" and "suspend". *)
Definition updateDoctorActiveStatus (authUserId : option string)
  (doctorId suspend : option string) (db : Database.t)
  : Outcome ActionResponse.t * Database.t :=
  if negb (verifyAdmin authUserId db) then (Rejected "Unauthorized", db)
  else
    let suspend :=
      match suspend with
      | Some s => String.eqb s "true"
      | None => false
      end in
    match truthy doctorId with
    | None => (Rejected "Doctor ID is required", db)
    | Some doctorId =>
        setVerificationStatus doctorId (if suspend then PENDING else VERIFIED)
          db
    end.

Module AdminFacts.

Lemma find_same {A : Type} (f g : A -> bool) (l : list A) :
  (forall x, f x = g x) -> find f l = find g l.
Proof.
  intros H. induction l as [|x l IH]; [reflexivity|]. cbn [find].
  rewrite H, IH. reflexivity.
Qed.

Lemma find_absent (p : UserRow.t -> bool) (id : string)
  (rows : list UserRow.t) :
  ~ In id (map UserRow.id rows) ->
  find (fun u => hasId id u && p u) rows = None.
Proof.
  induction rows as [|x rows IH]; intros H; [reflexivity|].
  cbn [map In] in H. cbn [find]. unfold hasId at 1.
  destruct (String.eqb_spec (UserRow.id x) id) as [E|_]; [tauto|].
  cbn [andb]. apply IH. tauto.
Qed.

(** With unique ids, a lookup by id and more is a lookup by id followed by
    a test. *)
Lemma find_by_id_and (p : UserRow.t -> bool) (id : string)
  (rows : list UserRow.t) :
  NoDup (map UserRow.id rows) ->
  find (fun u => hasId id u && p u) rows
  = match find (hasId id) rows with
    | Some u => if p u then Some u else None
    | None => None
    end.
Proof.
  induction rows as [|x rows IH]; intros Hnd; [reflexivity|].
  cbn [map] in Hnd. apply NoDup_cons_iff in Hnd. destruct Hnd as [Hx Hnd].
  cbn [find]. unfold hasId at 1 3.
  destruct (String.eqb_spec (UserRow.id x) id) as [E|_]; cbn [andb].
  - destruct (p x); [reflexivity|]. apply find_absent. now rewrite <- E.
  - apply IH. exact Hnd.
Qed.

Lemma findVerifiedDoctor_by_id (db : Database.t) (doctorId : string) :
  NoDup (map UserRow.id (Database.users db)) ->
  findVerifiedDoctor db doctorId
  = match findUserById db doctorId with
    | Some u =>
        if UserRole_eqb (UserRow.role u) DOCTOR
           && VerificationStatus_eqb (UserRow.verificationStatus u) VERIFIED
        then Some u else None
    | None => None
    end.
Proof.
  intros Hnd. unfold findVerifiedDoctor, findUserById.
  transitivity
    (find (fun u => hasId doctorId u
                    && (UserRole_eqb (UserRow.role u) DOCTOR
                        && VerificationStatus_eqb
                             (UserRow.verificationStatus u) VERIFIED))
       (Database.users db)).
  - apply find_same. intros u. unfold hasId. now rewrite andb_assoc.
  - rewrite (find_by_id_and
               (fun u => UserRole_eqb (UserRow.role u) DOCTOR
                         && VerificationStatus_eqb
                              (UserRow.verificationStatus u) VERIFIED)
               doctorId _ Hnd).
    reflexivity.
Qed.

Lemma id_withVerificationStatus (status : VerificationStatus) (u : UserRow.t) :
  UserRow.id (withVerificationStatus status u) = UserRow.id u.
Proof. reflexivity. Qed.

(** What setting the status of an existing user does to the tables. *)
Lemma setVerificationStatus_found (doctorId : string)
  (status : VerificationStatus) (db : Database.t) (u : UserRow.t) :
  findUserById db doctorId = Some u ->
  exists rows,
    setVerificationStatus doctorId status db
    = (Resolved actionDone, withUsers db rows)
    /\ map UserRow.id rows = map UserRow.id (Database.users db)
    /\ totalCredits rows = totalCredits (Database.users db)
    /\ (forall id,
          find (hasId id) rows
          = if String.eqb doctorId id
            then Some (withVerificationStatus status u)
            else find (hasId id) (Database.users db)).
Proof.
  intros Hu. unfold setVerificationStatus.
  destruct (updateUserRow_found doctorId (withVerificationStatus status)
              (Database.users db) u Hu) as [rows E].
  rewrite E. exists rows. split; [reflexivity|].
  destruct (updateUserRow_inv _ _ (id_withVerificationStatus status) _ _ _ E)
    as (u' & Hf & _ & Ht & Hm & _ & Hfind).
  unfold findUserById in Hu. unfold hasId in Hf. rewrite Hu in Hf.
  injection Hf as <-. split; [exact Hm|]. split; [|exact Hfind].
  rewrite Ht. cbn [withVerificationStatus UserRow.credits]. lia.
Qed.

Lemma verifyAdmin_true (authUserId : option string) (db : Database.t) :
  verifyAdmin authUserId db = true ->
  exists userId admin,
    authUserId = Some userId
    /\ findUserByClerkId db userId = Some admin
    /\ UserRow.role admin = ADMIN.
Proof.
  unfold verifyAdmin. destruct authUserId as [userId|]; [|discriminate].
  destruct (findUserByClerkId db userId) as [admin|] eqn:E; [|discriminate].
  intros H. exists userId, admin. split; [reflexivity|]. split; [exact E|].
  revert H. destruct (UserRow.role admin); intros H;
    (reflexivity || discriminate H).
Qed.

End AdminFacts.
Import AdminFacts.

(** X15.  Only an administrator changes the status of a doctor.  Either
    action leaves the tables untouched unless the signed-in user has the
    role ADMIN; a rejected call writes nothing; and a call that resolves
    changes, of all tables, the verification status of users only: ids,
    names, roles and credits stay as they were, in the same order. *)
Theorem status_change_needs_admin (authUserId doctorId field : option string)
  (db : Database.t) (action : bool) :
  let call :=
    if action then updateDoctorStatus authUserId doctorId field db
    else updateDoctorActiveStatus authUserId doctorId field db in
  (verifyAdmin authUserId db = false -> call = (Rejected "Unauthorized", db))
  /\ (forall message, fst call = Rejected message -> snd call = db)
  /\ (forall r, fst call = Resolved r ->
        (exists userId admin,
           authUserId = Some userId
           /\ findUserByClerkId db userId = Some admin
           /\ UserRow.role admin = ADMIN)
        /\ map (withVerificationStatus PENDING) (Database.users (snd call))
           = map (withVerificationStatus PENDING) (Database.users db)
        /\ Database.appointments (snd call) = Database.appointments db
        /\ Database.availabilities (snd call) = Database.availabilities db
        /\ Database.creditTransactions (snd call)
           = Database.creditTransactions db).
Proof.
  assert (Hset : forall id status,
             (forall message,
                fst (setVerificationStatus id status db) = Rejected message ->
                snd (setVerificationStatus id status db) = db)
             /\ (forall r,
                   fst (setVerificationStatus id status db) = Resolved r ->
                   map (withVerificationStatus PENDING)
                     (Database.users (snd (setVerificationStatus id status db)))
                   = map (withVerificationStatus PENDING) (Database.users db)
                   /\ Database.appointments
                        (snd (setVerificationStatus id status db))
                      = Database.appointments db
                   /\ Database.availabilities
                        (snd (setVerificationStatus id status db))
                      = Database.availabilities db
                   /\ Database.creditTransactions
                        (snd (setVerificationStatus id status db))
                      = Database.creditTransactions db)).
  { intros id status. unfold setVerificationStatus.
    destruct (updateUserRow id (withVerificationStatus status)
                (Database.users db)) as [[u rows]|] eqn:E;
      cbn [fst snd]; (split; [intros m Hm|intros r Hr]);
      try discriminate; try reflexivity.
    repeat split. cbn [withUsers Database.users]. clear Hr.
    revert u rows E. generalize (Database.users db). intros rows0.
    induction rows0 as [|x rows0 IH]; intros u rows;
      cbn [updateUserRow]; [discriminate|].
    destruct (String.eqb (UserRow.id x) id).
    - intros E. injection E as _ <-. reflexivity.
    - destruct (updateUserRow id (withVerificationStatus status) rows0)
        as [[u0 rows1]|]; [|discriminate].
      intros E. injection E as _ <-. cbn [map]. f_equal.
      apply (IH u0 rows1 eq_refl). }
  cbv zeta.
  destruct (verifyAdmin authUserId db) eqn:Hadmin.
  - split; [discriminate|].
    pose proof (verifyAdmin_true _ _ Hadmin) as Hwho.
    destruct action.
    + unfold updateDoctorStatus. rewrite Hadmin. cbn [negb].
      destruct (truthy doctorId) as [id|];
        [|split; [reflexivity|discriminate]].
      destruct (truthy field) as [status|];
        [|split; [reflexivity|discriminate]].
      destruct (acceptedStatus status) as [v|];
        [|split; [reflexivity|discriminate]].
      destruct (Hset id v) as [H1 H2]. split; [exact H1|].
      intros r Hr. split; [exact Hwho|]. apply (H2 r Hr).
    + unfold updateDoctorActiveStatus. rewrite Hadmin. cbn [negb]. cbv zeta.
      destruct (truthy doctorId) as [id|];
        [|split; [reflexivity|discriminate]].
      match goal with
      | |- context [setVerificationStatus id ?v db] =>
          destruct (Hset id v) as [H1 H2]
      end.
      split; [exact H1|].
      intros r Hr. split; [exact Hwho|]. apply (H2 r Hr).
  - assert (E : (if action
                 then updateDoctorStatus authUserId doctorId field db
                 else updateDoctorActiveStatus authUserId doctorId field db)
                = (Rejected "Unauthorized", db)).
    { destruct action; unfold updateDoctorStatus, updateDoctorActiveStatus;
        rewrite Hadmin; reflexivity. }
    rewrite E. split; [reflexivity|]. split; [reflexivity|discriminate].
Qed.

(** The sample tables with an administrator. *)
Definition sampleAdmin : UserRow.t :=
  {| UserRow.id := "adm"; UserRow.clerkUserId := "clerk_adm";
     UserRow.name := "Ada"; UserRow.role := ADMIN;
     UserRow.verificationStatus := PENDING; UserRow.credits := 0 |}.

Definition sampleAdminDb : Database.t :=
  withUsers SampleDb.db (sampleAdmin :: Database.users SampleDb.db).

Lemma status_change_needs_admin_witness :
  updateDoctorActiveStatus (Some "clerk_p1"%string) (Some "d1"%string)
    (Some "true"%string) sampleAdminDb
  = (Rejected "Unauthorized", sampleAdminDb).
Proof.
  apply (proj1 (status_change_needs_admin (Some "clerk_p1"%string)
                  (Some "d1"%string) (Some "true"%string) sampleAdminDb
                  false)).
  reflexivity.
Defined.

(** X16.  Once an administrator has set a user with the role DOCTOR to
    VERIFIED, the booking actions know the doctor: the lookup they share
    returns the row, now VERIFIED, and [getDoctorById] resolves with it.
    Reinstating through [updateDoctorActiveStatus] has the same effect
    whatever the status was before, REJECTED included. *)
Theorem verified_doctor_becomes_bookable (authUserId : option string)
  (doctorId : string) (db : Database.t) (u : UserRow.t) :
  verifyAdmin authUserId db = true ->
  NoDup (map UserRow.id (Database.users db)) ->
  doctorId <> ""%string ->
  findUserById db doctorId = Some u ->
  UserRow.role u = DOCTOR ->
  exists db',
    updateDoctorStatus authUserId (Some doctorId) (Some "VERIFIED"%string) db
    = (Resolved actionDone, db')
    /\ updateDoctorActiveStatus authUserId (Some doctorId)
         (Some "false"%string) db
       = (Resolved actionDone, db')
    /\ findVerifiedDoctor db' doctorId
       = Some (withVerificationStatus VERIFIED u)
    /\ getDoctorById db' doctorId
       = Resolved (withVerificationStatus VERIFIED u)
    /\ totalCredits (Database.users db') = totalCredits (Database.users db).
Proof.
  intros Hadmin Hnd Hne Hu Hrole.
  destruct (setVerificationStatus_found doctorId VERIFIED db u Hu)
    as (rows & Hset & Hm & Ht & Hfind).
  assert (Htruthy : truthy (Some doctorId) = Some doctorId).
  { cbn [truthy]. destruct (String.eqb_spec doctorId "");
      [contradiction|reflexivity]. }
  exists (withUsers db rows).
  assert (Hdoc : findVerifiedDoctor (withUsers db rows) doctorId
                 = Some (withVerificationStatus VERIFIED u)).
  { rewrite findVerifiedDoctor_by_id
      by (cbn [withUsers Database.users]; rewrite Hm; exact Hnd).
    unfold findUserById. cbn [withUsers Database.users].
    change (fun x => String.eqb (UserRow.id x) doctorId)
      with (hasId doctorId).
    rewrite Hfind, String.eqb_refl.
    cbn [withVerificationStatus UserRow.role UserRow.verificationStatus].
    rewrite Hrole. reflexivity. }
  split.
  { unfold updateDoctorStatus. rewrite Hadmin, Htruthy. cbn [negb].
    exact Hset. }
  split.
  { unfold updateDoctorActiveStatus. rewrite Hadmin, Htruthy. cbn [negb].
    cbv zeta. exact Hset. }
  split; [exact Hdoc|]. split; [|exact Ht].
  unfold getDoctorById. rewrite Hdoc. reflexivity.
Qed.

Lemma verified_doctor_becomes_bookable_witness :
  exists db',
    updateDoctorStatus (Some "clerk_adm"%string) (Some "d2"%string)
      (Some "VERIFIED"%string) sampleAdminDb
    = (Resolved actionDone, db')
    /\ updateDoctorActiveStatus (Some "clerk_adm"%string) (Some "d2"%string)
         (Some "false"%string) sampleAdminDb
       = (Resolved actionDone, db')
    /\ findVerifiedDoctor db' "d2"
       = Some (withVerificationStatus VERIFIED SampleDb.doctor2)
    /\ getDoctorById db' "d2"
       = Resolved (withVerificationStatus VERIFIED SampleDb.doctor2)
    /\ totalCredits (Database.users db')
       = totalCredits (Database.users sampleAdminDb).
Proof.
  apply (verified_doctor_becomes_bookable (Some "clerk_adm"%string) "d2"
           sampleAdminDb SampleDb.doctor2).
  - reflexivity.
  - cbn. repeat constructor; cbn; intuition discriminate.
  - discriminate.
  - reflexivity.
  - reflexivity.
Defined.

(** X17.  A doctor an administrator suspends, or rejects, is out of the
    booking at once: the slot action rejects for that id at any reading of
    the clock and every booking for that doctor is refused.  Nothing else
    happens: the appointments already made stay as they are. *)
Theorem suspended_doctor_is_not_offered (authUserId : option string)
  (doctorId : string) (db : Database.t) (u : UserRow.t) (reject : bool) :
  verifyAdmin authUserId db = true ->
  NoDup (map UserRow.id (Database.users db)) ->
  doctorId <> ""%string ->
  findUserById db doctorId = Some u ->
  exists db',
    (if reject
     then updateDoctorStatus authUserId (Some doctorId)
            (Some "REJECTED"%string) db
     else updateDoctorActiveStatus authUserId (Some doctorId)
            (Some "true"%string) db)
    = (Resolved actionDone, db')
    /\ Database.appointments db' = Database.appointments db
    /\ (forall now tz,
          getAvailableTimeSlots (worldOf db' now tz) doctorId
          = Rejected
              "Failed to fetch available slots: Doctor not found or not verified")
    /\ (forall ext formData,
          truthy (BookingForm.doctorId formData) = Some doctorId ->
          BookAppointmentResponse.success
            (fst (bookAppointment ext formData db')) = false).
Proof.
  intros Hadmin Hnd Hne Hu.
  set (status := if reject then REJECTED else PENDING).
  destruct (setVerificationStatus_found doctorId status db u Hu)
    as (rows & Hset & Hm & _ & Hfind).
  assert (Htruthy : truthy (Some doctorId) = Some doctorId).
  { cbn [truthy]. destruct (String.eqb_spec doctorId "");
      [contradiction|reflexivity]. }
  exists (withUsers db rows).
  assert (Hdoc : findVerifiedDoctor (withUsers db rows) doctorId = None).
  { rewrite findVerifiedDoctor_by_id
      by (cbn [withUsers Database.users]; rewrite Hm; exact Hnd).
    unfold findUserById. cbn [withUsers Database.users].
    change (fun x => String.eqb (UserRow.id x) doctorId)
      with (hasId doctorId).
    rewrite Hfind, String.eqb_refl.
    cbn [withVerificationStatus UserRow.role UserRow.verificationStatus].
    unfold status. destruct reject; cbn [VerificationStatus_eqb];
      now rewrite andb_false_r. }
  split.
  { unfold status in Hset. destruct reject.
    - unfold updateDoctorStatus. rewrite Hadmin, Htruthy. cbn [negb].
      exact Hset.
    - unfold updateDoctorActiveStatus. rewrite Hadmin, Htruthy. cbn [negb].
      cbv zeta. exact Hset. }
  split; [reflexivity|]. split.
  - intros now tz. rewrite getAvailableTimeSlots_eq, findDoctor_worldOf, Hdoc.
    reflexivity.
  - intros ext formData Hform. unfold bookAppointment.
    destruct (Externals.authUserId ext); [|reflexivity].
    destruct (findPatient _ _); [|reflexivity].
    rewrite Hform.
    destruct (BookingForm.startTime formData); [|reflexivity].
    destruct (BookingForm.endTime formData); [|reflexivity].
    rewrite Hdoc. reflexivity.
Qed.

Lemma suspended_doctor_is_not_offered_witness :
  exists db',
    updateDoctorActiveStatus (Some "clerk_adm"%string) (Some "d1"%string)
      (Some "true"%string) sampleAdminDb
    = (Resolved actionDone, db')
    /\ Database.appointments db' = Database.appointments sampleAdminDb
    /\ (forall now tz,
          getAvailableTimeSlots (worldOf db' now tz) "d1"
          = Rejected
              "Failed to fetch available slots: Doctor not found or not verified")
    /\ (forall ext formData,
          truthy (BookingForm.doctorId formData) = Some "d1"%string ->
          BookAppointmentResponse.success
            (fst (bookAppointment ext formData db')) = false).
Proof.
  apply (suspended_doctor_is_not_offered (Some "clerk_adm"%string) "d1"
           sampleAdminDb SampleDb.doctor1 false).
  - reflexivity.
  - cbn. repeat constructor; cbn; intuition discriminate.
  - discriminate.
  - reflexivity.
Defined.

(* ===================================================================== *)
(** * Payouts

    [requestPayout] of src/actions/payout.ts and [approvePayout] of
    src/actions/admin.ts, which turn the credits a doctor earned through
    bookings into money. *)
(* ===================================================================== *)

Inductive PayoutStatus : Type := PROCESSING | PROCESSED.

Definition PayoutStatus_eqb (a b : PayoutStatus) : bool :=
  match a, b with
  | PROCESSING, PROCESSING | PROCESSED, PROCESSED => true
  | _, _ => false
  end.

Module PayoutRow.
Record t : Type := mk
  { id : string; doctorId : string; amount : Z; credits : Z;
    platformFee : Z; netAmount : Z; paypalEmail : string;
    status : PayoutStatus; processedAt : option Z;
    processedBy : option string }.
End PayoutRow.

(** The tables of the booking together with the table of payouts. *)
Module Books.
Record t : Type := mk
  { tables : Database.t; payouts : list PayoutRow.t }.
End Books.

Definition CREDIT_VALUE : Z := 10.
Definition PLATFORM_FEE_PER_CREDIT : Z := 2.
Definition DOCTOR_EARNINGS_PER_CREDIT : Z := 8.

(** [db.user.findUnique({ where: { clerkUserId, role: "DOCTOR" } })] *)
Definition findDoctorByClerkId (db : Database.t) (clerkUserId : string)
  : option UserRow.t :=
  find (fun u =>
          String.eqb (UserRow.clerkUserId u) clerkUserId
          && UserRole_eqb (UserRow.role u) DOCTOR)
       (Database.users db).

(** [db.payout.findFirst({ where: { doctorId, status: "PROCESSING" } })] *)
Definition findPendingPayout (payouts : list PayoutRow.t) (doctorId : string)
  : option PayoutRow.t :=
  find (fun p =>
          String.eqb (PayoutRow.doctorId p) doctorId
          && PayoutStatus_eqb (PayoutRow.status p) PROCESSING)
       payouts.

(** [requestPayout], with the field "paypalEmail" and the id the database
    gives to the new row. *)
Definition requestPayout (authUserId paypalEmail : option string)
  (newPayoutId : string) (bk : Books.t) : Outcome PayoutRow.t * Books.t :=
  match authUserId with
  | None => (Rejected "Unauthorized", bk)
  | Some userId =>
      let rejected message :=
        (@Rejected PayoutRow.t ("Failed to request payout: " ++ message), bk)
      in
      match findDoctorByClerkId (Books.tables bk) userId with
      | None => rejected "Doctor not found"%string
      | Some doctor =>
          match truthy paypalEmail with
          | None => rejected "PayPal email is required"%string
          | Some paypalEmailEntry =>
              match findPendingPayout (Books.payouts bk)
                      (UserRow.id doctor) with
              | Some _ =>
                  rejected
                    "You already have a pending payout request. Please wait for it to be processed."%string
              | None =>
                  let creditCount := UserRow.credits doctor in
                  if creditCount =? 0 then
                    rejected "No credits available for payout"%string
                  else if creditCount <? 1 then
                    rejected "Minimum 1 credit required for payout"%string
                  else
                    let payout :=
                      {| PayoutRow.id := newPayoutId;
                         PayoutRow.doctorId := UserRow.id doctor;
                         PayoutRow.amount := creditCount * CREDIT_VALUE;
                         PayoutRow.credits := creditCount;
                         PayoutRow.platformFee :=
                           creditCount * PLATFORM_FEE_PER_CREDIT;
                         PayoutRow.netAmount :=
                           creditCount * DOCTOR_EARNINGS_PER_CREDIT;
                         PayoutRow.paypalEmail := paypalEmailEntry;
                         PayoutRow.status := PROCESSING;
                         PayoutRow.processedAt := None;
                         PayoutRow.processedBy := None |} in
                    (Resolved payout,
                     {| Books.tables := Books.tables bk;
                        Books.payouts := Books.payouts bk ++ [payout] |})
              end
          end
      end
  end.

(** [db.payout.findUnique({ where: { id, status: "PROCESSING" } })] *)
Definition findProcessingPayout (payouts : list PayoutRow.t) (id : string)
  : option PayoutRow.t :=
  find (fun p =>
          String.eqb (PayoutRow.id p) id
          && PayoutStatus_eqb (PayoutRow.status p) PROCESSING)
       payouts.

Definition markProcessed (now : Z) (by_ : string) (p : PayoutRow.t)
  : PayoutRow.t :=
  {| PayoutRow.id := PayoutRow.id p; PayoutRow.doctorId := PayoutRow.doctorId p;
     PayoutRow.amount := PayoutRow.amount p;
     PayoutRow.credits := PayoutRow.credits p;
     PayoutRow.platformFee := PayoutRow.platformFee p;
     PayoutRow.netAmount := PayoutRow.netAmount p;
     PayoutRow.paypalEmail := PayoutRow.paypalEmail p;
     PayoutRow.status := PROCESSED;
     PayoutRow.processedAt := Some now;
     PayoutRow.processedBy := Some by_ |}.

(** [tx.payout.update({ where: { id }, data })]: [None] when no row has
    this id (the query throws). *)
Fixpoint updatePayoutRow (id : string) (data : PayoutRow.t -> PayoutRow.t)
  (rows : list PayoutRow.t) : option (list PayoutRow.t) :=
  match rows with
  | [] => None
  | p :: rest =>
      if String.eqb (PayoutRow.id p) id then Some (data p :: rest)
      else option_map (cons p) (updatePayoutRow id data rest)
  end.

(** The message of the error a required relation that is missing
    throws. *)
Definition relationMissing : string :=
  "Inconsistent query result: Field doctor is required to return data, got `null` instead.".

(** The callback of the transaction of [approvePayout]. *)
Definition settlePayout (payoutId : string) (payout : PayoutRow.t) (now : Z)
  (processedBy : string) (bk : Books.t) : Outcome Books.t :=
  match updatePayoutRow payoutId (markProcessed now processedBy)
          (Books.payouts bk) with
  | None => Rejected recordNotFound
  | Some payouts =>
      match updateUserRow (PayoutRow.doctorId payout)
              (decrementCredits (PayoutRow.credits payout))
              (Database.users (Books.tables bk)) with
      | None => Rejected recordNotFound
      | Some (_, rows) =>
          Resolved
            {| Books.tables :=
                 createCreditTransaction (withUsers (Books.tables bk) rows)
                   {| CreditTransaction.userId := PayoutRow.doctorId payout;
                      CreditTransaction.amount := - PayoutRow.credits payout;
                      CreditTransaction.type := ADMIN_ADJUSTMENT;
                      CreditTransaction.packageId := None |};
               Books.payouts := payouts |}
      end
  end.

(** [approvePayout], with the field "payoutId" and the reading of the
    clock that becomes [processedAt]. *)
Definition approvePayout (authUserId payoutId : option string) (now : Z)
  (bk : Books.t) : Outcome ActionResponse.t * Books.t :=
  if negb (verifyAdmin authUserId (Books.tables bk)) then
    (Rejected "Unauthorized", bk)
  else
    match truthy payoutId with
    | None => (Rejected "Payout ID is required", bk)
    | Some payoutId =>
        let rejected message :=
          (@Rejected ActionResponse.t ("Failed to approve payout: " ++ message),
           bk) in
        match authUserId with
        | None => rejected "Unauthorized"%string
        | Some userId =>
            let admin := findUserByClerkId (Books.tables bk) userId in
            match findProcessingPayout (Books.payouts bk) payoutId with
            | None =>
                rejected
                  "Payout request not found or already processed"%string
            | Some payout =>
                match findUserById (Books.tables bk)
                        (PayoutRow.doctorId payout) with
                | None => rejected relationMissing
                | Some doctor =>
                    if UserRow.credits doctor <? PayoutRow.credits payout then
                      rejected
                        "Doctor doesn't have enough credits for this payout"%string
                    else
                      match settlePayout payoutId payout now
                              match admin with
                              | Some a => UserRow.id a
                              | None => "unknown"%string
                              end bk with
                      | Resolved bk' => (Resolved actionDone, bk')
                      | Rejected message => rejected message
                      end
                end
            end
        end
    end.

Module PayoutFacts.

Definition hasPayoutId (id : string) (p : PayoutRow.t) : bool :=
  String.eqb (PayoutRow.id p) id.

Lemma updatePayoutRow_found (id : string)
  (data : PayoutRow.t -> PayoutRow.t) (rows : list PayoutRow.t)
  (p : PayoutRow.t) :
  find (hasPayoutId id) rows = Some p ->
  exists pre post,
    rows = pre ++ p :: post
    /\ updatePayoutRow id data rows = Some (pre ++ data p :: post).
Proof.
  induction rows as [|x rows IH]; cbn [find updatePayoutRow];
    [discriminate|].
  unfold hasPayoutId at 1. destruct (String.eqb (PayoutRow.id x) id).
  - intros E. injection E as <-. exists [], rows. split; reflexivity.
  - intros E. destruct (IH E) as (pre & post & -> & ->).
    exists (x :: pre), post. split; reflexivity.
Qed.

Lemma updatePayoutRow_inv (id : string)
  (data : PayoutRow.t -> PayoutRow.t) (rows rows' : list PayoutRow.t) :
  updatePayoutRow id data rows = Some rows' ->
  exists pre p post,
    rows = pre ++ p :: post /\ rows' = pre ++ data p :: post
    /\ find (hasPayoutId id) rows = Some p.
Proof.
  revert rows'. induction rows as [|x rows IH]; intros rows';
    cbn [find updatePayoutRow]; [discriminate|].
  unfold hasPayoutId at 1. destruct (String.eqb (PayoutRow.id x) id).
  - intros E. injection E as <-. exists [], x, rows. repeat split.
  - destruct (updatePayoutRow id data rows) as [rows0|]; [|discriminate].
    cbn [option_map]. intros E. injection E as <-.
    destruct (IH rows0 eq_refl) as (pre & p & post & -> & -> & Hf).
    exists (x :: pre), p, post. repeat split. exact Hf.
Qed.

(** With unique ids, the PROCESSING payout of an id is the row of that id. *)
Lemma findProcessingPayout_by_id (payouts : list PayoutRow.t) (id : string)
  (p : PayoutRow.t) :
  findProcessingPayout payouts id = Some p ->
  NoDup (map PayoutRow.id payouts) ->
  find (hasPayoutId id) payouts = Some p
  /\ PayoutRow.status p = PROCESSING /\ PayoutRow.id p = id.
Proof.
  unfold findProcessingPayout.
  induction payouts as [|x rows IH]; cbn [find map]; [discriminate|].
  intros E Hnd. apply NoDup_cons_iff in Hnd. destruct Hnd as [Hx Hnd].
  unfold hasPayoutId at 1.
  destruct (String.eqb_spec (PayoutRow.id x) id) as [Hid|Hid]; cbn [andb] in E.
  - destruct (PayoutStatus_eqb (PayoutRow.status x) PROCESSING) eqn:Est.
    + injection E as <-. repeat split; [|exact Hid].
      destruct (PayoutRow.status x); [reflexivity|discriminate].
    + exfalso. apply find_some in E. destruct E as [Hin E].
      apply andb_true_iff in E. destruct E as [E _].
      apply String.eqb_eq in E. apply Hx. rewrite Hid, <- E.
      apply in_map. exact Hin.
  - apply IH; assumption.
Qed.



(** What a request that resolved went through. *)
Lemma requestPayout_resolved authUserId paypalEmail newPayoutId bk payout :
  fst (requestPayout authUserId paypalEmail newPayoutId bk) = Resolved payout ->
  exists userId doctor email,
    authUserId = Some userId
    /\ findDoctorByClerkId (Books.tables bk) userId = Some doctor
    /\ truthy paypalEmail = Some email
    /\ findPendingPayout (Books.payouts bk) (UserRow.id doctor) = None
    /\ 1 <= UserRow.credits doctor
    /\ payout
       = {| PayoutRow.id := newPayoutId;
            PayoutRow.doctorId := UserRow.id doctor;
            PayoutRow.amount := UserRow.credits doctor * CREDIT_VALUE;
            PayoutRow.credits := UserRow.credits doctor;
            PayoutRow.platformFee :=
              UserRow.credits doctor * PLATFORM_FEE_PER_CREDIT;
            PayoutRow.netAmount :=
              UserRow.credits doctor * DOCTOR_EARNINGS_PER_CREDIT;
            PayoutRow.paypalEmail := email;
            PayoutRow.status := PROCESSING;
            PayoutRow.processedAt := None;
            PayoutRow.processedBy := None |}
    /\ snd (requestPayout authUserId paypalEmail newPayoutId bk)
       = {| Books.tables := Books.tables bk;
            Books.payouts := Books.payouts bk ++ [payout] |}.
Proof.
  unfold requestPayout. destruct authUserId as [userId|]; [|discriminate].
  cbv zeta.
  destruct (findDoctorByClerkId (Books.tables bk) userId) as [doctor|] eqn:Ed;
    [|discriminate].
  destruct (truthy paypalEmail) as [email|] eqn:Ee; [|discriminate].
  destruct (findPendingPayout (Books.payouts bk) (UserRow.id doctor))
    eqn:Ep; [discriminate|].
  destruct (Z.eqb_spec (UserRow.credits doctor) 0) as [|Hz]; [discriminate|].
  destruct (Z.ltb_spec (UserRow.credits doctor) 1) as [|Hone];
    [discriminate|].
  cbn [fst snd]. intros E. injection E as <-.
  exists userId, doctor, email. repeat split; assumption.
Qed.

(** A request that is rejected writes nothing. *)
Lemma requestPayout_rejected authUserId paypalEmail newPayoutId bk message :
  fst (requestPayout authUserId paypalEmail newPayoutId bk) = Rejected message ->
  snd (requestPayout authUserId paypalEmail newPayoutId bk) = bk.
Proof.
  unfold requestPayout. destruct authUserId as [userId|]; [|reflexivity].
  cbv zeta.
  destruct (findDoctorByClerkId _ _) as [doctor|]; [|reflexivity].
  destruct (truthy paypalEmail) as [email|]; [|reflexivity].
  destruct (findPendingPayout _ _); [reflexivity|].
  destruct (_ =? 0); [reflexivity|].
  destruct (_ <? 1); [reflexivity|]. discriminate.
Qed.

End PayoutFacts.
Import PayoutFacts.

Module ApproveFacts.

(** The name written in [processedBy]. *)
Definition processedByOf (authUserId : option string) (db : Database.t)
  : string :=
  match authUserId with
  | Some userId =>
      match findUserByClerkId db userId with
      | Some a => UserRow.id a
      | None => "unknown"
      end
  | None => "unknown"
  end.

(** What an approval that resolved went through and wrote. *)
Lemma approvePayout_resolved authUserId payoutId now bk r :
  fst (approvePayout authUserId payoutId now bk) = Resolved r ->
  exists id payout doctor payouts' doctor' rows,
    verifyAdmin authUserId (Books.tables bk) = true
    /\ truthy payoutId = Some id
    /\ findProcessingPayout (Books.payouts bk) id = Some payout
    /\ findUserById (Books.tables bk) (PayoutRow.doctorId payout)
       = Some doctor
    /\ PayoutRow.credits payout <= UserRow.credits doctor
    /\ updatePayoutRow id
         (markProcessed now (processedByOf authUserId (Books.tables bk)))
         (Books.payouts bk) = Some payouts'
    /\ updateUserRow (PayoutRow.doctorId payout)
         (decrementCredits (PayoutRow.credits payout))
         (Database.users (Books.tables bk)) = Some (doctor', rows)
    /\ snd (approvePayout authUserId payoutId now bk)
       = {| Books.tables :=
              createCreditTransaction (withUsers (Books.tables bk) rows)
                {| CreditTransaction.userId := PayoutRow.doctorId payout;
                   CreditTransaction.amount := - PayoutRow.credits payout;
                   CreditTransaction.type := ADMIN_ADJUSTMENT;
                   CreditTransaction.packageId := None |};
            Books.payouts := payouts' |}.
Proof.
  unfold approvePayout.
  destruct (verifyAdmin authUserId (Books.tables bk)) eqn:Hadmin;
    cbn [negb]; [|discriminate].
  destruct (truthy payoutId) as [id|] eqn:Hid; [|discriminate].
  cbv zeta. destruct authUserId as [userId|]; [|discriminate].
  destruct (findProcessingPayout (Books.payouts bk) id) as [payout|] eqn:Hp;
    [|discriminate].
  destruct (findUserById (Books.tables bk) (PayoutRow.doctorId payout))
    as [doctor|] eqn:Hd; [|discriminate].
  destruct (Z.ltb_spec (UserRow.credits doctor) (PayoutRow.credits payout))
    as [|Hge]; [discriminate|].
  unfold settlePayout, processedByOf.
  destruct (updatePayoutRow id _ (Books.payouts bk)) as [payouts'|] eqn:E1;
    [|discriminate].
  destruct (updateUserRow (PayoutRow.doctorId payout) _ _)
    as [[doctor' rows]|] eqn:E2; [|discriminate].
  intros _. exists id, payout, doctor, payouts', doctor', rows.
  repeat split; assumption.
Qed.

(** An approval that is rejected writes nothing. *)
Lemma approvePayout_rejected authUserId payoutId now bk message :
  fst (approvePayout authUserId payoutId now bk) = Rejected message ->
  snd (approvePayout authUserId payoutId now bk) = bk.
Proof.
  unfold approvePayout.
  destruct (verifyAdmin authUserId (Books.tables bk)); cbn [negb];
    [|reflexivity].
  destruct (truthy payoutId) as [id|]; [|reflexivity].
  cbv zeta. destruct authUserId as [userId|]; [|reflexivity].
  destruct (findProcessingPayout _ _) as [payout|]; [|reflexivity].
  destruct (findUserById _ _) as [doctor|]; [|reflexivity].
  destruct (_ <? _); [reflexivity|].
  destruct (settlePayout _ _ _ _ _); [discriminate|reflexivity].
Qed.

End ApproveFacts.
Import ApproveFacts.

(** ** Sample books: the sample tables, an administrator, no payout yet *)

Definition sampleBooks : Books.t :=
  {| Books.tables := sampleAdminDb; Books.payouts := [] |}.

(** The sample books after the doctor of the sample asked for a payout. *)
Definition requestedBooks : Books.t :=
  snd (requestPayout (Some "clerk_d1"%string)
         (Some "dee@example.org"%string) "po1" sampleBooks).

(* ===================================================================== *)
(** ** Properties of the payouts *)
(* ===================================================================== *)

(** X18.  A payout request that resolves is for the whole balance of the
    signed-in doctor, at least one credit, at 10 per credit of which 2 are
    the fee of the platform and 8 the doctor's: the amount is the fee plus
    the net amount.  It is added as PROCESSING, the doctor had no payout in
    process, and no credit is taken yet: all other tables are untouched.
    A request that is rejected writes nothing. *)
Theorem payout_request_amounts (authUserId paypalEmail : option string)
  (newPayoutId : string) (bk : Books.t) :
  let call := requestPayout authUserId paypalEmail newPayoutId bk in
  (forall payout, fst call = Resolved payout ->
     exists userId doctor,
       authUserId = Some userId
       /\ findDoctorByClerkId (Books.tables bk) userId = Some doctor
       /\ PayoutRow.doctorId payout = UserRow.id doctor
       /\ PayoutRow.credits payout = UserRow.credits doctor
       /\ 1 <= PayoutRow.credits payout
       /\ PayoutRow.amount payout = 10 * PayoutRow.credits payout
       /\ PayoutRow.platformFee payout = 2 * PayoutRow.credits payout
       /\ PayoutRow.netAmount payout = 8 * PayoutRow.credits payout
       /\ PayoutRow.amount payout
          = PayoutRow.platformFee payout + PayoutRow.netAmount payout
       /\ PayoutRow.status payout = PROCESSING
       /\ findPendingPayout (Books.payouts bk) (UserRow.id doctor) = None
       /\ Books.payouts (snd call) = Books.payouts bk ++ [payout]
       /\ Books.tables (snd call) = Books.tables bk)
  /\ (forall message, fst call = Rejected message -> snd call = bk).
Proof.
  cbv zeta. split.
  - intros payout H.
    destruct (requestPayout_resolved _ _ _ _ _ H)
      as (userId & doctor & email & Ha & Hd & _ & Hp & Hc & -> & ->).
    exists userId, doctor.
    cbn [PayoutRow.doctorId PayoutRow.credits PayoutRow.amount
           PayoutRow.platformFee PayoutRow.netAmount PayoutRow.status
           Books.payouts Books.tables].
    unfold CREDIT_VALUE, PLATFORM_FEE_PER_CREDIT, DOCTOR_EARNINGS_PER_CREDIT.
    repeat split; try assumption; try reflexivity; lia.
  - apply requestPayout_rejected.
Qed.

Lemma payout_request_amounts_witness :
  snd (requestPayout None (Some "dee@example.org"%string) "po1" sampleBooks)
  = sampleBooks.
Proof.
  apply (proj2 (payout_request_amounts None (Some "dee@example.org"%string)
                  "po1" sampleBooks) "Unauthorized"%string).
  reflexivity.
Defined.

(** The doctor of the sample, with 8 credits, asks for a payout: 80 in
    all, 16 for the platform, 64 for the doctor. *)
Example payout_scenario :
  match fst (requestPayout (Some "clerk_d1"%string)
               (Some "dee@example.org"%string) "po1" sampleBooks) with
  | Resolved p =>
      (PayoutRow.credits p, PayoutRow.amount p, PayoutRow.platformFee p,
       PayoutRow.netAmount p)
  | Rejected _ => (0, 0, 0, 0)
  end = (8, 80, 16, 64).
Proof. reflexivity. Qed.



(** With a payout in process, the second request of the same doctor is
    refused and the table of the payouts is left as it was; the approval
    of the first leaves no payout in process. *)
Example second_request_scenario :
  fst (requestPayout (Some "clerk_d1"%string)
         (Some "dee@example.org"%string) "po2" requestedBooks)
  = Rejected
      "Failed to request payout: You already have a pending payout request. Please wait for it to be processed."
  /\ map PayoutRow.status (Books.payouts requestedBooks) = [PROCESSING]
  /\ map PayoutRow.status
       (Books.payouts
          (snd (requestPayout (Some "clerk_d1"%string)
                  (Some "dee@example.org"%string) "po2" requestedBooks)))
     = [PROCESSING]
  /\ map PayoutRow.status
       (Books.payouts
          (snd (approvePayout (Some "clerk_adm"%string) (Some "po1"%string)
                  7 requestedBooks)))
     = [PROCESSED].
Proof. repeat split. Qed.

Module SettleFacts.

Lemma find_payout_absent (p : PayoutRow.t -> bool) (id : string)
  (rows : list PayoutRow.t) :
  ~ In id (map PayoutRow.id rows) ->
  find (fun x => String.eqb (PayoutRow.id x) id && p x) rows = None.
Proof.
  induction rows as [|x rows IH]; intros H; [reflexivity|].
  cbn [map In] in H. cbn [find].
  destruct (String.eqb_spec (PayoutRow.id x) id) as [E|_]; [tauto|].
  cbn [andb]. apply IH. tauto.
Qed.

(** The unique row of an id, taken apart. *)
Lemma find_payout_split (id : string) (rows pre post : list PayoutRow.t)
  (p q : PayoutRow.t) :
  NoDup (map PayoutRow.id rows) ->
  rows = pre ++ p :: post ->
  find (hasPayoutId id) rows = Some q ->
  PayoutRow.id q = id ->
  find (hasPayoutId id) (pre ++ p :: post) = Some p ->
  p = q /\ ~ In id (map PayoutRow.id pre) /\ ~ In id (map PayoutRow.id post).
Proof.
  intros Hnd -> Hq Hid Hp. rewrite Hp in Hq. injection Hq as <-.
  rewrite map_app in Hnd. cbn [map] in Hnd. rewrite Hid in Hnd.
  split; [reflexivity|]. split.
  - intros Hin. apply NoDup_remove_2 in Hnd. apply Hnd.
    apply in_or_app. left. exact Hin.
  - intros Hin. apply NoDup_remove_2 in Hnd. apply Hnd.
    apply in_or_app. right. exact Hin.
Qed.

Lemma find_app_absent (p : PayoutRow.t -> bool) (id : string)
  (pre rest : list PayoutRow.t) :
  ~ In id (map PayoutRow.id pre) ->
  find (fun x => String.eqb (PayoutRow.id x) id && p x) (pre ++ rest)
  = find (fun x => String.eqb (PayoutRow.id x) id && p x) rest.
Proof.
  induction pre as [|x pre IH]; intros H; [reflexivity|].
  cbn [map In] in H. cbn [app find].
  destruct (String.eqb_spec (PayoutRow.id x) id) as [E|_]; [tauto|].
  cbn [andb]. apply IH. tauto.
Qed.

End SettleFacts.
Import SettleFacts.

(** X20.  An approval that resolves settles one payout: the signed-in user
    is an administrator, the payout of that id was in process and asks for
    no more credits than the doctor holds; it is marked PROCESSED, with the
    reading of the clock and the administrator, in its place in the table;
    the doctor's balance goes down by the credits of the payout and stays
    at or above zero, the ledger gains the matching negative row, and the
    appointments are untouched.  An approval that is rejected writes
    nothing. *)
Theorem approved_payout_is_settled (authUserId field : option string)
  (now : Z) (bk : Books.t) :
  NoDup (map PayoutRow.id (Books.payouts bk)) ->
  let call := approvePayout authUserId field now bk in
  (forall r, fst call = Resolved r ->
     exists payout doctor pre post,
       verifyAdmin authUserId (Books.tables bk) = true
       /\ field = Some (PayoutRow.id payout)
       /\ Books.payouts bk = pre ++ payout :: post
       /\ PayoutRow.status payout = PROCESSING
       /\ Books.payouts (snd call)
          = pre
            ++ markProcessed now (processedByOf authUserId (Books.tables bk))
                 payout
            :: post
       /\ findUserById (Books.tables bk) (PayoutRow.doctorId payout)
          = Some doctor
       /\ findUserById (Books.tables (snd call)) (PayoutRow.doctorId payout)
          = Some (decrementCredits (PayoutRow.credits payout) doctor)
       /\ 0 <= UserRow.credits doctor - PayoutRow.credits payout
       /\ totalCredits (Database.users (Books.tables (snd call)))
          = totalCredits (Database.users (Books.tables bk))
            - PayoutRow.credits payout
       /\ Database.creditTransactions (Books.tables (snd call))
          = Database.creditTransactions (Books.tables bk)
            ++ [CreditTransaction.mk (PayoutRow.doctorId payout)
                  (- PayoutRow.credits payout) ADMIN_ADJUSTMENT None]
       /\ Database.appointments (Books.tables (snd call))
          = Database.appointments (Books.tables bk))
  /\ (forall message, fst call = Rejected message -> snd call = bk).
Proof.
  intros Hnd. cbv zeta. split; [|apply approvePayout_rejected].
  intros r Hr.
  destruct (approvePayout_resolved _ _ _ _ _ Hr)
    as (id & payout & doctor & payouts' & doctor' & rows & Hadmin & Hid
        & Hp & Hd & Hc & Hupd & Huser & ->).
  destruct (findProcessingPayout_by_id _ _ _ Hp Hnd) as (Hfind & Hst & Hpid).
  destruct (updatePayoutRow_inv _ _ _ _ Hupd)
    as (pre & p & post & Hrows & -> & Hfind').
  rewrite Hfind in Hfind'. injection Hfind' as <-.
  pose proof (updateUserRow_inv _ _ (id_incrementCredits _) _ _ _ Huser)
    as (u & Hf & _ & Ht & _ & _ & Hfindu).
  destruct (find_hasId_own _ _ _ Hd) as [Hown Hdid].
  rewrite <- Hdid in Hf at 1. rewrite Hown in Hf. injection Hf as <-.
  assert (Hfield : field = Some id).
  { destruct field as [f|]; [|discriminate]. cbn [truthy] in Hid.
    destruct (String.eqb f ""); [discriminate|exact Hid]. }
  exists payout, doctor, pre, post.
  cbn [Books.tables Books.payouts createCreditTransaction withUsers
         Database.users Database.creditTransactions Database.appointments].
  rewrite Hpid.
  split; [exact Hadmin|]. split; [exact Hfield|]. split; [exact Hrows|].
  split; [exact Hst|]. split; [reflexivity|]. split; [exact Hd|].
  split.
  { unfold findUserById. cbn [Database.users].
    change (fun x => String.eqb (UserRow.id x) (PayoutRow.doctorId payout))
      with (hasId (PayoutRow.doctorId payout)).
    rewrite Hfindu, String.eqb_refl. reflexivity. }
  split; [lia|]. split; [|split; reflexivity].
  rewrite Ht. unfold decrementCredits, incrementCredits.
  cbn [UserRow.credits]. lia.
Qed.

Lemma approved_payout_is_settled_witness :
  exists payout doctor pre post,
    verifyAdmin (Some "clerk_adm"%string) (Books.tables requestedBooks) = true
    /\ Some "po1"%string = Some (PayoutRow.id payout)
    /\ Books.payouts requestedBooks = pre ++ payout :: post
    /\ PayoutRow.status payout = PROCESSING
    /\ Books.payouts
         (snd (approvePayout (Some "clerk_adm"%string) (Some "po1"%string) 7
                 requestedBooks))
       = pre
         ++ markProcessed 7
              (processedByOf (Some "clerk_adm"%string)
                 (Books.tables requestedBooks)) payout
         :: post
    /\ findUserById (Books.tables requestedBooks) (PayoutRow.doctorId payout)
       = Some doctor
    /\ findUserById
         (Books.tables
            (snd (approvePayout (Some "clerk_adm"%string) (Some "po1"%string)
                    7 requestedBooks)))
         (PayoutRow.doctorId payout)
       = Some (decrementCredits (PayoutRow.credits payout) doctor)
    /\ 0 <= UserRow.credits doctor - PayoutRow.credits payout
    /\ totalCredits
         (Database.users
            (Books.tables
               (snd (approvePayout (Some "clerk_adm"%string)
                       (Some "po1"%string) 7 requestedBooks))))
       = totalCredits (Database.users (Books.tables requestedBooks))
         - PayoutRow.credits payout
    /\ Database.creditTransactions
         (Books.tables
            (snd (approvePayout (Some "clerk_adm"%string) (Some "po1"%string)
                    7 requestedBooks)))
       = Database.creditTransactions (Books.tables requestedBooks)
         ++ [CreditTransaction.mk (PayoutRow.doctorId payout)
               (- PayoutRow.credits payout) ADMIN_ADJUSTMENT None]
    /\ Database.appointments
         (Books.tables
            (snd (approvePayout (Some "clerk_adm"%string) (Some "po1"%string)
                    7 requestedBooks)))
       = Database.appointments (Books.tables requestedBooks).
Proof.
  refine (proj1 (approved_payout_is_settled (Some "clerk_adm"%string)
                   (Some "po1"%string) 7 requestedBooks _) actionDone _).
  - cbn. repeat constructor. intros [].
  - reflexivity.
Defined.

(** X21.  A payout is paid once.  After an approval has resolved, every
    further approval of the same id, by anyone and at any time, is rejected
    and writes nothing; for an administrator the message is that the
    request was not found or already processed. *)
Theorem payout_is_paid_once (authUserId field : option string) (now : Z)
  (bk : Books.t) (r : ActionResponse.t) (authUserId' : option string)
  (now' : Z) :
  NoDup (map PayoutRow.id (Books.payouts bk)) ->
  fst (approvePayout authUserId field now bk) = Resolved r ->
  let bk' := snd (approvePayout authUserId field now bk) in
  snd (approvePayout authUserId' field now' bk') = bk'
  /\ (exists message,
        fst (approvePayout authUserId' field now' bk') = Rejected message)
  /\ (verifyAdmin authUserId' (Books.tables bk') = true ->
      fst (approvePayout authUserId' field now' bk')
      = Rejected
          "Failed to approve payout: Payout request not found or already processed").
Proof.
  intros Hnd Hr. cbv zeta.
  destruct (approvePayout_resolved _ _ _ _ _ Hr)
    as (id & payout & doctor & payouts' & doctor' & rows & Hadmin & Hid
        & Hp & Hd & Hc & Hupd & Huser & Hsnd).
  destruct (findProcessingPayout_by_id _ _ _ Hp Hnd) as (Hfind & Hst & Hpid).
  destruct (updatePayoutRow_inv _ _ _ _ Hupd)
    as (pre & p & post & Hrows & -> & Hfind').
  assert (Hsplit := Hfind'). rewrite Hrows in Hsplit.
  destruct (find_payout_split id _ pre post p payout Hnd Hrows Hfind Hpid
              Hsplit) as (-> & Hpre & Hpost).
  assert (Hgone :
            findProcessingPayout
              (Books.payouts (snd (approvePayout authUserId field now bk))) id
            = None).
  { rewrite Hsnd. cbn [Books.payouts]. unfold findProcessingPayout.
    rewrite (find_app_absent _ id pre _ Hpre). cbn [find].
    cbn [markProcessed PayoutRow.id PayoutRow.status PayoutStatus_eqb].
    rewrite andb_false_r. apply find_payout_absent. exact Hpost. }
  assert (Hcall :
            forall a,
              approvePayout authUserId' field now' a
              = if negb (verifyAdmin authUserId' (Books.tables a))
                then (Rejected "Unauthorized", a)
                else
                  match authUserId' with
                  | None =>
                      (Rejected "Failed to approve payout: Unauthorized", a)
                  | Some userId =>
                      match findProcessingPayout (Books.payouts a) id with
                      | None =>
                          (Rejected
                             "Failed to approve payout: Payout request not found or already processed",
                           a)
                      | Some _ => approvePayout authUserId' field now' a
                      end
                  end).
  { intros a. unfold approvePayout.
    destruct (negb (verifyAdmin authUserId' (Books.tables a)));
      [reflexivity|].
    rewrite Hid. cbv zeta. destruct authUserId'; [|reflexivity].
    destruct (findProcessingPayout (Books.payouts a) id); reflexivity. }
  rewrite Hcall, Hgone.
  destruct (verifyAdmin authUserId' _) eqn:Hadmin'; cbn [negb].
  - destruct authUserId' as [userId'|]; [|discriminate Hadmin'].
    cbn [fst snd]. split; [reflexivity|]. split; [eexists|]; reflexivity.
  - cbn [fst snd]. split; [reflexivity|].
    split; [eexists; reflexivity|discriminate].
Qed.

Lemma payout_is_paid_once_witness :
  snd (approvePayout (Some "clerk_adm"%string) (Some "po1"%string) 9
         (snd (approvePayout (Some "clerk_adm"%string) (Some "po1"%string) 7
                 requestedBooks)))
  = snd (approvePayout (Some "clerk_adm"%string) (Some "po1"%string) 7
           requestedBooks)
  /\ (exists message,
        fst (approvePayout (Some "clerk_adm"%string) (Some "po1"%string) 9
               (snd (approvePayout (Some "clerk_adm"%string)
                       (Some "po1"%string) 7 requestedBooks)))
        = Rejected message)
  /\ (verifyAdmin (Some "clerk_adm"%string)
        (Books.tables
           (snd (approvePayout (Some "clerk_adm"%string) (Some "po1"%string)
                   7 requestedBooks))) = true ->
      fst (approvePayout (Some "clerk_adm"%string) (Some "po1"%string) 9
             (snd (approvePayout (Some "clerk_adm"%string)
                     (Some "po1"%string) 7 requestedBooks)))
      = Rejected
          "Failed to approve payout: Payout request not found or already processed").
Proof.
  refine (payout_is_paid_once (Some "clerk_adm"%string) (Some "po1"%string) 7
            requestedBooks actionDone (Some "clerk_adm"%string) 9 _ _).
  - cbn. repeat constructor. intros [].
  - reflexivity.
Defined.

(** X22.  A payout that is requested and then approved, with nothing in
    between, takes the whole balance: with unique user ids and a payout id
    that is new, the approval by an administrator resolves, the doctor is
    left with no credit, and the payout stands as PROCESSED. *)
Theorem request_then_approve_empties_balance (doctorAuth adminAuth : string)
  (paypalEmail : option string) (newPayoutId : string) (now : Z)
  (bk : Books.t) (payout : PayoutRow.t) :
  NoDup (map UserRow.id (Database.users (Books.tables bk))) ->
  ~ In newPayoutId (map PayoutRow.id (Books.payouts bk)) ->
  newPayoutId <> ""%string ->
  verifyAdmin (Some adminAuth) (Books.tables bk) = true ->
  fst (requestPayout (Some doctorAuth) paypalEmail newPayoutId bk)
  = Resolved payout ->
  let bk1 := snd (requestPayout (Some doctorAuth) paypalEmail newPayoutId bk)
  in
  let bk2 := snd (approvePayout (Some adminAuth) (Some newPayoutId) now bk1)
  in
  fst (approvePayout (Some adminAuth) (Some newPayoutId) now bk1)
  = Resolved actionDone
  /\ (exists doctor,
        findUserById (Books.tables bk2) (PayoutRow.doctorId payout)
        = Some doctor
        /\ UserRow.credits doctor = 0)
  /\ Books.payouts bk2
     = Books.payouts bk
       ++ [markProcessed now
             (processedByOf (Some adminAuth) (Books.tables bk)) payout].
Proof.
  intros Hnd Hfresh Hne Hadmin Hreq. cbv zeta.
  destruct (requestPayout_resolved _ _ _ _ _ Hreq)
    as (userId & doctor & email & Ha & Hd & _ & _ & Hc & Hrow & ->).
  assert (Hpid : PayoutRow.id payout = newPayoutId) by (now rewrite Hrow).
  assert (Hdid : PayoutRow.doctorId payout = UserRow.id doctor)
    by (now rewrite Hrow).
  assert (Hcred : PayoutRow.credits payout = UserRow.credits doctor)
    by (now rewrite Hrow).
  assert (Hst : PayoutRow.status payout = PROCESSING) by (now rewrite Hrow).
  assert (Hin : In doctor (Database.users (Books.tables bk)))
    by (unfold findDoctorByClerkId in Hd; apply (find_some _ _ Hd)).
  pose proof (find_by_id_NoDup _ _ Hnd Hin) as Hown.
  unfold approvePayout. cbn [Books.tables Books.payouts].
  rewrite Hadmin. cbn [negb truthy].
  destruct (String.eqb_spec newPayoutId "") as [|_]; [contradiction|].
  cbv zeta.
  assert (Hfp : findProcessingPayout (Books.payouts bk ++ [payout])
                  newPayoutId = Some payout).
  { unfold findProcessingPayout.
    rewrite (find_app_absent _ newPayoutId _ _ Hfresh). cbn [find].
    rewrite Hpid, Hst, String.eqb_refl. reflexivity. }
  rewrite Hfp. unfold findUserById. rewrite Hdid.
  change (fun u => String.eqb (UserRow.id u) (UserRow.id doctor))
    with (hasId (UserRow.id doctor)).
  rewrite Hown, Hcred, Z.ltb_irrefl.
  unfold settlePayout. cbn [Books.tables Books.payouts].
  assert (Hup : updatePayoutRow newPayoutId
                  (markProcessed now
                     (processedByOf (Some adminAuth) (Books.tables bk)))
                  (Books.payouts bk ++ [payout])
                = Some (Books.payouts bk
                        ++ [markProcessed now
                              (processedByOf (Some adminAuth)
                                 (Books.tables bk)) payout])).
  { clear - Hfresh Hpid. revert Hfresh.
    generalize (Books.payouts bk). intros rows.
    induction rows as [|x rows IH]; intros Hfresh;
      cbn [app updatePayoutRow].
    - now rewrite Hpid, String.eqb_refl.
    - cbn [map In] in Hfresh.
      destruct (String.eqb_spec (PayoutRow.id x) newPayoutId) as [E|_];
        [tauto|].
      rewrite IH by tauto. reflexivity. }
  unfold processedByOf in Hup. rewrite Hup.
  destruct (updateUserRow_found (UserRow.id doctor)
              (decrementCredits (UserRow.credits doctor))
              (Database.users (Books.tables bk)) doctor Hown)
    as [rows Hrows].
  rewrite Hdid, Hcred, Hrows. cbn [fst snd Books.tables Books.payouts].
  split; [reflexivity|]. split; [|reflexivity].
  destruct (updateUserRow_inv _ _ (id_incrementCredits _) _ _ _ Hrows)
    as (u & Hf & _ & _ & _ & _ & Hfind).
  rewrite Hown in Hf. injection Hf as <-.
  eexists. split.
  - cbn [createCreditTransaction withUsers Database.users].
    change (fun u => String.eqb (UserRow.id u) (UserRow.id doctor))
      with (hasId (UserRow.id doctor)).
    rewrite Hfind, String.eqb_refl. reflexivity.
  - unfold decrementCredits, incrementCredits. cbn [UserRow.credits]. lia.
Qed.

Lemma request_then_approve_empties_balance_witness :
  fst (approvePayout (Some "clerk_adm"%string) (Some "po1"%string) 7
         requestedBooks) = Resolved actionDone
  /\ (exists doctor,
        findUserById
          (Books.tables
             (snd (approvePayout (Some "clerk_adm"%string)
                     (Some "po1"%string) 7 requestedBooks)))
          (PayoutRow.doctorId
             (PayoutRow.mk "po1" "d1" 80 8 16 64 "dee@example.org"
                PROCESSING None None))
        = Some doctor
        /\ UserRow.credits doctor = 0)
  /\ Books.payouts
       (snd (approvePayout (Some "clerk_adm"%string) (Some "po1"%string) 7
               requestedBooks))
     = Books.payouts sampleBooks
       ++ [markProcessed 7
             (processedByOf (Some "clerk_adm"%string)
                (Books.tables sampleBooks))
             (PayoutRow.mk "po1" "d1" 80 8 16 64 "dee@example.org"
                PROCESSING None None)].
Proof.
  refine (request_then_approve_empties_balance "clerk_d1" "clerk_adm"
            (Some "dee@example.org"%string) "po1" 7 sampleBooks
            (PayoutRow.mk "po1" "d1" 80 8 16 64 "dee@example.org"
               PROCESSING None None) _ _ _ _ _).
  - cbn. repeat constructor; cbn; intuition discriminate.
  - intros [].
  - discriminate.
  - reflexivity.
  - reflexivity.
Defined.

(* ===================================================================== *)
(** * Monthly credits: [checkAndAllocateCredits] of src/actions/credits *)
(* ===================================================================== *)

(** What the action reads of a transaction of the user it is given. *)
Module TransactionInfo.
Record t : Type := mk { createdAt : Z; packageId : option string }.
End TransactionInfo.

(** [PLAN_CREDITS] *)
Definition PLAN_CREDITS (plan : string) : Z :=
  if String.eqb plan "free_user" then 2
  else if String.eqb plan "standard" then 10
  else if String.eqb plan "premium" then 24
  else 0.

(** The plan the action settles on, from the answers of [has] of the
    identity service. *)
Definition currentPlanOf (has : string -> bool) : option string :=
  if has "premium"%string then Some "premium"%string
  else if has "standard"%string then Some "standard"%string
  else if has "free_user"%string then Some "free_user"%string
  else None.

(** [format(date, "yyyy-MM")], kept as the year and the month. *)
Definition format_yyyy_MM (tz date : Z) : Z * Z :=
  (getFullYear tz date, getMonth tz date + 1).

(** The test on the latest transaction: same month and same plan. *)
Definition alreadyAllocated (tz now : Z) (currentPlan : string)
  (transactions : list TransactionInfo.t) : bool :=
  match transactions with
  | [] => false
  | latestTransaction :: _ =>
      let '(y1, m1) :=
        format_yyyy_MM tz (TransactionInfo.createdAt latestTransaction) in
      let '(y2, m2) := format_yyyy_MM tz now in
      ((y1 =? y2) && (m1 =? m2))
      && match TransactionInfo.packageId latestTransaction with
         | Some plan => String.eqb plan currentPlan
         | None => false
         end
  end.

(** The callback of the transaction of [checkAndAllocateCredits]. *)
Definition allocateCredits (user : UserRow.t) (currentPlan : string)
  (tx : Database.t) : Outcome (UserRow.t * Database.t) :=
  let tx1 :=
    createCreditTransaction tx
      {| CreditTransaction.userId := UserRow.id user;
         CreditTransaction.amount := PLAN_CREDITS currentPlan;
         CreditTransaction.type := CREDIT_PURCHASE;
         CreditTransaction.packageId := Some currentPlan |} in
  match updateUserRow (UserRow.id user)
          (incrementCredits (PLAN_CREDITS currentPlan))
          (Database.users tx1) with
  | None => Rejected recordNotFound
  | Some (updatedUser, rows) => Resolved (updatedUser, withUsers tx1 rows)
  end.

(** [checkAndAllocateCredits], given the answers of [has], the reading of
    the clock and the zone.  The user comes with the transactions the
    caller fetched, latest first. *)
Definition checkAndAllocateCredits (has : string -> bool) (now tz : Z)
  (user : option (UserRow.t * list TransactionInfo.t)) (db : Database.t)
  : option UserRow.t * Database.t :=
  match user with
  | None => (None, db)
  | Some (user, transactions) =>
      if negb (UserRole_eqb (UserRow.role user) PATIENT) then (Some user, db)
      else
        match currentPlanOf has with
        | None => (Some user, db)
        | Some currentPlan =>
            if alreadyAllocated tz now currentPlan transactions then
              (Some user, db)
            else
              match transaction db (allocateCredits user currentPlan) with
              | (Resolved updatedUser, db') => (Some updatedUser, db')
              | (Rejected _, db') => (None, db')
              end
        end
  end.

(** X23.  Monthly credits are written exactly when they are due: the user
    is a PATIENT whose row exists, some plan is active, and the latest
    transaction given is not one of this calendar month for the same plan.
    Then the balance of that user goes up by the credits of the best active
    plan (premium 24, else standard 10, else free_user 2), the ledger gains
    one CREDIT_PURCHASE row of that amount and plan, and the updated row is
    returned.  In every other case nothing is written. *)
Theorem monthly_credits_when_due (has : string -> bool) (now tz : Z)
  (user : UserRow.t) (transactions : list TransactionInfo.t)
  (db : Database.t) :
  let call :=
    checkAndAllocateCredits has now tz (Some (user, transactions)) db in
  let due plan row :=
    UserRow.role user = PATIENT
    /\ currentPlanOf has = Some plan
    /\ alreadyAllocated tz now plan transactions = false
    /\ findUserById db (UserRow.id user) = Some row in
  (forall plan row, due plan row ->
     fst call = Some (incrementCredits (PLAN_CREDITS plan) row)
     /\ findUserById (snd call) (UserRow.id user)
        = Some (incrementCredits (PLAN_CREDITS plan) row)
     /\ totalCredits (Database.users (snd call))
        = totalCredits (Database.users db) + PLAN_CREDITS plan
     /\ Database.creditTransactions (snd call)
        = Database.creditTransactions db
          ++ [CreditTransaction.mk (UserRow.id user) (PLAN_CREDITS plan)
                CREDIT_PURCHASE (Some plan)]
     /\ In (PLAN_CREDITS plan) [2; 10; 24]
     /\ (has "premium"%string = true -> PLAN_CREDITS plan = 24)
     /\ (has "premium"%string = false -> has "standard"%string = true ->
         PLAN_CREDITS plan = 10))
  /\ ((forall plan row, ~ due plan row) -> snd call = db).
Proof.
  cbv zeta. unfold checkAndAllocateCredits. split.
  - intros plan row (Hrole & Hplan & Hnew & Hrow).
    rewrite Hrole, Hplan, Hnew. cbn [UserRole_eqb negb].
    unfold transaction, allocateCredits.
    cbn [createCreditTransaction Database.users].
    destruct (find_hasId_own _ _ _ Hrow) as [Hown Hid].
    rewrite Hid in Hown.
    destruct (updateUserRow_found (UserRow.id user)
                (incrementCredits (PLAN_CREDITS plan)) _ _ Hown)
      as [rows Hrows].
    rewrite Hrows. cbn [fst snd].
    destruct (updateUserRow_inv _ _ (id_incrementCredits _) _ _ _ Hrows)
      as (u & Hf & _ & Ht & _ & _ & Hfind).
    rewrite Hown in Hf. injection Hf as <-.
    split; [reflexivity|]. split.
    { unfold findUserById. cbn [withUsers Database.users].
      change (fun u => String.eqb (UserRow.id u) (UserRow.id user))
        with (hasId (UserRow.id user)).
      rewrite Hfind, String.eqb_refl. reflexivity. }
    split.
    { cbn [withUsers Database.users]. rewrite Ht.
      unfold incrementCredits. cbn [UserRow.credits]. lia. }
    split; [reflexivity|].
    unfold currentPlanOf in Hplan.
    destruct (has "premium"%string).
    { injection Hplan as <-. cbn. split; [tauto|]. split; [reflexivity|].
      discriminate. }
    destruct (has "standard"%string).
    { injection Hplan as <-. cbn. split; [tauto|]. split; [discriminate|].
      reflexivity. }
    destruct (has "free_user"%string); [|discriminate].
    injection Hplan as <-. cbn. split; [tauto|]. split; discriminate.
  - intros Hnot.
    destruct (UserRole_eqb (UserRow.role user) PATIENT) eqn:Hrole;
      cbn [negb]; [|reflexivity].
    destruct (currentPlanOf has) as [plan|] eqn:Hplan; [|reflexivity].
    destruct (alreadyAllocated tz now plan transactions) eqn:Hnew;
      [reflexivity|].
    unfold transaction, allocateCredits.
    cbn [createCreditTransaction Database.users].
    destruct (updateUserRow (UserRow.id user) _ (Database.users db))
      as [[u rows]|] eqn:Hrows; [|reflexivity].
    exfalso.
    destruct (updateUserRow_inv _ _ (id_incrementCredits _) _ _ _ Hrows)
      as (row & Hf & _).
    apply (Hnot plan row). split; [|split; [reflexivity|split; [exact Hnew|exact Hf]]].
    destruct (UserRow.role user); (reflexivity || discriminate).
Qed.

(** A patient on the standard plan, whose latest transaction is of last
    month, gets ten credits. *)
Lemma monthly_credits_when_due_witness :
  fst (checkAndAllocateCredits (fun plan => String.eqb plan "standard")
         (Sample.at_ 8 0) 0
         (Some (SampleDb.patient1,
                [TransactionInfo.mk (Sample.at_ 8 0 - 5 * msPerDay)
                   (Some "standard"%string)]))
         SampleDb.db)
  = Some (incrementCredits (PLAN_CREDITS "standard") SampleDb.patient1).
Proof.
  refine (proj1 (proj1
    (monthly_credits_when_due (fun plan => String.eqb plan "standard")
       (Sample.at_ 8 0) 0 SampleDb.patient1
       [TransactionInfo.mk (Sample.at_ 8 0 - 5 * msPerDay)
          (Some "standard"%string)]
       SampleDb.db) "standard"%string SampleDb.patient1 _)).
  repeat split; vm_compute; reflexivity.
Defined.

(** The same patient asked again in the same month, with the transaction
    just written as the latest: nothing is written. *)
Example second_allocation_scenario :
  snd (checkAndAllocateCredits (fun plan => String.eqb plan "standard")
         (Sample.at_ 8 0 + 3 * msPerDay) 0
         (Some (SampleDb.patient1,
                [TransactionInfo.mk (Sample.at_ 8 0) (Some "standard"%string)]))
         SampleDb.db)
  = SampleDb.db.
Proof. vm_compute. reflexivity. Qed.
